(** * User management API: validation, record service and update orchestration

    A shallow embedding of [controllers/userController.js] together with the
    [users] and [managers] tables declared in [database/database.js].

    - JavaScript strings are modelled by [string]; the development covers
      ASCII text, on which [toUpperCase] maps a-z to A-Z and [trim] removes
      TAB, LF, VT, FF, CR and SPACE. A statement that says which names are
      blank or how a PAN is upper-cased is made for ASCII text
      ([ascii_text]); the digits of a number are read the same way on any
      text.
    - Request values are JSON values ([jsval]); a method call on a value
      that is not a string raises a [TypeError].
    - The store is a pair of row lists.  A statement fails only through a
      constraint of the schema (PRIMARY KEY, UNIQUE, NOT NULL).
    - One request is run to completion on the store: the callbacks of the
      handler are executed in the order the driver serialises them. *)

From Stdlib Require Import String Ascii List Bool Arith PeanoNat ZArith Lia.
Import ListNotations.
Local Open Scope string_scope.
Local Open Scope list_scope.
Local Open Scope nat_scope.

(** ** Strings *)

Module Str.

Definition code (c : ascii) : nat := nat_of_ascii c.

(** [c] lies in the character range [lo-hi]. *)
Definition in_range (lo hi c : ascii) : bool :=
  (code lo <=? code c) && (code c <=? code hi).

Definition is_digit (c : ascii) : bool := in_range "0" "9" c.
Definition is_upper (c : ascii) : bool := in_range "A" "Z" c.
Definition is_lower (c : ascii) : bool := in_range "a" "z" c.

(** White space removed by [String.prototype.trim], among the ASCII
    characters: TAB, LF, VT, FF, CR and SPACE. *)
Definition is_space (c : ascii) : bool :=
  ((9 <=? code c) && (code c <=? 13)) || (code c =? 32).

Fixpoint filter (f : ascii -> bool) (s : string) : string :=
  match s with
  | EmptyString => EmptyString
  | String c r => if f c then String c (filter f r) else filter f r
  end.

Fixpoint map (f : ascii -> ascii) (s : string) : string :=
  match s with
  | EmptyString => EmptyString
  | String c r => String (f c) (map f r)
  end.

Fixpoint forallb (f : ascii -> bool) (s : string) : bool :=
  match s with
  | EmptyString => true
  | String c r => f c && forallb f r
  end.

Fixpoint drop (n : nat) (s : string) : string :=
  match n, s with
  | O, _ => s
  | S _, EmptyString => EmptyString
  | S k, String _ r => drop k r
  end.

(** [s.replace(/\D/g, '')]: every character that is not a digit is removed. *)
Definition strip_non_digits (s : string) : string := filter is_digit s.

(** [s.slice(-n)]: the substring from index [max (length s - n) 0]. *)
Definition slice_last (n : nat) (s : string) : string :=
  drop (String.length s - n) s.

Definition upper_char (c : ascii) : ascii :=
  if is_lower c then ascii_of_nat (code c - 32) else c.

(** [s.toUpperCase()] on ASCII text: a-z become A-Z, every other
    character is kept. *)
Definition toUpperCase (s : string) : string := map upper_char s.

Fixpoint trimStart (s : string) : string :=
  match s with
  | EmptyString => EmptyString
  | String c r => if is_space c then trimStart r else s
  end.

Fixpoint trimEnd (s : string) : string :=
  match s with
  | EmptyString => EmptyString
  | String c r =>
      match trimEnd r with
      | EmptyString => if is_space c then EmptyString else String c EmptyString
      | r' => String c r'
      end
  end.

(** [s.trim()]. *)
Definition trim (s : string) : string := trimEnd (trimStart s).

(** [hay] ends with [suf]. *)
Definition ends_with (suf hay : string) : bool :=
  String.eqb (slice_last (String.length suf) hay) suf
  && (String.length suf <=? String.length hay).

End Str.

(** ** Regular expressions of the shape [^C1{n1}C2{n2}...$] *)

Module Regex.

Inductive cclass := Range (lo hi : ascii).

Definition in_class (k : cclass) (c : ascii) : bool :=
  match k with Range lo hi => Str.in_range lo hi c end.

(** A counted repetition [k{n}] consumes exactly [n] characters of [k]. *)
Fixpoint rep (k : cclass) (n : nat) (s : string) : option string :=
  match n with
  | O => Some s
  | S m =>
      match s with
      | String c r => if in_class k c then rep k m r else None
      | EmptyString => None
      end
  end.

Definition pattern := list (cclass * nat).

Fixpoint seq (p : pattern) (s : string) : option string :=
  match p with
  | [] => Some s
  | (k, n) :: q =>
      match rep k n s with
      | Some r => seq q r
      | None => None
      end
  end.

(** [/^p$/.test(s)]: without the [m] flag [$] is the end of the input. *)
Definition test (p : pattern) (s : string) : bool :=
  match seq p s with
  | Some EmptyString => true
  | _ => false
  end.

End Regex.

(** [/^[A-Z]{5}[0-9]{4}[A-Z]{1}$/] *)
Definition panRegex : Regex.pattern :=
  [ (Regex.Range "A" "Z", 5); (Regex.Range "0" "9", 4); (Regex.Range "A" "Z", 1) ].

(** ** JavaScript values *)

#[local] Unset Elimination Schemes.
Inductive jsval :=
| JUndefined
| JNull
| JBool (b : bool)
| JNum (n : Z)
| JStr (s : string)
| JArr (l : list jsval)
| JObj (l : list (string * jsval)).
#[local] Set Elimination Schemes.

(** An object: its own enumerable properties in enumeration order. *)
Definition object := list (string * jsval).

(** ToBoolean. *)
Definition truthy (v : jsval) : bool :=
  match v with
  | JUndefined | JNull => false
  | JBool b => b
  | JNum n => negb (Z.eqb n 0)
  | JStr s => negb (String.eqb s "")
  | JArr _ | JObj _ => true
  end.

(** [typeof v === 'string'] *)
Definition is_string (v : jsval) : bool :=
  match v with JStr _ => true | _ => false end.

Fixpoint lookup (k : string) (o : object) : option jsval :=
  match o with
  | [] => None
  | (k', v) :: r => if String.eqb k k' then Some v else lookup k r
  end.

(** [o.k]: the value of the property, [undefined] when there is none. *)
Definition prop (o : object) (k : string) : jsval :=
  match lookup k o with Some v => v | None => JUndefined end.

(** [k in o] *)
Definition has_key (o : object) (k : string) : bool :=
  match lookup k o with Some _ => true | None => false end.

(** [Object.keys(o)] *)
Definition keys (o : object) : list string := List.map fst o.

(** [o.k = v]: overwrite in place, or add as the last property. *)
Fixpoint set_prop (o : object) (k : string) (v : jsval) : object :=
  match o with
  | [] => [(k, v)]
  | (k', v') :: r =>
      if String.eqb k k' then (k, v) :: r else (k', v') :: set_prop r k v
  end.

(** [xs.includes(k)] on an array of strings. *)
Definition includes (xs : list string) (k : string) : bool :=
  existsb (String.eqb k) xs.

(** ** Completions: a value, or a thrown [TypeError] *)

Inductive completion (A : Type) :=
| Return (a : A)
| Throw.
Arguments Return {A} a.
Arguments Throw {A}.

Definition bind {A B} (c : completion A) (f : A -> completion B) : completion B :=
  match c with
  | Return a => f a
  | Throw => Throw
  end.

Notation "x <- c ;; k" := (bind c (fun x => k))
  (at level 61, c at next level, right associativity).

(** The receiver of a string method ([replace], [toUpperCase]): any value
    that is not a string has no such method and the call throws. *)
Definition string_method (v : jsval) : completion string :=
  match v with
  | JStr s => Return s
  | _ => Throw
  end.

(** ** Validation *)

Record validation := {
  isValid : bool;
  message : string;
  v_mob_num : option string;
  v_pan_num : option string
}.

Definition invalid (msg : string) : validation :=
  {| isValid := false; message := msg; v_mob_num := None; v_pan_num := None |}.

(** [checkMissingKeys(body, requiredKeys)] *)
Definition checkMissingKeys (body : object) (requiredKeys : list string) : list string :=
  List.filter (fun key => negb (has_key body key)) requiredKeys.

(** [!full_name || typeof full_name !== 'string' || full_name.trim().length === 0] *)
Definition blank_name (full_name : jsval) : bool :=
  negb (truthy full_name)
  || match full_name with
     | JStr s => String.length (Str.trim s) =? 0
     | _ => true
     end.

Definition formatMobNum (s : string) : string :=
  Str.slice_last 10 (Str.strip_non_digits s).

Definition validateUser (full_name mob_num pan_num : jsval) : completion validation :=
  if blank_name full_name then
    Return (invalid "Full name must not be empty.")
  else
    m <- string_method mob_num ;;
    let formattedMobNum := formatMobNum m in
    if negb (String.length formattedMobNum =? 10) then
      Return (invalid "Mobile number must be a valid 10-digit number.")
    else
      p <- string_method pan_num ;;
      let formattedPanNum := Str.toUpperCase p in
      if negb (Regex.test panRegex formattedPanNum) then
        Return (invalid "PAN number is not a valid format.")
      else
        Return {| isValid := true;
                  message := "Validation successful.";
                  v_mob_num := Some formattedMobNum;
                  v_pan_num := Some formattedPanNum |}.

Record update_validation := {
  u_isValid : bool;
  u_message : string;
  validatedData : object
}.

Definition u_invalid (msg : string) : update_validation :=
  {| u_isValid := false; u_message := msg; validatedData := [] |}.

Definition validKeys : list string := ["full_name"; "mob_num"; "pan_num"; "manager_id"].

(** The [for (const key in updateData)] loop of [validateUpdate], run over
    the keys still to visit, with the [validatedData] built so far. *)
Fixpoint validateUpdate_loop (updateData : object) (ks : list string)
    (validatedData : object) : completion update_validation :=
  match ks with
  | [] =>
      if List.length (keys validatedData) =? 0 then
        Return (u_invalid "No valid fields provided for update.")
      else
        Return {| u_isValid := true;
                  u_message := "Validation successful.";
                  validatedData := validatedData |}
  | key :: rest =>
      if negb (includes validKeys key) then
        Return (u_invalid ("Invalid key for update: " ++ key ++ "."))
      else if String.eqb key "full_name" then
        match prop updateData "full_name" with
        | JStr s =>
            if String.length (Str.trim s) =? 0 then
              Return (u_invalid "Full name must not be empty.")
            else
              validateUpdate_loop updateData rest
                (set_prop validatedData "full_name" (JStr s))
        | _ => Return (u_invalid "Full name must not be empty.")
        end
      else if String.eqb key "mob_num" then
        m <- string_method (prop updateData "mob_num") ;;
        let formattedMobNum := formatMobNum m in
        if negb (String.length formattedMobNum =? 10) then
          Return (u_invalid "Mobile number must be a valid 10-digit number.")
        else
          validateUpdate_loop updateData rest
            (set_prop validatedData "mob_num" (JStr formattedMobNum))
      else if String.eqb key "pan_num" then
        p <- string_method (prop updateData "pan_num") ;;
        let formattedPanNum := Str.toUpperCase p in
        if negb (Regex.test panRegex formattedPanNum) then
          Return (u_invalid "PAN number is not a valid format.")
        else
          validateUpdate_loop updateData rest
            (set_prop validatedData "pan_num" (JStr formattedPanNum))
      else
        (* case 'manager_id' *)
        validateUpdate_loop updateData rest
          (set_prop validatedData "manager_id" (prop updateData "manager_id"))
  end.

Definition validateUpdate (updateData : object) : completion update_validation :=
  validateUpdate_loop updateData (keys updateData) [].

(** ** The store: the tables of [initDatabase] *)

(** A row of [managers (manager_id TEXT PRIMARY KEY, manager_name TEXT NOT
    NULL, is_active INTEGER NOT NULL)]. *)
Module Manager.
Record row := {
  manager_id : string;
  manager_name : string;
  is_active : bool
}.
End Manager.

(** A row of [users]: [user_id TEXT PRIMARY KEY], [full_name TEXT NOT NULL],
    [mob_num TEXT UNIQUE NOT NULL], [pan_num TEXT UNIQUE NOT NULL],
    [manager_id TEXT NOT NULL], [created_at], [updated_at] (TEXT NOT NULL)
    and [is_active INTEGER NOT NULL], which only ever receives 0 or 1. *)
Module User.
Record row := {
  user_id : string;
  full_name : string;
  mob_num : string;
  pan_num : string;
  manager_id : string;
  created_at : string;
  updated_at : string;
  is_active : bool
}.

Definition set_full_name (v : string) (u : row) : row :=
  {| user_id := user_id u; full_name := v; mob_num := mob_num u;
     pan_num := pan_num u; manager_id := manager_id u;
     created_at := created_at u; updated_at := updated_at u;
     is_active := is_active u |}.

Definition set_mob_num (v : string) (u : row) : row :=
  {| user_id := user_id u; full_name := full_name u; mob_num := v;
     pan_num := pan_num u; manager_id := manager_id u;
     created_at := created_at u; updated_at := updated_at u;
     is_active := is_active u |}.

Definition set_pan_num (v : string) (u : row) : row :=
  {| user_id := user_id u; full_name := full_name u; mob_num := mob_num u;
     pan_num := v; manager_id := manager_id u;
     created_at := created_at u; updated_at := updated_at u;
     is_active := is_active u |}.

Definition set_manager_id (v : string) (u : row) : row :=
  {| user_id := user_id u; full_name := full_name u; mob_num := mob_num u;
     pan_num := pan_num u; manager_id := v;
     created_at := created_at u; updated_at := updated_at u;
     is_active := is_active u |}.

Definition set_updated_at (v : string) (u : row) : row :=
  {| user_id := user_id u; full_name := full_name u; mob_num := mob_num u;
     pan_num := pan_num u; manager_id := manager_id u;
     created_at := created_at u; updated_at := v;
     is_active := is_active u |}.

Definition set_is_active (v : bool) (u : row) : row :=
  {| user_id := user_id u; full_name := full_name u; mob_num := mob_num u;
     pan_num := pan_num u; manager_id := manager_id u;
     created_at := created_at u; updated_at := updated_at u;
     is_active := v |}.
End User.

Record db := {
  managers : list Manager.row;
  users : list User.row
}.

Definition with_users (d : db) (us : list User.row) : db :=
  {| managers := managers d; users := us |}.

(** The statements the controller issues. A bound parameter is a TEXT value
    or NULL ([None]); a comparison with NULL holds for no row. The FOREIGN
    KEY of [users.manager_id] is declared but never switched on (no
    [PRAGMA foreign_keys]), so it rejects nothing. *)
Module Sql.

Definition param := option string.

(** [column = ?] *)
Definition eq_param (column : string) (p : param) : bool :=
  match p with
  | Some s => String.eqb column s
  | None => false
  end.

(** [column IN (?, ..., ?)] *)
Definition in_params (column : string) (ps : list param) : bool :=
  existsb (eq_param column) ps.

(** [column LIKE '%' || digits]: the pattern the controller builds holds
    digits only after the leading [%], so it matches the rows whose column
    ends with them. *)
Definition like_suffix (column digits : string) : bool :=
  Str.ends_with digits column.

(** The outcome of [db.run]: [this.changes] and the new store, or [err]. *)
Inductive run_result :=
| Done (changes : nat) (d : db)
| Failed.

Definition count (f : User.row -> bool) (us : list User.row) : nat :=
  List.length (List.filter f us).

(** [SELECT is_active FROM managers WHERE manager_id = ?] through [db.get]:
    the first row, if any. *)
Definition get_manager_is_active (d : db) (manager_id : param) : option bool :=
  option_map Manager.is_active
    (List.find (fun m => eq_param (Manager.manager_id m) manager_id) (managers d)).

(** [SELECT * FROM users WHERE user_id = ? AND is_active = 1] through [db.get]. *)
Definition get_active_user (d : db) (user_id : param) : option User.row :=
  List.find (fun u => eq_param (User.user_id u) user_id && User.is_active u) (users d).

(** [INSERT INTO users (user_id, full_name, mob_num, pan_num, manager_id,
    created_at, updated_at, is_active) VALUES (?, ?, ?, ?, ?, ?, ?, 1)].
    The statement is rejected when a NOT NULL column receives NULL, when
    the primary key is taken, or when [mob_num] or [pan_num] is already
    held by a row (UNIQUE). *)
Definition insert_user (d : db) (user_id : string)
    (full_name mob_num pan_num manager_id : param)
    (created_at updated_at : string) : run_result :=
  match full_name, mob_num, pan_num, manager_id with
  | Some fn, Some mob, Some pan, Some mgr =>
      if existsb (fun u => String.eqb (User.user_id u) user_id
                           || String.eqb (User.mob_num u) mob
                           || String.eqb (User.pan_num u) pan) (users d)
      then Failed
      else Done 1 (with_users d (users d ++
             [ {| User.user_id := user_id; User.full_name := fn;
                  User.mob_num := mob; User.pan_num := pan;
                  User.manager_id := mgr; User.created_at := created_at;
                  User.updated_at := updated_at; User.is_active := true |} ]))
  | _, _, _, _ => Failed
  end.

(** [UPDATE users SET manager_id = ?, updated_at = ? WHERE user_id IN (...)] *)
Definition update_manager_in (d : db) (manager_id : param) (updated_at : string)
    (user_ids : list param) : run_result :=
  let hit u := in_params (User.user_id u) user_ids in
  match manager_id with
  | Some mgr =>
      Done (count hit (users d))
        (with_users d
           (List.map (fun u => if hit u
                               then User.set_updated_at updated_at (User.set_manager_id mgr u)
                               else u) (users d)))
  | None => if count hit (users d) =? 0 then Done 0 d else Failed
  end.

(** [UPDATE users SET is_active = 0, updated_at = ? WHERE user_id = ?]:
    no constraint of the schema can reject it. *)
Definition deactivate_user (d : db) (updated_at : string) (user_id : param) : nat * db :=
  let hit u := eq_param (User.user_id u) user_id in
  (count hit (users d),
   with_users d
     (List.map (fun u => if hit u
                         then User.set_updated_at updated_at (User.set_is_active false u)
                         else u) (users d))).

(** One [column = ?] of a SET clause, applied to a row. *)
Definition assign (column value : string) (u : User.row) : User.row :=
  if String.eqb column "full_name" then User.set_full_name value u
  else if String.eqb column "mob_num" then User.set_mob_num value u
  else if String.eqb column "pan_num" then User.set_pan_num value u
  else if String.eqb column "manager_id" then User.set_manager_id value u
  else if String.eqb column "updated_at" then User.set_updated_at value u
  else u.

Fixpoint assign_all (sets : list (string * string)) (u : User.row) : User.row :=
  match sets with
  | [] => u
  | (c, v) :: r => assign_all r (assign c v u)
  end.

(** All values of a SET clause, when none of them is NULL. *)
Fixpoint non_null (sets : list (string * param)) : option (list (string * string)) :=
  match sets with
  | [] => Some []
  | (c, Some v) :: r => option_map (cons (c, v)) (non_null r)
  | (_, None) :: _ => None
  end.

(** A UNIQUE column [col] is set to [v] on the rows satisfying [hit]: the
    statement is rejected when another row holds [v] or two rows are hit. *)
Definition unique_clash (col : User.row -> string) (v : string)
    (hit : User.row -> bool) (us : list User.row) : bool :=
  existsb (fun u => negb (hit u) && String.eqb (col u) v) us
  || (2 <=? count hit us).

Definition clash_on (name : string) (col : User.row -> string)
    (sets : list (string * string)) (hit : User.row -> bool)
    (us : list User.row) : bool :=
  match List.find (fun cv => String.eqb (fst cv) name) (List.rev sets) with
  | Some (_, v) => unique_clash col v hit us
  | None => false
  end.

(** [UPDATE users SET c1 = ?, ..., cn = ? WHERE user_id = ?] *)
Definition update_user (d : db) (sets : list (string * param)) (user_id : param)
    : run_result :=
  let hit u := eq_param (User.user_id u) user_id in
  if count hit (users d) =? 0 then Done 0 d
  else
    match non_null sets with
    | None => Failed
    | Some vs =>
        if clash_on "mob_num" User.mob_num vs hit (users d)
           || clash_on "pan_num" User.pan_num vs hit (users d)
        then Failed
        else Done (count hit (users d))
               (with_users d
                  (List.map (fun u => if hit u then assign_all vs u else u) (users d)))
    end.

(** [DELETE FROM users WHERE <column> = ?] *)
Definition delete_where (d : db) (column : User.row -> string) (p : param)
    : nat * db :=
  let hit u := eq_param (column u) p in
  (count hit (users d),
   with_users d (List.filter (fun u => negb (hit u)) (users d))).

(** [SELECT * FROM users WHERE is_active = 1 AND c1 AND ... AND cn] through
    [db.all]. *)
Definition select_active (d : db) (conditions : list (User.row -> bool))
    : list User.row :=
  List.filter
    (fun u => User.is_active u && List.forallb (fun c => c u) conditions)
    (users d).

End Sql.

(** ** Responses *)

Inductive status := success | error.

(** The [message] of a response: a literal, or one of the two templates
    that interpolate a request value or a row count. *)
Inductive text :=
| Lit (s : string)
| ManagerNotActive (manager_id : jsval)
    (* `Manager with ID ${manager_id} is not active or does not exist.` *)
| BulkUpdateSuccessful (changes : nat).
    (* `Bulk update successful for ${this.changes} user(s).` *)

Inductive payload :=
| NoData
| UserId (user_id : string)         (* user_id: ... *)
| NewUserId (new_user_id : string)  (* new_user_id: ... *)
| UsersFound (rows : list User.row) (* users: rows *)
| ManagersFound (rows : list Manager.row).

Record response := {
  code : nat;
  status_of : status;
  msg : option text;
  data : payload
}.

(** What a handler leaves behind: the response it sent, or the exception
    that escaped it, and the store. *)
Definition outcome := (completion response * db)%type.

Definition respond (d : db) (c : nat) (s : status) (m : text) : outcome :=
  (Return {| code := c; status_of := s; msg := Some m; data := NoData |}, d).

Definition internal_error (d : db) : outcome :=
  respond d 500 error (Lit "Internal server error.").

(** The values a request draws from outside: [uuidv4()] and the successive
    readings of [new Date().toISOString()]. *)
Record env := {
  uuidv4 : string;
  clock : nat -> string
}.

(** The body of [/update_user]: [user_ids], when present, is a JSON array
    and [update_data] a JSON object. *)
Record update_request := {
  user_ids : option (list jsval);
  update_data : option object
}.

(** ** The controller *)

Section Controller.

(** The TEXT value (or NULL) the driver binds for a JavaScript value. It
    belongs to the database driver; the controller relies on it for
    strings only, which are bound unchanged. *)
Variable sql_text : jsval -> Sql.param.
Hypothesis sql_text_string : forall s, sql_text (JStr s) = Some s.

Definition createUser (e : env) (d : db) (body : object) : outcome :=
  let requiredKeys := ["full_name"; "mob_num"; "pan_num"; "manager_id"] in
  let missingKeys := checkMissingKeys body requiredKeys in
  if 0 <? List.length missingKeys then
    respond d 400 error
      (Lit ("Missing required keys: " ++ String.concat ", " missingKeys))
  else
    let full_name := prop body "full_name" in
    let mob_num := prop body "mob_num" in
    let pan_num := prop body "pan_num" in
    let manager_id := prop body "manager_id" in
    match validateUser full_name mob_num pan_num with
    | Throw => (Throw, d)
    | Return validationResult =>
        if negb (isValid validationResult) then
          respond d 400 error (Lit (message validationResult))
        else
          match Sql.get_manager_is_active d (sql_text manager_id) with
          | Some true =>
              let user_id := uuidv4 e in
              let now := clock e 0 in
              match Sql.insert_user d user_id (sql_text full_name)
                      (v_mob_num validationResult) (v_pan_num validationResult)
                      (sql_text manager_id) now now with
              | Sql.Failed => internal_error d
              | Sql.Done _ d' =>
                  (Return {| code := 201; status_of := success;
                             msg := Some (Lit "User created successfully.");
                             data := UserId user_id |}, d')
              end
          | _ => respond d 400 error (ManagerNotActive manager_id)
          end
    end.

Definition getUsers (d : db) (body : object) : outcome :=
  let user_id := prop body "user_id" in
  let mob_num := prop body "mob_num" in
  let manager_id := prop body "manager_id" in
  let c1 := if truthy user_id
            then [fun u => Sql.eq_param (User.user_id u) (sql_text user_id)]
            else [] in
  match (if truthy mob_num
         then m <- string_method mob_num ;;
              Return [fun u => Sql.like_suffix (User.mob_num u) (formatMobNum m)]
         else Return []) with
  | Throw => (Throw, d)
  | Return c2 =>
      let c3 := if truthy manager_id
                then [fun u => Sql.eq_param (User.manager_id u) (sql_text manager_id)]
                else [] in
      (Return {| code := 200; status_of := success; msg := None;
                 data := UsersFound (Sql.select_active d (c1 ++ c2 ++ c3)) |}, d)
  end.

Definition deleteUser (d : db) (body : object) : outcome :=
  if negb (truthy (prop body "user_id")) && negb (truthy (prop body "mob_num")) then
    respond d 400 error (Lit "Missing required keys: user_id or mob_num.")
  else
    let user_id := prop body "user_id" in
    let mob_num := prop body "mob_num" in
    match (if truthy user_id then
             Return (Sql.delete_where d User.user_id (sql_text user_id))
           else
             (* here mob_num is truthy *)
             m <- string_method mob_num ;;
             Return (Sql.delete_where d User.mob_num (Some (formatMobNum m)))) with
    | Throw => (Throw, d)
    | Return (changes, d') =>
        if changes =? 0 then
          respond d' 404 error (Lit "User not found.")
        else
          respond d' 200 success (Lit "User deleted successfully.")
    end.

Definition getManagers (d : db) : outcome :=
  (Return {| code := 200; status_of := success; msg := None;
             data := ManagersFound (managers d) |}, d).

(** The single-target branch taken when [update_data.manager_id] is
    truthy: the old row is deactivated and a row for the new manager is
    inserted, both inside one [db.serialize]. *)
Definition reassignManager (e : env) (d : db) (user_id newManagerId : jsval)
    : outcome :=
  match Sql.get_manager_is_active d (sql_text newManagerId) with
  | Some true =>
      match Sql.get_active_user d (sql_text user_id) with
      | None => respond d 404 error (Lit "User not found or is inactive.")
      | Some user =>
          let (_, d1) := Sql.deactivate_user d (clock e 0) (sql_text user_id) in
          let newUser_id := uuidv4 e in
          let now := clock e 1 in
          match Sql.insert_user d1 newUser_id
                  (Some (User.full_name user)) (Some (User.mob_num user))
                  (Some (User.pan_num user)) (sql_text newManagerId) now now with
          | Sql.Failed => internal_error d1
          | Sql.Done _ d2 =>
              (Return {| code := 200; status_of := success;
                         msg := Some (Lit "Manager updated successfully.");
                         data := NewUserId newUser_id |}, d2)
          end
      end
  | _ => respond d 400 error (ManagerNotActive newManagerId)
  end.

(** The single-target branch taken otherwise: the validated fields are
    written to the row in place. *)
Definition updateFields (e : env) (d : db) (user_id : jsval) (update_data : object)
    : outcome :=
  let now := clock e 0 in
  match validateUpdate update_data with
  | Throw => (Throw, d)
  | Return validationResult =>
      if negb (u_isValid validationResult) then
        respond d 400 error (Lit (u_message validationResult))
      else
        let updateFields :=
          List.map (fun kv => (fst kv, sql_text (snd kv)))
                   (validatedData validationResult) in
        if List.length updateFields =? 0 then
          respond d 400 error (Lit "No valid fields to update.")
        else
          match Sql.update_user d (updateFields ++ [("updated_at", Some now)])
                  (sql_text user_id) with
          | Sql.Failed => internal_error d
          | Sql.Done changes d' =>
              if changes =? 0 then
                respond d' 404 error (Lit "User not found.")
              else
                respond d' 200 success (Lit "User updated successfully.")
          end
  end.

Definition updateUser (e : env) (d : db) (req : update_request) : outcome :=
  match user_ids req, update_data req with
  | Some user_ids, Some update_data =>
      let validUpdateKeys := ["full_name"; "mob_num"; "pan_num"; "manager_id"] in
      let invalidKeys :=
        List.filter (fun key => negb (includes validUpdateKeys key)) (keys update_data) in
      if 0 <? List.length invalidKeys then
        respond d 400 error
          (Lit ("Invalid keys in update_data: " ++ String.concat ", " invalidKeys))
      else
        match validateUpdate update_data with
        | Throw => (Throw, d)
        | Return validationResult =>
            if negb (u_isValid validationResult) then
              respond d 400 error (Lit (u_message validationResult))
            else if (List.length (keys update_data) =? 1)
                    && truthy (prop update_data "manager_id")
                    && (1 <? List.length user_ids) then
              let manager_id := prop update_data "manager_id" in
              match Sql.get_manager_is_active d (sql_text manager_id) with
              | Some true =>
                  match Sql.update_manager_in d (sql_text manager_id) (clock e 0)
                          (List.map sql_text user_ids) with
                  | Sql.Failed => internal_error d
                  | Sql.Done changes d' =>
                      respond d' 200 success (BulkUpdateSuccessful changes)
                  end
              | _ => respond d 400 error (ManagerNotActive manager_id)
              end
            else if 1 <? List.length user_ids then
              respond d 400 error
                (Lit "Individual updates can only be performed on a single user.")
            else
              let user_id := List.nth 0 user_ids JUndefined in
              if truthy (prop update_data "manager_id") then
                reassignManager e d user_id (prop update_data "manager_id")
              else
                updateFields e d user_id update_data
        end
  | o1, o2 =>
      respond d 400 error
        (Lit ("Missing required keys: " ++
              String.concat ", "
                ((match o1 with None => ["user_ids"] | Some _ => [] end) ++
                 (match o2 with None => ["update_data"] | Some _ => [] end))))
  end.

End Controller.

(** ** Start-up: the seed rows of [prefillManagers] *)

Module Startup.

(** [INSERT INTO managers (manager_id, manager_name, is_active) VALUES (?, ?, ?)]:
    rejected when the primary key is taken. *)
Definition insert_manager (d : db) (manager_id manager_name : string) (is_active : bool)
    : db :=
  if existsb (fun m => String.eqb (Manager.manager_id m) manager_id) (managers d)
  then d
  else {| managers := managers d ++
                      [ {| Manager.manager_id := manager_id;
                           Manager.manager_name := manager_name;
                           Manager.is_active := is_active |} ];
          users := users d |}.

(** [prefillManagers()], with the three ids [uuidv4()] hands out in turn. *)
Definition prefillManagers (uuids : nat -> string) (d : db) : db :=
  if List.length (managers d) =? 0 then
    let d1 := insert_manager d (uuids 0) "Manager A" true in
    let d2 := insert_manager d1 (uuids 1) "Manager B" true in
    insert_manager d2 (uuids 2) "Inactive Manager" false
  else d.

End Startup.

(** ** The specification's vocabulary *)

(** "Empty or whitespace-only". *)
Definition whitespace_only (s : string) : bool := Str.forallb Str.is_space s.

(** "Five letters, four digits, one letter, upper case": the PAN format as
    the data model words it. *)
Definition pan_shape (s : string) : bool :=
  match list_ascii_of_string s with
  | [a; b; c; d; e; n1; n2; n3; n4; z] =>
      Str.is_upper a && Str.is_upper b && Str.is_upper c && Str.is_upper d
      && Str.is_upper e
      && Str.is_digit n1 && Str.is_digit n2 && Str.is_digit n3 && Str.is_digit n4
      && Str.is_upper z
  | _ => false
  end.

(** Key [k] of an update payload passes its own check in [validateUpdate]. *)
Definition key_passes (updateData : object) (k : string) : bool :=
  includes validKeys k
  && (if String.eqb k "full_name" then
        match prop updateData "full_name" with
        | JStr s => negb (whitespace_only s)
        | _ => false
        end
      else if String.eqb k "mob_num" then
        match prop updateData "mob_num" with
        | JStr s => String.length (formatMobNum s) =? 10
        | _ => false
        end
      else if String.eqb k "pan_num" then
        match prop updateData "pan_num" with
        | JStr s => pan_shape (Str.toUpperCase s)
        | _ => false
        end
      else true).


(** The key constraints of [users]. *)
Definition keys_hold (us : list User.row) : Prop :=
  NoDup (List.map User.user_id us)
  /\ NoDup (List.map User.mob_num us)
  /\ NoDup (List.map User.pan_num us).

Definition kept_value (updateData : object) (k : string) : jsval :=
  if String.eqb k "mob_num" then
    match prop updateData "mob_num" with
    | JStr s => JStr (formatMobNum s)
    | v => v
    end
  else if String.eqb k "pan_num" then
    match prop updateData "pan_num" with
    | JStr s => JStr (Str.toUpperCase s)
    | v => v
    end
  else prop updateData k.

(** The text stored for key [k] of a validated payload. *)
Definition kept_text (updateData : object) (k : string) : string :=
  match kept_value updateData k with
  | JStr s => s
  | _ => ""
  end.

(** A column after a field update: the kept text when the payload names the
    column, the old value otherwise. *)
Definition field_after (updateData : object) (k : string) (old : string) : string :=
  if has_key updateData k then kept_text updateData k else old.

Definition updated_row (updateData : object) (now : string) (u : User.row) : User.row :=
  {| User.user_id := User.user_id u;
     User.full_name := field_after updateData "full_name" (User.full_name u);
     User.mob_num := field_after updateData "mob_num" (User.mob_num u);
     User.pan_num := field_after updateData "pan_num" (User.pan_num u);
     User.manager_id := User.manager_id u;
     User.created_at := User.created_at u;
     User.updated_at := now;
     User.is_active := User.is_active u |}.

(** The entry of a SET clause that writes column [name]. *)
Definition sets_column (name : string) (cv : string * string) : bool :=
  String.eqb (fst cv) name.

(** The reply to a DELETE that ran: 404 when it removed nothing, else 200. *)
Definition deleted_reply (d : db) (col : User.row -> string) (v : string) : outcome :=
  let kept := List.filter (fun u => negb (String.eqb (col u) v)) (users d) in
  if List.length (users d) - List.length kept =? 0
  then respond d 404 error (Lit "User not found.")
  else respond (with_users d kept) 200 success (Lit "User deleted successfully.").

(** *** The words of the specification, character by character

    A second reading of "blank", "digits", "last ten", "upper-cased" and
    "five letters, four digits, one letter", spelled out on the list of
    characters and independent of the string operations of [Str]; the
    properties of the handlers are stated with these words. *)

(** Text within the ASCII range, on which [trim] and [toUpperCase] of the
    model are those of JavaScript. *)
Definition ascii_text (s : string) : bool :=
  List.forallb (fun c => nat_of_ascii c <? 128) (list_ascii_of_string s).

(** A request value that, if it is a string, is ASCII text. *)
Definition ascii_value (v : jsval) : bool :=
  match v with
  | JStr s => ascii_text s
  | _ => true
  end.

Definition ascii_payload (o : object) : bool :=
  List.forallb (fun kv => ascii_value (snd kv)) o.

(** The characters the words speak of, in order. *)
Definition digit_chars : list ascii := list_ascii_of_string "0123456789".
Definition small_chars : list ascii :=
  list_ascii_of_string "abcdefghijklmnopqrstuvwxyz".
Definition capital_chars : list ascii :=
  list_ascii_of_string "ABCDEFGHIJKLMNOPQRSTUVWXYZ".


Definition one_of (l : list ascii) (c : ascii) : bool :=
  List.existsb (Ascii.eqb c) l.

Definition decimal_digit (c : ascii) : bool := one_of digit_chars c.

(** The capital of a small letter, found at the same place among the
    capitals; any other character is kept. *)
Definition capital (c : ascii) : ascii :=
  match List.find (fun p => Ascii.eqb (fst p) c)
          (List.combine small_chars capital_chars) with
  | Some p => snd p
  | None => c
  end.

(** "Strip the non-digits and keep the last ten". *)
Definition normal_number (s : string) : string :=
  string_of_list_ascii
    (List.rev (List.firstn 10
       (List.rev (List.filter decimal_digit (list_ascii_of_string s))))).

(** "Upper-cased". *)
Definition upper_text (s : string) : string :=
  string_of_list_ascii (List.map capital (list_ascii_of_string s)).






(** The text a field update stores for key [k]. *)
Definition stored_text (updateData : object) (k : string) : string :=
  match prop updateData k with
  | JStr s =>
      if String.eqb k "mob_num" then normal_number s
      else if String.eqb k "pan_num" then upper_text s
      else s
  | _ => ""
  end.

(** A row after a field update at time [now]. *)
Definition row_after (updateData : object) (now : string) (u : User.row) : User.row :=
  let field k old := if has_key updateData k then stored_text updateData k else old in
  {| User.user_id := User.user_id u;
     User.full_name := field "full_name" (User.full_name u);
     User.mob_num := field "mob_num" (User.mob_num u);
     User.pan_num := field "pan_num" (User.pan_num u);
     User.manager_id := User.manager_id u;
     User.created_at := User.created_at u;
     User.updated_at := now;
     User.is_active := User.is_active u |}.

(** ** Sample data *)

Module Sample.

(** A driver binding that passes strings through and binds NULL otherwise. *)
Definition bind_text (v : jsval) : Sql.param :=
  match v with
  | JStr s => Some s
  | _ => None
  end.

Definition managerA : Manager.row :=
  {| Manager.manager_id := "m-a"; Manager.manager_name := "Manager A";
     Manager.is_active := true |}.
Definition managerB : Manager.row :=
  {| Manager.manager_id := "m-b"; Manager.manager_name := "Manager B";
     Manager.is_active := true |}.
Definition managerC : Manager.row :=
  {| Manager.manager_id := "m-c"; Manager.manager_name := "Inactive Manager";
     Manager.is_active := false |}.

Definition asha : User.row :=
  {| User.user_id := "u-1"; User.full_name := "Asha Rao";
     User.mob_num := "9876543210"; User.pan_num := "ABCDE1234F";
     User.manager_id := "m-a"; User.created_at := "2025-01-01T00:00:00.000Z";
     User.updated_at := "2025-01-01T00:00:00.000Z"; User.is_active := true |}.

Definition ravi : User.row :=
  {| User.user_id := "u-2"; User.full_name := "Ravi Iyer";
     User.mob_num := "9123456780"; User.pan_num := "PQRST6789U";
     User.manager_id := "m-a"; User.created_at := "2025-01-02T00:00:00.000Z";
     User.updated_at := "2025-01-03T00:00:00.000Z"; User.is_active := false |}.

Definition store : db :=
  {| managers := [managerA; managerB; managerC]; users := [asha; ravi] |}.

Definition world : env :=
  {| uuidv4 := "u-9";
     clock := fun n => if n =? 0 then "2025-02-01T10:00:00.000Z"
                       else "2025-02-01T10:00:00.001Z" |}.

End Sample.

(** ** Facts about the string operations *)

Module StrFacts.
Import Str.

Lemma length_zero (s : string) : String.length s = 0 <-> s = "".
Proof. destruct s; simpl; split; congruence. Qed.

Lemma trimEnd_empty (s : string) : trimEnd s = "" <-> forallb is_space s = true.
Proof.
  induction s as [|c r IH]; simpl.
  - tauto.
  - destruct (trimEnd r) eqn:E.
    + destruct (is_space c); simpl.
      * split; intros _; [apply IH|]; reflexivity.
      * split; intros H; discriminate H.
    + split; intros H; [discriminate H|].
      apply andb_true_iff in H as [_ H]. apply IH in H. discriminate H.
Qed.

Lemma forallb_trimStart (s : string) :
  forallb is_space (trimStart s) = forallb is_space s.
Proof.
  induction s as [|c r IH]; simpl; [reflexivity|].
  destruct (is_space c) eqn:E; simpl; [exact IH | now rewrite E].
Qed.

(** [s.trim().length === 0] says that [s] is white space throughout. *)
Lemma trim_blank (s : string) :
  (String.length (trim s) =? 0) = forallb is_space s.
Proof.
  unfold trim. rewrite <- forallb_trimStart.
  destruct (forallb is_space (trimStart s)) eqn:E.
  - apply trimEnd_empty in E. now rewrite E.
  - apply Nat.eqb_neq. intros H.
    apply length_zero, trimEnd_empty in H. congruence.
Qed.

Lemma forallb_filter f (s : string) : forallb f (filter f s) = true.
Proof.
  induction s as [|c r IH]; simpl; [reflexivity|].
  destruct (f c) eqn:E; simpl; [now rewrite E|exact IH].
Qed.

Lemma forallb_drop f n (s : string) :
  forallb f s = true -> forallb f (drop n s) = true.
Proof.
  revert s. induction n as [|n IH]; intros [|c r]; simpl; auto.
  intros H. apply andb_true_iff in H as [_ H]. auto.
Qed.

Lemma length_drop n (s : string) :
  String.length (drop n s) = String.length s - n.
Proof. revert s. induction n as [|n IH]; intros [|c r]; simpl; auto. Qed.

Lemma length_slice_last n (s : string) :
  String.length (slice_last n s) = Nat.min n (String.length s).
Proof. unfold slice_last. rewrite length_drop. lia. Qed.

Lemma drop_app_length (p s : string) : drop (String.length p) (p ++ s)%string = s.
Proof. induction p as [|c p IH]; simpl; [now destruct s|exact IH]. Qed.

Lemma drop_split n (s : string) : exists p, s = (p ++ drop n s)%string.
Proof.
  revert s. induction n as [|n IH]; intros s.
  - exists "". now destruct s.
  - destruct s as [|c r]; [now exists ""|].
    destruct (IH r) as [p Hp]. exists (String c p). simpl. now rewrite <- Hp.
Qed.

Lemma length_app (p s : string) :
  String.length (p ++ s)%string = String.length p + String.length s.
Proof. induction p as [|c p IH]; simpl; auto. Qed.

(** [ends_with] decides "[hay] is some prefix followed by [suf]". *)
Lemma ends_with_suffix (suf hay : string) :
  ends_with suf hay = true <-> exists pre, hay = (pre ++ suf)%string.
Proof.
  unfold ends_with, slice_last. split.
  - intros H. apply andb_true_iff in H as [H _]. apply String.eqb_eq in H.
    destruct (drop_split (String.length hay - String.length suf) hay) as [p Hp].
    exists p. now rewrite H in Hp.
  - intros [pre ->]. rewrite length_app.
    replace (String.length pre + String.length suf - String.length suf)
      with (String.length pre) by lia.
    rewrite drop_app_length, String.eqb_refl. simpl.
    apply Nat.leb_le. lia.
Qed.

End StrFacts.

(** ** Facts about the validators *)

Ltac split_ifs :=
  repeat match goal with
         | |- context [if ?b then _ else _] => destruct b; cbn -[Str.in_range]
         end.

(** The engine run on [panRegex] accepts exactly the strings of the PAN shape. *)
Lemma panRegex_shape (s : string) : Regex.test panRegex s = pan_shape s.
Proof.
  unfold Regex.test, pan_shape, panRegex, Str.is_upper, Str.is_digit.
  do 10 (destruct s as [|? s];
         [cbn -[Str.in_range]; split_ifs; reflexivity|]).
  destruct s; cbn -[Str.in_range]; split_ifs; reflexivity.
Qed.

Lemma blank_name_string (s : string) : blank_name (JStr s) = whitespace_only s.
Proof.
  unfold blank_name, whitespace_only. simpl. rewrite StrFacts.trim_blank.
  destruct s; reflexivity.
Qed.

Lemma formatMobNum_digits (s : string) :
  Str.forallb Str.is_digit (formatMobNum s) = true.
Proof.
  unfold formatMobNum, Str.slice_last, Str.strip_non_digits.
  apply StrFacts.forallb_drop, StrFacts.forallb_filter.
Qed.

Lemma prop_has_key (o : object) (k : string) (s : string) :
  prop o k = JStr s -> has_key o k = true.
Proof. unfold prop, has_key. destruct (lookup k o); [reflexivity|discriminate]. Qed.

(** [validateUser] on strings, as one equation. *)
Lemma validateUser_strings (fn mob pan : string) :
  validateUser (JStr fn) (JStr mob) (JStr pan) =
  Return
    (if whitespace_only fn then invalid "Full name must not be empty."
     else if negb (String.length (formatMobNum mob) =? 10)
     then invalid "Mobile number must be a valid 10-digit number."
     else if negb (pan_shape (Str.toUpperCase pan))
     then invalid "PAN number is not a valid format."
     else {| isValid := true; message := "Validation successful.";
             v_mob_num := Some (formatMobNum mob);
             v_pan_num := Some (Str.toUpperCase pan) |}).
Proof.
  unfold validateUser. rewrite blank_name_string.
  destruct (whitespace_only fn); [reflexivity|]. simpl.
  destruct (String.length (formatMobNum mob) =? 10); simpl; [|reflexivity].
  rewrite panRegex_shape.
  destruct (pan_shape (Str.toUpperCase pan)); reflexivity.
Qed.

Lemma no_missing_keys (body : object) (a b c : string) :
  prop body "full_name" = JStr a ->
  prop body "mob_num" = JStr b ->
  prop body "pan_num" = JStr c ->
  has_key body "manager_id" = true ->
  checkMissingKeys body ["full_name"; "mob_num"; "pan_num"; "manager_id"] = [].
Proof.
  intros Ha Hb Hc Hm. unfold checkMissingKeys. simpl.
  now rewrite (prop_has_key _ _ _ Ha), (prop_has_key _ _ _ Hb),
    (prop_has_key _ _ _ Hc), Hm.
Qed.

Lemma get_manager_bound (d : db) (p : Sql.param) (b : bool) :
  Sql.get_manager_is_active d p = Some b -> exists m, p = Some m.
Proof.
  unfold Sql.get_manager_is_active. destruct p as [m|]; [eauto|].
  intros H. exfalso. induction (managers d) as [|x l IH]; simpl in H.
  - discriminate.
  - auto.
Qed.

Lemma existsb_false_iff {A} (f : A -> bool) (l : list A) :
  existsb f l = false <-> forall x, In x l -> f x = false.
Proof.
  split.
  - intros H x Hx. destruct (f x) eqn:E; [|reflexivity].
    rewrite <- H. symmetry. apply existsb_exists. eauto.
  - intros H. destruct (existsb f l) eqn:E; [|reflexivity].
    apply existsb_exists in E as (x & Hx & Hf). rewrite (H x Hx) in Hf. discriminate.
Qed.

(** ** Facts about [validateUpdate] *)

#[local] Arguments includes : simpl never.

Lemma includes_In (xs : list string) (k : string) :
  includes xs k = true <-> In k xs.
Proof.
  unfold includes. rewrite existsb_exists. split.
  - intros (x & Hx & E). apply String.eqb_eq in E. now subst.
  - intros H. exists k. split; [exact H|apply String.eqb_refl].
Qed.

(** A payload that passes validation has recognised keys only. *)
Lemma validateUpdate_loop_valid_keys (upd : object) (ks : list string) :
  forall acc vr,
    validateUpdate_loop upd ks acc = Return vr ->
    u_isValid vr = true ->
    List.filter (fun key => negb (includes validKeys key)) ks = [].
Proof.
  induction ks as [|k ks IH]; intros acc vr H Hv; [reflexivity|].
  simpl in H. simpl List.filter.
  destruct (includes validKeys k) eqn:Ek; simpl in H |- *.
  2:{ injection H as <-. discriminate Hv. }
  destruct (String.eqb k "full_name").
  { destruct (prop upd "full_name"); try (injection H as <-; discriminate Hv).
    destruct (String.length (Str.trim s) =? 0);
      [injection H as <-; discriminate Hv | eauto]. }
  destruct (String.eqb k "mob_num").
  { destruct (string_method (prop upd "mob_num")); simpl in H; [|discriminate H].
    destruct (String.length (formatMobNum a) =? 10); simpl in H;
      [eauto | injection H as <-; discriminate Hv]. }
  destruct (String.eqb k "pan_num").
  { destruct (string_method (prop upd "pan_num")); simpl in H; [|discriminate H].
    destruct (Regex.test panRegex (Str.toUpperCase a)); simpl in H;
      [eauto | injection H as <-; discriminate Hv]. }
  eauto.
Qed.



Lemma has_key_In (o : object) (k : string) :
  has_key o k = true <-> In k (keys o).
Proof.
  unfold has_key. induction o as [|[k0 v0] o IH]; simpl.
  - split; [discriminate|tauto].
  - destruct (String.eqb k k0) eqn:E.
    + apply String.eqb_eq in E. subst. tauto.
    + apply String.eqb_neq in E. rewrite IH. split; [tauto|].
      intros [H|H]; [congruence|exact H].
Qed.

(** The test that opens the bulk branch holds for one payload shape only. *)
Lemma sole_manager_id (upd : object) :
  (List.length (keys upd) =? 1) && truthy (prop upd "manager_id") = true ->
  keys upd = ["manager_id"].
Proof.
  intros H. apply andb_true_iff in H as [Hl Ht]. apply Nat.eqb_eq in Hl.
  unfold keys in *.
  destruct upd as [|[k v] [|? ?]]; simpl in Hl; try discriminate Hl.
  unfold prop in Ht. cbn [lookup] in Ht. cbn [List.map fst].
  destruct (String.eqb "manager_id" k) eqn:E; [|discriminate Ht].
  apply String.eqb_eq in E. now subst.
Qed.





(** ** Facts about the statements *)

Lemma users_deactivate (d : db) (now : string) (p : Sql.param) :
  users (snd (Sql.deactivate_user d now p)) =
  List.map (fun u => if Sql.eq_param (User.user_id u) p
                     then User.set_updated_at now (User.set_is_active false u)
                     else u) (users d).
Proof. reflexivity. Qed.


(** A row that [get_active_user] returns still holds its [mob_num] after the
    deactivation, so an insert that repeats it meets the UNIQUE constraint. *)
Lemma insert_after_deactivate_fails (d : db) (now : string) (p : Sql.param)
    (u : User.row) (new_id : string) (fn mgr : Sql.param) (c1 c2 : string) :
  Sql.get_active_user d p = Some u ->
  Sql.insert_user (snd (Sql.deactivate_user d now p)) new_id fn
    (Some (User.mob_num u)) (Some (User.pan_num u)) mgr c1 c2 = Sql.Failed.
Proof.
  intros Hu. unfold Sql.get_active_user in Hu. apply find_some in Hu as [Hin _].
  unfold Sql.insert_user. destruct fn as [fn|]; [|reflexivity].
  destruct mgr as [mgr|]; [|reflexivity].
  rewrite users_deactivate.
  match goal with |- (if ?b then _ else _) = _ => assert (Hb : b = true) end.
  { apply existsb_exists.
    eexists. split; [apply in_map; exact Hin|]. cbv beta.
    destruct (Sql.eq_param (User.user_id u) p); simpl;
      rewrite String.eqb_refl; apply orb_true_r || (rewrite orb_true_r; reflexivity). }
  now rewrite Hb.
Qed.





Lemma filter_split_length {A} (f : A -> bool) (l : list A) :
  List.length (List.filter f l) + List.length (List.filter (fun x => negb (f x)) l)
  = List.length l.
Proof.
  induction l as [|x l IH]; simpl; [reflexivity|].
  destruct (f x); simpl; lia.
Qed.

Lemma filter_all {A} (f : A -> bool) (l : list A) :
  List.length (List.filter f l) = List.length l -> List.filter f l = l.
Proof.
  induction l as [|x l IH]; simpl; [reflexivity|].
  destruct (f x); simpl; intros H.
  - f_equal. apply IH. lia.
  - pose proof (filter_length_le f l). lia.
Qed.

Lemma with_users_same (d : db) : with_users d (users d) = d.
Proof. now destruct d. Qed.

(** [DELETE ... WHERE column = v], read as "keep the other rows". *)
Lemma delete_where_kept (d : db) (col : User.row -> string) (v : string) :
  let kept := List.filter (fun u => negb (String.eqb (col u) v)) (users d) in
  Sql.delete_where d col (Some v)
  = (List.length (users d) - List.length kept, with_users d kept).
Proof.
  unfold Sql.delete_where, Sql.count. cbn [Sql.eq_param]. cbv zeta. f_equal.
  pose proof (filter_split_length (fun u => String.eqb (col u) v) (users d)). lia.
Qed.

(** ** The string operations say what the words say *)

Module Words.

Ltac by_cases_on c := destruct c as [[] [] [] [] [] [] [] []]; reflexivity.

Lemma is_digit_decimal (c : ascii) : Str.is_digit c = decimal_digit c.
Proof. by_cases_on c. Qed.


Lemma upper_char_capital (c : ascii) : Str.upper_char c = capital c.
Proof. by_cases_on c. Qed.


Lemma chars_filter (f : ascii -> bool) (s : string) :
  list_ascii_of_string (Str.filter f s) = List.filter f (list_ascii_of_string s).
Proof.
  induction s as [|c r IH]; simpl; [reflexivity|].
  destruct (f c); simpl; now rewrite IH.
Qed.

Lemma chars_map (f : ascii -> ascii) (s : string) :
  list_ascii_of_string (Str.map f s) = List.map f (list_ascii_of_string s).
Proof. induction s as [|c r IH]; simpl; [reflexivity|now rewrite IH]. Qed.

Lemma chars_drop (n : nat) (s : string) :
  list_ascii_of_string (Str.drop n s) = List.skipn n (list_ascii_of_string s).
Proof. revert s. induction n as [|n IH]; intros [|c r]; simpl; auto. Qed.

Lemma chars_length (s : string) :
  String.length s = List.length (list_ascii_of_string s).
Proof. induction s as [|c r IH]; simpl; auto. Qed.


Lemma last_chars {A} (n : nat) (l : list A) :
  List.rev (List.firstn n (List.rev l)) = List.skipn (List.length l - n) l.
Proof. now rewrite firstn_rev, rev_involutive. Qed.

Lemma formatMobNum_normal_number (s : string) : formatMobNum s = normal_number s.
Proof.
  unfold normal_number. rewrite last_chars.
  rewrite <- (string_of_list_ascii_of_string (formatMobNum s)). f_equal.
  unfold formatMobNum, Str.slice_last, Str.strip_non_digits.
  rewrite chars_drop, chars_length, chars_filter.
  now rewrite (filter_ext _ _ is_digit_decimal).
Qed.

Lemma toUpperCase_upper_text (s : string) : Str.toUpperCase s = upper_text s.
Proof.
  unfold upper_text, Str.toUpperCase.
  rewrite <- (string_of_list_ascii_of_string (Str.map Str.upper_char s)). f_equal.
  rewrite chars_map. apply map_ext, upper_char_capital.
Qed.





End Words.


(** ** Properties of the controller *)

Section Properties.

Variable sql_text : jsval -> Sql.param.
Hypothesis sql_text_string : forall s, sql_text (JStr s) = Some s.

Lemma in_params_strings (c : string) (targets : list string) :
  Sql.in_params c (List.map sql_text (List.map JStr targets)) = includes targets c.
Proof.
  unfold Sql.in_params, includes.
  induction targets as [|t ts IH]; simpl; [reflexivity|].
  now rewrite sql_text_string, IH.
Qed.

Lemma Forall2_map_pointwise {A B} (R : A -> B -> Prop) (f : A -> B) (l : list A) :
  (forall x, In x l -> R x (f x)) -> Forall2 R l (List.map f l).
Proof.
  induction l as [|x l IH]; simpl; intros H; constructor; auto.
Qed.

(** The bulk branch, as one equation. *)
Lemma bulk_dispatch
    (e : env) (d : db) (targets : list string) (mid : jsval) (m : string) :
  truthy mid = true ->
  sql_text mid = Some m ->
  Sql.get_manager_is_active d (Some m) = Some true ->
  1 < List.length targets ->
  updateUser sql_text e d
    {| user_ids := Some (List.map JStr targets);
       update_data := Some [("manager_id", mid)] |}
  = respond
      (with_users d
         (List.map (fun u => if includes targets (User.user_id u)
                             then User.set_updated_at (clock e 0)
                                    (User.set_manager_id m u)
                             else u) (users d)))
      200 success
      (BulkUpdateSuccessful
         (List.length
            (List.filter (fun u => includes targets (User.user_id u)) (users d)))).
Proof.
  intros Ht Hm Hg Hn.
  assert (Hv : validateUpdate [("manager_id", mid)]
               = Return {| u_isValid := true; u_message := "Validation successful.";
                           validatedData := [("manager_id", mid)] |})
    by reflexivity.
  apply Nat.ltb_lt in Hn.
  unfold updateUser. cbn [user_ids update_data].
  rewrite length_map, Hn, Hv.
  change (prop [("manager_id", mid)] "manager_id") with mid.
  rewrite Ht. simpl.
  rewrite Hm, Hg. unfold Sql.update_manager_in, Sql.count.
  rewrite (filter_ext _ _ (fun u => in_params_strings (User.user_id u) targets)).
  rewrite (map_ext _ _
             (fun u => f_equal (fun b : bool =>
                                  if b then User.set_updated_at (clock e 0)
                                              (User.set_manager_id m u)
                                  else u)
                               (in_params_strings (User.user_id u) targets))).
  reflexivity.
Qed.

Lemma multi_target_update_wrote_nothing
    (e : env) (d : db) (ids : list jsval) (upd : object) :
  1 < List.length ids ->
  keys upd <> ["manager_id"] ->
  snd (updateUser sql_text e d {| user_ids := Some ids; update_data := Some upd |}) = d.
Proof.
  intros Hn Hk.
  assert (Hb : (List.length (keys upd) =? 1) && truthy (prop upd "manager_id") = false).
  { destruct ((List.length (keys upd) =? 1) && truthy (prop upd "manager_id")) eqn:E;
      [|reflexivity].
    exfalso. apply Hk. now apply sole_manager_id. }
  apply Nat.ltb_lt in Hn.
  unfold updateUser. cbn [user_ids update_data].
  destruct (0 <? _); [reflexivity|].
  destruct (validateUpdate upd) as [vr|]; [|reflexivity].
  destruct (negb (u_isValid vr)); [reflexivity|].
  rewrite Hb, Hn. reflexivity.
Qed.

(** With at most one target, a validated payload is routed by the
    truthiness of its [manager_id]. *)
Lemma single_target_dispatch (e : env) (d : db) (ids : list jsval) (upd : object)
    (vr : update_validation) :
  List.length ids <= 1 ->
  validateUpdate upd = Return vr ->
  u_isValid vr = true ->
  updateUser sql_text e d {| user_ids := Some ids; update_data := Some upd |} =
  if truthy (prop upd "manager_id")
  then reassignManager sql_text e d (List.nth 0 ids JUndefined) (prop upd "manager_id")
  else updateFields sql_text e d (List.nth 0 ids JUndefined) upd.
Proof.
  intros Hn Hv Hvalid.
  assert (Hl : (1 <? List.length ids) = false) by (apply Nat.ltb_ge; exact Hn).
  unfold updateUser. cbn [user_ids update_data]. fold validKeys.
  rewrite (validateUpdate_loop_valid_keys _ _ _ _ Hv Hvalid).
  rewrite Hv, Hvalid, Hl, andb_false_r. reflexivity.
Qed.

Lemma reassign_insert_rejected (e : env) (d : db) (uid mid : jsval) (u : User.row) :
  Sql.get_manager_is_active d (sql_text mid) = Some true ->
  Sql.get_active_user d (sql_text uid) = Some u ->
  reassignManager sql_text e d uid mid =
  internal_error (snd (Sql.deactivate_user d (clock e 0) (sql_text uid))).
Proof.
  intros Hg Hu. unfold reassignManager. rewrite Hg, Hu.
  pose proof (insert_after_deactivate_fails d (clock e 0) (sql_text uid) u
                (uuidv4 e) (Some (User.full_name u)) (sql_text mid)
                (clock e 1) (clock e 1) Hu) as Hf.
  destruct (Sql.deactivate_user d (clock e 0) (sql_text uid)) as [n d1].
  cbn [snd] in Hf |- *. now rewrite Hf.
Qed.

(** C1, as the code behaves. When one target names an active user and the
    payload carries the id of an active manager, the handler deactivates
    the row and then asks the store for a row that repeats its [mob_num]
    and [pan_num]; the UNIQUE constraints of [users] reject that insert, so
    the request ends in a 500 without a new id and the store holds the old
    rows only, the target one deactivated. *)
Theorem single_reassignment_insert_rejected
    (e : env) (d : db) (uid : jsval) (upd : object)
    (vr : update_validation) (u : User.row) :
  validateUpdate upd = Return vr ->
  u_isValid vr = true ->
  truthy (prop upd "manager_id") = true ->
  Sql.get_manager_is_active d (sql_text (prop upd "manager_id")) = Some true ->
  Sql.get_active_user d (sql_text uid) = Some u ->
  updateUser sql_text e d {| user_ids := Some [uid]; update_data := Some upd |} =
  (Return {| code := 500; status_of := error;
             msg := Some (Lit "Internal server error."); data := NoData |},
   with_users d
     (List.map (fun r => if Sql.eq_param (User.user_id r) (sql_text uid)
                         then User.set_updated_at (clock e 0)
                                (User.set_is_active false r)
                         else r) (users d))).
Proof.
  intros Hv Hvalid Ht Hg Hu.
  rewrite (single_target_dispatch e d [uid] upd vr (le_n 1) Hv Hvalid), Ht.
  cbn [List.nth]. rewrite (reassign_insert_rejected e d uid _ u Hg Hu).
  reflexivity.
Qed.

(** C2, as the code behaves. In the same request the insert fails after
    the deactivation has been written and nothing undoes it: the reply is
    an error, no row was added, and every row carrying the target id is
    inactive although one of them was active before. *)
Theorem failed_reassignment_leaves_user_deactivated
    (e : env) (d : db) (uid : jsval) (upd : object)
    (vr : update_validation) (u : User.row) :
  validateUpdate upd = Return vr ->
  u_isValid vr = true ->
  truthy (prop upd "manager_id") = true ->
  Sql.get_manager_is_active d (sql_text (prop upd "manager_id")) = Some true ->
  Sql.get_active_user d (sql_text uid) = Some u ->
  exists r d',
    updateUser sql_text e d {| user_ids := Some [uid]; update_data := Some upd |}
    = (Return r, d')
    /\ status_of r = error
    /\ List.length (users d') = List.length (users d)
    /\ (In u (users d) /\ User.is_active u = true
        /\ Sql.eq_param (User.user_id u) (sql_text uid) = true)
    /\ (forall r', In r' (users d') ->
                   Sql.eq_param (User.user_id r') (sql_text uid) = true ->
                   User.is_active r' = false)
    /\ d' <> d.
Proof.
  intros Hv Hvalid Ht Hg Hu.
  rewrite (single_target_dispatch e d [uid] upd vr (le_n 1) Hv Hvalid), Ht.
  cbn [List.nth]. rewrite (reassign_insert_rejected e d uid _ u Hg Hu).
  assert (Hold : In u (users d) /\ User.is_active u = true
                 /\ Sql.eq_param (User.user_id u) (sql_text uid) = true).
  { unfold Sql.get_active_user in Hu. apply find_some in Hu as [Hin Hp].
    apply andb_true_iff in Hp. tauto. }
  assert (Hoff : forall r',
             In r' (users (snd (Sql.deactivate_user d (clock e 0) (sql_text uid)))) ->
             Sql.eq_param (User.user_id r') (sql_text uid) = true ->
             User.is_active r' = false).
  { intros r' Hin Hhit. rewrite users_deactivate in Hin.
    apply in_map_iff in Hin as (r0 & <- & _).
    destruct (Sql.eq_param (User.user_id r0) (sql_text uid)) eqn:E;
      [reflexivity|congruence]. }
  do 2 eexists. split; [reflexivity|].
  split; [reflexivity|]. split; [|split; [exact Hold|split; [exact Hoff|]]].
  - rewrite users_deactivate. apply length_map.
  - intros Heq. destruct Hold as (Hin & Hact & Hhit).
    rewrite <- Heq in Hin. rewrite (Hoff u Hin Hhit) in Hact. discriminate Hact.
Qed.



Lemma delete_reply (d : db) (col : User.row -> string) (v : string) :
  (let (changes, d') := Sql.delete_where d col (Some v) in
   if changes =? 0
   then respond d' 404 error (Lit "User not found.")
   else respond d' 200 success (Lit "User deleted successfully."))
  = deleted_reply d col v.
Proof.
  rewrite delete_where_kept. unfold deleted_reply. cbv zeta.
  destruct (_ =? 0) eqn:E; [|reflexivity].
  apply Nat.eqb_eq in E.
  pose proof (filter_length_le (fun u => negb (String.eqb (col u) v)) (users d)).
  rewrite filter_all by lia. now rewrite with_users_same.
Qed.

Lemma deleteUser_by_id (d : db) (body : object) (id : string) :
  prop body "user_id" = JStr id ->
  id <> "" ->
  deleteUser sql_text d body = deleted_reply d User.user_id id.
Proof.
  intros Hp Hne. apply String.eqb_neq in Hne.
  unfold deleteUser. rewrite Hp. cbn [truthy]. rewrite Hne. cbn [negb andb].
  rewrite sql_text_string. apply delete_reply.
Qed.

Lemma deleteUser_by_mob (d : db) (body : object) (m : string) :
  truthy (prop body "user_id") = false ->
  prop body "mob_num" = JStr m ->
  m <> "" ->
  deleteUser sql_text d body = deleted_reply d User.mob_num (formatMobNum m).
Proof.
  intros Hu Hp Hne. apply String.eqb_neq in Hne.
  unfold deleteUser. rewrite Hu, Hp. cbn [truthy]. rewrite Hne.
  cbn [negb andb string_method bind]. apply delete_reply.
Qed.

(** C10. A delete request reaches a stored row whatever its active flag:
    sent with the row's [user_id], or without a [user_id] and with a
    [mob_num] that normalizes to the row's, it answers 200 and the store it
    leaves holds no row of that id (of that number), the row itself
    included; the rows that remain were all there before. *)
Theorem deleteUser_ignores_active_flag (d : db) (u : User.row) :
  In u (users d) ->
  (forall body,
      prop body "user_id" = JStr (User.user_id u) ->
      User.user_id u <> "" ->
      exists d',
        deleteUser sql_text d body
        = respond d' 200 success (Lit "User deleted successfully.")
        /\ ~ In u (users d')
        /\ (forall r, In r (users d') ->
                      In r (users d) /\ User.user_id r <> User.user_id u))
  /\ (forall body m,
        truthy (prop body "user_id") = false ->
        prop body "mob_num" = JStr m ->
        m <> "" ->
        Str.slice_last 10 (Str.strip_non_digits m) = User.mob_num u ->
        exists d',
          deleteUser sql_text d body
          = respond d' 200 success (Lit "User deleted successfully.")
          /\ ~ In u (users d')
          /\ (forall r, In r (users d') ->
                        In r (users d) /\ User.mob_num r <> User.mob_num u)).
Proof.
  intros Hin.
  assert (Hgone : forall (col : User.row -> string),
             exists d',
               deleted_reply d col (col u)
               = respond d' 200 success (Lit "User deleted successfully.")
               /\ ~ In u (users d')
               /\ (forall r, In r (users d') -> In r (users d) /\ col r <> col u)).
  { intros col. unfold deleted_reply. cbv zeta.
    set (kept := List.filter (fun r => negb (String.eqb (col r) (col u))) (users d)).
    assert (Hk : forall r, In r kept -> In r (users d) /\ col r <> col u).
    { intros r Hr. apply filter_In in Hr as [Hr Hne].
      apply negb_true_iff, String.eqb_neq in Hne. tauto. }
    assert (Hlt : List.length kept < List.length (users d)).
    { pose proof (filter_split_length (fun r => String.eqb (col r) (col u)) (users d)) as Hs.
      cbv beta in Hs. change (List.filter _ (users d)) with kept in Hs at 2.
      assert (Hpos : In u (List.filter (fun r => String.eqb (col r) (col u)) (users d))).
      { apply filter_In. split; [exact Hin|apply String.eqb_refl]. }
      destruct (List.filter (fun r => String.eqb (col r) (col u)) (users d));
        [destruct Hpos|simpl in Hs; lia]. }
    replace (List.length (users d) - List.length kept =? 0) with false
      by (symmetry; apply Nat.eqb_neq; lia).
    eexists. split; [reflexivity|]. cbn [users with_users].
    split; [|exact Hk]. intros Hu. apply Hk in Hu. tauto. }
  split.
  - intros body Hp Hne. rewrite (deleteUser_by_id d body _ Hp Hne).
    apply (Hgone User.user_id).
  - intros body m Hu Hp Hne Hnorm.
    rewrite (deleteUser_by_mob d body m Hu Hp Hne).
    unfold formatMobNum. rewrite Hnorm. apply (Hgone User.mob_num).
Qed.

End Properties.

(** ** The properties at work on the sample store *)

Module Run.
Import Sample.

Lemma bind_text_string (s : string) : bind_text (JStr s) = Some s.
Proof. reflexivity. Qed.



Definition to_manager_b : object := [("manager_id", JStr "m-b")].


Definition to_manager_b_valid : update_validation :=
  {| u_isValid := true; u_message := "Validation successful.";
     validatedData := to_manager_b |}.

Definition asha_deactivated : User.row :=
  User.set_updated_at "2025-02-01T10:00:00.000Z" (User.set_is_active false asha).

(** The failing input of C1: Asha, active, is moved to the active manager
    B; the request ends in a 500 and her row is switched off. *)
Lemma single_reassignment_insert_rejected_run :
  updateUser bind_text world store
    {| user_ids := Some [JStr "u-1"]; update_data := Some to_manager_b |}
  = (Return {| code := 500; status_of := error;
               msg := Some (Lit "Internal server error."); data := NoData |},
     with_users store [asha_deactivated; ravi]).
Proof.
  exact (single_reassignment_insert_rejected bind_text world store (JStr "u-1")
           to_manager_b to_manager_b_valid asha
           eq_refl eq_refl eq_refl eq_refl eq_refl).
Defined.

(** The failing input of C2: after the same request no active row is left
    for Asha. *)
Lemma failed_reassignment_run :
  exists r d',
    updateUser bind_text world store
      {| user_ids := Some [JStr "u-1"]; update_data := Some to_manager_b |}
    = (Return r, d')
    /\ status_of r = error
    /\ List.length (users d') = 2
    /\ (forall r', In r' (users d') ->
                   Sql.eq_param (User.user_id r') (Some "u-1") = true ->
                   User.is_active r' = false)
    /\ d' <> store.
Proof.
  destruct (failed_reassignment_leaves_user_deactivated bind_text world store
              (JStr "u-1") to_manager_b to_manager_b_valid asha
              eq_refl eq_refl eq_refl eq_refl eq_refl)
    as (r & d' & H1 & H2 & H3 & _ & H5 & H6).
  exists r, d'. repeat split; assumption.
Defined.


(** Ravi's row is inactive; a delete by id, or by number, removes it. *)
Lemma deleteUser_ignores_active_flag_run :
  User.is_active ravi = false
  /\ (exists d',
         deleteUser bind_text store [("user_id", JStr "u-2")]
         = respond d' 200 success (Lit "User deleted successfully.")
         /\ ~ In ravi (users d'))
  /\ (exists d',
         deleteUser bind_text store [("mob_num", JStr "091234 56780")]
         = respond d' 200 success (Lit "User deleted successfully.")
         /\ ~ In ravi (users d')).
Proof.
  destruct (deleteUser_ignores_active_flag bind_text bind_text_string store ravi
              (or_intror (or_introl eq_refl))) as [Hid Hmob].
  split; [reflexivity|]. split.
  - destruct (Hid [("user_id", JStr "u-2")] eq_refl ltac:(discriminate))
      as (d' & H1 & H2 & _).
    exists d'. split; assumption.
  - destruct (Hmob [("mob_num", JStr "091234 56780")] "091234 56780"
                eq_refl eq_refl ltac:(discriminate) eq_refl)
      as (d' & H1 & H2 & _).
    exists d'. split; assumption.
Defined.


End Run.

(** ** Further properties of the validators, the handlers and the seed *)

Module NormalForms.
Import Str.

Lemma upper_char_idempotent (c : ascii) : upper_char (upper_char c) = upper_char c.
Proof. destruct c as [[] [] [] [] [] [] [] []]; reflexivity. Qed.

Lemma toUpperCase_idempotent (s : string) : toUpperCase (toUpperCase s) = toUpperCase s.
Proof.
  unfold toUpperCase. induction s as [|c r IH]; simpl; [reflexivity|].
  now rewrite upper_char_idempotent, IH.
Qed.

Lemma filter_all_pass f (s : string) : forallb f s = true -> filter f s = s.
Proof.
  induction s as [|c r IH]; simpl; [reflexivity|].
  intros H. apply andb_true_iff in H as [Hc Hr]. now rewrite Hc, IH.
Qed.

Lemma slice_last_short n (s : string) : String.length s <= n -> slice_last n s = s.
Proof.
  intros H. unfold slice_last. replace (String.length s - n) with 0 by lia.
  now destruct s.
Qed.

Lemma length_filter_le f (s : string) : String.length (filter f s) <= String.length s.
Proof. induction s as [|c r IH]; simpl; [lia|]. destruct (f c); simpl; lia. Qed.

End NormalForms.

Lemma formatMobNum_length (s : string) : String.length (formatMobNum s) <= 10.
Proof. unfold formatMobNum. rewrite StrFacts.length_slice_last. lia. Qed.

Lemma formatMobNum_fixed (s : string) :
  Str.forallb Str.is_digit s = true -> String.length s <= 10 -> formatMobNum s = s.
Proof.
  intros Hd Hl. unfold formatMobNum, Str.strip_non_digits.
  rewrite NormalForms.filter_all_pass by exact Hd.
  now apply NormalForms.slice_last_short.
Qed.

(** X1. The mobile-number normalization used by every handler
    ([replace(/\D/g, '').slice(-10)]) yields at most ten characters, digits
    only; it leaves its own results unchanged; and the result has ten
    characters exactly when the input holds at least ten digits. *)
Theorem formatMobNum_normal_form (s : string) :
  String.length (formatMobNum s) <= 10
  /\ Str.forallb Str.is_digit (formatMobNum s) = true
  /\ formatMobNum (formatMobNum s) = formatMobNum s
  /\ (String.length (formatMobNum s) = 10 <->
      10 <= String.length (Str.strip_non_digits s)).
Proof.
  split; [apply formatMobNum_length|].
  split; [apply formatMobNum_digits|].
  split.
  - apply formatMobNum_fixed; [apply formatMobNum_digits|apply formatMobNum_length].
  - unfold formatMobNum. rewrite StrFacts.length_slice_last. lia.
Qed.

(** X2. The values [validateUser] returns are accepted by [validateUser]
    again and come back unchanged. *)
Theorem validateUser_accepts_its_output (fn mob pan : string) (r : validation) (m p : string) :
  validateUser (JStr fn) (JStr mob) (JStr pan) = Return r ->
  v_mob_num r = Some m ->
  v_pan_num r = Some p ->
  validateUser (JStr fn) (JStr m) (JStr p) = Return r.
Proof.
  rewrite !validateUser_strings. intros H Hm Hp. injection H as <-.
  destruct (whitespace_only fn); [discriminate Hm|].
  destruct (String.length (formatMobNum mob) =? 10) eqn:E; cbn [negb] in *;
    [|discriminate Hm].
  destruct (pan_shape (Str.toUpperCase pan)) eqn:Ep; cbn [negb] in *;
    [|discriminate Hm].
  cbn in Hm, Hp. injection Hm as <-. injection Hp as <-.
  rewrite (formatMobNum_fixed _ (formatMobNum_digits mob) (formatMobNum_length mob)), E, NormalForms.toUpperCase_idempotent, Ep. reflexivity.
Qed.

(** *** validateUpdate: the validated payload *)

Lemma set_prop_fresh (o : object) (k : string) (v : jsval) :
  ~ In k (keys o) -> set_prop o k v = o ++ [(k, v)].
Proof.
  unfold keys. induction o as [|[k0 v0] o IH]; simpl; intros H; [reflexivity|].
  destruct (String.eqb k k0) eqn:E.
  - apply String.eqb_eq in E. subst. tauto.
  - rewrite IH by tauto. reflexivity.
Qed.

Lemma keys_app (o1 o2 : object) : keys (o1 ++ o2) = keys o1 ++ keys o2.
Proof. apply map_app. Qed.

(** One round of the loop on a key that is kept. *)
Lemma loop_keeps (upd : object) (k : string) (ks : list string) (acc : object)
    (vr : update_validation) :
  validateUpdate_loop upd (k :: ks) acc = Return vr ->
  u_isValid vr = true ->
  In k validKeys
  /\ key_passes upd k = true
  /\ validateUpdate_loop upd ks (set_prop acc k (kept_value upd k)) = Return vr.
Proof.
  intros H Hv. cbn [validateUpdate_loop] in H. unfold key_passes, kept_value.
  destruct (includes validKeys k) eqn:Hin; cbn [negb andb] in H |- *.
  2:{ injection H as <-. discriminate Hv. }
  split; [now apply includes_In|].
  destruct (String.eqb k "full_name") eqn:E1.
  { apply String.eqb_eq in E1. subst k. cbn [String.eqb Ascii.eqb Bool.eqb].
    destruct (prop upd "full_name"); try (injection H as <-; discriminate Hv).
    rewrite StrFacts.trim_blank in H. fold (whitespace_only s) in H.
    destruct (whitespace_only s); [injection H as <-; discriminate Hv|].
    split; [reflexivity|exact H]. }
  destruct (String.eqb k "mob_num") eqn:E2.
  { apply String.eqb_eq in E2. subst k.
    destruct (prop upd "mob_num"); cbn [string_method bind] in H; try discriminate H.
    destruct (String.length (formatMobNum s) =? 10); cbn [negb] in H;
      [|injection H as <-; discriminate Hv].
    split; [reflexivity|exact H]. }
  destruct (String.eqb k "pan_num") eqn:E3.
  { apply String.eqb_eq in E3. subst k.
    destruct (prop upd "pan_num"); cbn [string_method bind] in H; try discriminate H.
    rewrite panRegex_shape in H.
    destruct (pan_shape (Str.toUpperCase s)); cbn [negb] in H;
      [|injection H as <-; discriminate Hv].
    split; [reflexivity|exact H]. }
  unfold includes in Hin. simpl in Hin. rewrite E1, E2, E3 in Hin. simpl in Hin.
  rewrite orb_false_r in Hin. apply String.eqb_eq in Hin. subst k.
  split; [reflexivity|exact H].
Qed.

Lemma validateUpdate_loop_normal_form (upd : object) (ks : list string) :
  forall acc vr,
    NoDup ks ->
    (forall k, In k ks -> ~ In k (keys acc)) ->
    validateUpdate_loop upd ks acc = Return vr ->
    u_isValid vr = true ->
    validatedData vr = acc ++ List.map (fun k => (k, kept_value upd k)) ks
    /\ validatedData vr <> []
    /\ Forall (fun k => In k validKeys /\ key_passes upd k = true) ks.
Proof.
  induction ks as [|k ks IH]; intros acc vr Hnd Hfresh H Hv.
  - cbn [validateUpdate_loop] in H.
    destruct (List.length (keys acc) =? 0) eqn:E;
      injection H as <-; [discriminate Hv|].
    cbn [validatedData List.map]. rewrite app_nil_r.
    split; [reflexivity|]. split; [|constructor].
    intros ->. discriminate E.
  - destruct (loop_keeps upd k ks acc vr H Hv) as (Hin & Hp & Hrec).
    inversion Hnd as [|? ? Hk Hnd']; subst.
    rewrite (set_prop_fresh acc k _ (Hfresh k (or_introl eq_refl))) in Hrec.
    assert (Hfresh' : forall k', In k' ks ->
                                 ~ In k' (keys (acc ++ [(k, kept_value upd k)]))).
    { intros k' Hk' Hin'. rewrite keys_app in Hin'.
      apply in_app_or in Hin' as [Hin'|[<-|[]]]; [|exact (Hk Hk')].
      exact (Hfresh k' (or_intror Hk') Hin'). }
    destruct (IH _ vr Hnd' Hfresh' Hrec Hv) as (Hd & Hne & Hall).
    split; [|split; [exact Hne|constructor; auto]].
    rewrite Hd, <- app_assoc. reflexivity.
Qed.

(** One round of the loop on a key that passes its check. *)
Lemma loop_round (upd : object) (k : string) (ks : list string) (acc : object) :
  key_passes upd k = true ->
  validateUpdate_loop upd (k :: ks) acc
  = validateUpdate_loop upd ks (set_prop acc k (kept_value upd k)).
Proof.
  unfold key_passes, kept_value. intros H. apply andb_true_iff in H as [Hin H].
  cbn [validateUpdate_loop]. rewrite Hin. cbn [negb].
  destruct (String.eqb k "full_name") eqn:E1.
  { apply String.eqb_eq in E1. subst k. cbn [String.eqb Ascii.eqb Bool.eqb].
    destruct (prop upd "full_name"); try discriminate H.
    rewrite StrFacts.trim_blank. fold (whitespace_only s).
    apply negb_true_iff in H. now rewrite H. }
  destruct (String.eqb k "mob_num") eqn:E2.
  { apply String.eqb_eq in E2. subst k.
    destruct (prop upd "mob_num"); try discriminate H.
    cbn [string_method bind]. now rewrite H. }
  destruct (String.eqb k "pan_num") eqn:E3.
  { apply String.eqb_eq in E3. subst k.
    destruct (prop upd "pan_num"); try discriminate H.
    cbn [string_method bind]. now rewrite panRegex_shape, H. }
  unfold includes in Hin. simpl in Hin. rewrite E1, E2, E3 in Hin. simpl in Hin.
  rewrite orb_false_r in Hin. apply String.eqb_eq in Hin. now subst k.
Qed.

Lemma validateUpdate_loop_runs (upd : object) (ks : list string) :
  forall acc,
    NoDup ks ->
    (forall k, In k ks -> ~ In k (keys acc)) ->
    Forall (fun k => key_passes upd k = true) ks ->
    acc ++ List.map (fun k => (k, kept_value upd k)) ks <> [] ->
    validateUpdate_loop upd ks acc
    = Return {| u_isValid := true; u_message := "Validation successful.";
                validatedData := acc ++ List.map (fun k => (k, kept_value upd k)) ks |}.
Proof.
  induction ks as [|k ks IH]; intros acc Hnd Hfresh Hall Hne.
  - cbn [validateUpdate_loop List.map] in *. rewrite app_nil_r in *.
    destruct acc; [contradiction|reflexivity].
  - inversion Hnd as [|? ? Hk Hnd']; subst. inversion Hall as [|? ? Hp Hall']; subst.
    rewrite (loop_round upd k ks acc Hp).
    rewrite (set_prop_fresh acc k _ (Hfresh k (or_introl eq_refl))).
    rewrite IH; auto.
    + cbn [List.map]. now rewrite <- app_assoc.
    + intros k' Hk' Hin'. rewrite keys_app in Hin'.
      apply in_app_or in Hin' as [Hin'|[<-|[]]]; [|exact (Hk Hk')].
      exact (Hfresh k' (or_intror Hk') Hin').
    + intros E. apply app_eq_nil in E as [E _]. apply app_eq_nil in E as [_ E].
      discriminate E.
Qed.

Lemma prop_of_map (f : string -> jsval) (ks : list string) (k : string) :
  In k ks -> prop (List.map (fun k => (k, f k)) ks) k = f k.
Proof.
  unfold prop. induction ks as [|k0 ks IH]; intros H; [destruct H|].
  cbn [List.map lookup]. destruct (String.eqb k k0) eqn:E.
  - apply String.eqb_eq in E. now subst.
  - apply String.eqb_neq in E. destruct H as [H|H]; [congruence|]. now apply IH.
Qed.

(** A kept value passes again, and is kept as it is. *)
Lemma kept_value_stable (upd upd' : object) (k : string) :
  key_passes upd k = true ->
  prop upd' k = kept_value upd k ->
  key_passes upd' k = true /\ kept_value upd' k = kept_value upd k.
Proof.
  unfold key_passes, kept_value. intros H Hp. apply andb_true_iff in H as [Hin H].
  rewrite Hin. cbn [andb].
  destruct (String.eqb k "full_name") eqn:E1.
  { apply String.eqb_eq in E1. subst k. cbn [String.eqb Ascii.eqb Bool.eqb] in *.
    rewrite Hp. split; [exact H|reflexivity]. }
  destruct (String.eqb k "mob_num") eqn:E2.
  { apply String.eqb_eq in E2. subst k. rewrite Hp.
    destruct (prop upd "mob_num"); try discriminate H.
    rewrite (formatMobNum_fixed _ (formatMobNum_digits s) (formatMobNum_length s)).
    split; [exact H|reflexivity]. }
  destruct (String.eqb k "pan_num") eqn:E3.
  { apply String.eqb_eq in E3. subst k. rewrite Hp.
    destruct (prop upd "pan_num"); try discriminate H.
    rewrite NormalForms.toUpperCase_idempotent. split; [exact H|reflexivity]. }
  split; [reflexivity|exact Hp].
Qed.

(** X3. For a payload with distinct keys that passes [validateUpdate], the
    validated payload lists the same keys in the same order, each with its
    normalized value; the payload is not empty and names recognised keys
    only; and validating the validated payload returns it unchanged. *)
Theorem validateUpdate_normal_form (upd : object) (vr : update_validation) :
  validateUpdate upd = Return vr ->
  u_isValid vr = true ->
  NoDup (keys upd) ->
  validatedData vr = List.map (fun k => (k, kept_value upd k)) (keys upd)
  /\ keys upd <> []
  /\ Forall (fun k => In k validKeys) (keys upd)
  /\ validateUpdate (validatedData vr) = Return vr.
Proof.
  intros H Hv Hnd. unfold validateUpdate in H.
  destruct (validateUpdate_loop_normal_form upd (keys upd) [] vr Hnd
              (fun _ _ F => F) H Hv) as (Hd & Hne & Hall).
  cbn [List.app] in Hd.
  assert (Hpass : Forall (fun k => key_passes upd k = true) (keys upd)).
  { eapply Forall_impl; [|exact Hall]. cbv beta. tauto. }
  assert (Hk : keys upd <> []).
  { intros E. rewrite E in Hd. cbn in Hd. contradiction. }
  split; [exact Hd|]. split; [exact Hk|]. split.
  { eapply Forall_impl; [|exact Hall]. cbv beta. tauto. }
  assert (Hne' : [] ++ List.map (fun k => (k, kept_value upd k)) (keys upd) <> [])
    by (cbn [List.app]; now rewrite <- Hd).
  pose proof (validateUpdate_loop_runs upd (keys upd) [] Hnd (fun _ _ F => F)
                Hpass Hne') as Hrun.
  rewrite H in Hrun. injection Hrun as Hvr. cbn [List.app] in Hvr.
  set (upd' := List.map (fun k => (k, kept_value upd k)) (keys upd)) in *.
  assert (Hkeys : keys upd' = keys upd).
  { unfold upd', keys. rewrite map_map. cbn [fst]. apply map_id. }
  assert (Hst : forall k, In k (keys upd) ->
                          key_passes upd' k = true
                          /\ kept_value upd' k = kept_value upd k).
  { intros k Hin. apply kept_value_stable.
    - rewrite Forall_forall in Hpass. now apply Hpass.
    - unfold upd'. now apply (prop_of_map (kept_value upd)). }
  rewrite Hd at 1. unfold validateUpdate. rewrite Hkeys.
  rewrite validateUpdate_loop_runs.
  - cbn [List.app]. rewrite Hvr. do 2 f_equal. apply map_ext_in.
    intros k Hin. f_equal. now apply Hst.
  - exact Hnd.
  - intros k _ F. exact F.
  - rewrite Forall_forall. intros k Hin. now apply Hst.
  - cbn [List.app]. intros E. apply map_eq_nil in E. contradiction.
Qed.

(** *** Key constraints and the statements *)

Lemma NoDup_map_app_one {A B} (f : A -> B) (l : list A) (x : A) :
  NoDup (List.map f l) -> ~ In (f x) (List.map f l) -> NoDup (List.map f (l ++ [x])).
Proof.
  intros Hnd Hx. rewrite map_app. cbn [List.map].
  apply NoDup_app; [exact Hnd|repeat constructor; auto|].
  intros b Hb [<-|[]]. exact (Hx Hb).
Qed.

Lemma NoDup_map_filter {A B} (f : A -> B) (g : A -> bool) (l : list A) :
  NoDup (List.map f l) -> NoDup (List.map f (List.filter g l)).
Proof.
  induction l as [|x l IH]; simpl; intros H; [constructor|].
  inversion H as [|? ? Hx Hl]; subst.
  destruct (g x); simpl; [|auto].
  constructor; [|auto]. intros Hin. apply Hx.
  apply in_map_iff in Hin as (y & Hy & Hf). apply filter_In in Hf as [Hf _].
  apply in_map_iff. eauto.
Qed.

Lemma insert_user_keeps_keys (d d' : db) (id : string) (fn mob pan mgr : Sql.param)
    (c1 c2 : string) (n : nat) :
  Sql.insert_user d id fn mob pan mgr c1 c2 = Sql.Done n d' ->
  keys_hold (users d) -> keys_hold (users d').
Proof.
  unfold Sql.insert_user.
  destruct fn as [fn|]; [|discriminate].
  destruct mob as [mob|]; [|discriminate].
  destruct pan as [pan|]; [|discriminate].
  destruct mgr as [mgr|]; [|discriminate].
  destruct (existsb _ (users d)) eqn:E; [discriminate|].
  intros H (H1 & H2 & H3). injection H as _ <-. cbn [users with_users].
  assert (Hfree : forall u, In u (users d) ->
                            User.user_id u <> id /\ User.mob_num u <> mob
                            /\ User.pan_num u <> pan).
  { intros u Hu. rewrite existsb_false_iff in E. specialize (E u Hu).
    apply orb_false_iff in E as [E E3]. apply orb_false_iff in E as [E1 E2].
    apply String.eqb_neq in E1, E2, E3. tauto. }
  repeat split; apply NoDup_map_app_one; try assumption;
    intros Hin; apply in_map_iff in Hin as (u & Hu & Hin);
    cbn in Hu; destruct (Hfree u Hin) as (F1 & F2 & F3); congruence.
Qed.

Lemma delete_where_keeps_keys (d : db) (col : User.row -> string) (p : Sql.param) :
  keys_hold (users d) -> keys_hold (users (snd (Sql.delete_where d col p))).
Proof.
  intros (H1 & H2 & H3). unfold Sql.delete_where. cbn [snd users with_users].
  repeat split; now apply NoDup_map_filter.
Qed.

Lemma filter_none {A} (f : A -> bool) (l : list A) :
  (forall x, In x l -> f x = false) -> List.filter f l = [].
Proof.
  induction l as [|x l IH]; simpl; intros H; [reflexivity|].
  rewrite (H x (or_introl eq_refl)). apply IH. auto.
Qed.

Lemma filter_every {A} (f : A -> bool) (l : list A) :
  (forall x, In x l -> f x = true) -> List.filter f l = l.
Proof.
  induction l as [|x l IH]; simpl; intros H; [reflexivity|].
  rewrite (H x (or_introl eq_refl)). f_equal. apply IH. auto.
Qed.

Lemma keys_hold_map (g : User.row -> User.row) (us : list User.row) :
  (forall u, User.user_id (g u) = User.user_id u
             /\ User.mob_num (g u) = User.mob_num u
             /\ User.pan_num (g u) = User.pan_num u) ->
  keys_hold us -> keys_hold (List.map g us).
Proof.
  intros Hg (H1 & H2 & H3). unfold keys_hold. rewrite !map_map.
  rewrite (map_ext (fun u => User.user_id (g u)) User.user_id) by apply Hg.
  rewrite (map_ext (fun u => User.mob_num (g u)) User.mob_num) by apply Hg.
  rewrite (map_ext (fun u => User.pan_num (g u)) User.pan_num) by apply Hg.
  auto.
Qed.

(** *** The SET clause *)

Lemma find_snoc {A} (p : A -> bool) (l : list A) (x : A) :
  List.find p (l ++ [x])
  = match List.find p l with
    | Some y => Some y
    | None => if p x then Some x else None
    end.
Proof.
  induction l as [|y l IH]; simpl; [reflexivity|].
  destruct (p y); [reflexivity|exact IH].
Qed.

Lemma assign_all_snoc (vs : list (string * string)) (c v : string) (u : User.row) :
  Sql.assign_all (vs ++ [(c, v)]) u = Sql.assign c v (Sql.assign_all vs u).
Proof. revert u. induction vs as [|[c0 v0] vs IH]; intros u; simpl; auto. Qed.

(** A column that [assign] writes under [name] and under no other name
    holds, after a SET clause, the last value given for [name]. *)
Lemma column_after_sets (name : string) (col : User.row -> string) :
  (forall v u, col (Sql.assign name v u) = v) ->
  (forall c v u, c <> name -> col (Sql.assign c v u) = col u) ->
  forall vs u,
    col (Sql.assign_all vs u)
    = match List.find (sets_column name) (List.rev vs) with
      | Some (_, v) => v
      | None => col u
      end.
Proof.
  intros Hset Hkeep vs. induction vs as [|[c v] vs IH]; intros u; [reflexivity|].
  cbn [Sql.assign_all List.rev]. rewrite find_snoc, IH.
  destruct (List.find (sets_column name) (List.rev vs)) as [[? ?]|]; [reflexivity|].
  unfold sets_column at 1. cbn [fst].
  destruct (String.eqb c name) eqn:E.
  - apply String.eqb_eq in E. subst. apply Hset.
  - apply String.eqb_neq in E. now apply Hkeep.
Qed.

(** A column [assign] never writes is left alone by a SET clause. *)
Lemma column_untouched {A} (col : User.row -> A) :
  (forall c v u, col (Sql.assign c v u) = col u) ->
  forall vs u, col (Sql.assign_all vs u) = col u.
Proof.
  intros H vs. induction vs as [|[c v] vs IH]; intros u; [reflexivity|].
  cbn [Sql.assign_all]. now rewrite IH.
Qed.

Ltac assign_cases c :=
  unfold Sql.assign;
  destruct (String.eqb c "full_name") eqn:?E1;
  [|destruct (String.eqb c "mob_num") eqn:?E2;
    [|destruct (String.eqb c "pan_num") eqn:?E3;
      [|destruct (String.eqb c "manager_id") eqn:?E4;
        [|destruct (String.eqb c "updated_at") eqn:?E5]]]];
  repeat match goal with
         | H : String.eqb _ _ = true |- _ => apply String.eqb_eq in H
         end;
  subst; try reflexivity; try congruence.

Lemma user_id_assign c v u : User.user_id (Sql.assign c v u) = User.user_id u.
Proof. assign_cases c. Qed.
Lemma created_at_assign c v u : User.created_at (Sql.assign c v u) = User.created_at u.
Proof. assign_cases c. Qed.
Lemma is_active_assign c v u : User.is_active (Sql.assign c v u) = User.is_active u.
Proof. assign_cases c. Qed.

Lemma mob_num_assign_other c v u :
  c <> "mob_num" -> User.mob_num (Sql.assign c v u) = User.mob_num u.
Proof. intros H. assign_cases c. Qed.
Lemma pan_num_assign_other c v u :
  c <> "pan_num" -> User.pan_num (Sql.assign c v u) = User.pan_num u.
Proof. intros H. assign_cases c. Qed.
Lemma full_name_assign_other c v u :
  c <> "full_name" -> User.full_name (Sql.assign c v u) = User.full_name u.
Proof. intros H. assign_cases c. Qed.
Lemma manager_id_assign_other c v u :
  c <> "manager_id" -> User.manager_id (Sql.assign c v u) = User.manager_id u.
Proof. intros H. assign_cases c. Qed.
Lemma updated_at_assign_other c v u :
  c <> "updated_at" -> User.updated_at (Sql.assign c v u) = User.updated_at u.
Proof. intros H. assign_cases c. Qed.

Lemma count_hit_le_one (us : list User.row) (p : Sql.param) :
  NoDup (List.map User.user_id us) ->
  Sql.count (fun u => Sql.eq_param (User.user_id u) p) us <= 1.
Proof.
  unfold Sql.count. destruct p as [id|].
  2:{ intros _. rewrite filter_none; [simpl; lia|reflexivity]. }
  cbn [Sql.eq_param].
  induction us as [|x us IH]; simpl; intros H; [lia|].
  inversion H as [|? ? Hx Hn]; subst.
  destruct (String.eqb (User.user_id x) id) eqn:E; [|auto].
  apply String.eqb_eq in E. subst id. simpl.
  rewrite filter_none; [simpl; lia|].
  intros u Hu. apply String.eqb_neq. intros Heq. apply Hx.
  rewrite <- Heq. now apply in_map.
Qed.

(** Overwriting a UNIQUE column on the one row hit, with a value no other
    row holds, keeps the column free of duplicates. *)
Lemma NoDup_overwrite {A} (f : A -> string) (hit : A -> bool) (v : string) (us : list A) :
  NoDup (List.map f us) ->
  (forall u, In u us -> hit u = false -> f u <> v) ->
  List.length (List.filter hit us) <= 1 ->
  NoDup (List.map (fun u => if hit u then v else f u) us).
Proof.
  induction us as [|x us IH]; simpl; intros Hnd Hv Hc; [constructor|].
  inversion Hnd as [|? ? Hx Hn]; subst.
  destruct (hit x) eqn:Ex.
  - simpl in Hc.
    assert (Hnone : forall u, In u us -> hit u = false).
    { intros u Hu. destruct (hit u) eqn:Eu; [|reflexivity].
      assert (In u (List.filter hit us)) by (apply filter_In; auto).
      destruct (List.filter hit us); [contradiction|simpl in Hc; lia]. }
    rewrite (map_ext_in _ f).
    2:{ intros u Hu. now rewrite (Hnone u Hu). }
    constructor; [|exact Hn]. intros Hin.
    apply in_map_iff in Hin as (u & Hu & Hin). exact (Hv u (or_intror Hin) (Hnone u Hin) Hu).
  - constructor.
    + intros Hin. apply in_map_iff in Hin as (u & Hu & Hin).
      destruct (hit u) eqn:Eu.
      * exact (Hv x (or_introl eq_refl) Ex (eq_sym Hu)).
      * apply Hx. rewrite <- Hu. now apply in_map.
    + apply IH; auto.
Qed.

Lemma update_column_keeps_unique (name : string) (col : User.row -> string)
    (vs : list (string * string)) (hit : User.row -> bool) (us : list User.row) :
  (forall v u, col (Sql.assign name v u) = v) ->
  (forall c v u, c <> name -> col (Sql.assign c v u) = col u) ->
  Sql.clash_on name col vs hit us = false ->
  NoDup (List.map col us) ->
  NoDup (List.map col (List.map (fun u => if hit u then Sql.assign_all vs u else u) us)).
Proof.
  intros Hset Hkeep Hclash Hnd. rewrite map_map.
  unfold Sql.clash_on in Hclash.
  change (fun cv : string * string => String.eqb (fst cv) name)
    with (sets_column name) in Hclash.
  pose proof (column_after_sets name col Hset Hkeep vs) as Hcol.
  destruct (List.find (sets_column name) (List.rev vs)) as [[c v]|].
  - unfold Sql.unique_clash in Hclash. apply orb_false_iff in Hclash as [Hother Hcount].
    rewrite (map_ext _ (fun u => if hit u then v else col u)).
    2:{ intros u. destruct (hit u); [apply Hcol|reflexivity]. }
    apply NoDup_overwrite; [exact Hnd| |].
    + intros u Hu Hh. rewrite existsb_false_iff in Hother. specialize (Hother u Hu).
      rewrite Hh in Hother. cbn [negb andb] in Hother. now apply String.eqb_neq.
    + apply Nat.leb_gt in Hcount. unfold Sql.count in Hcount. lia.
  - rewrite (map_ext _ col); [exact Hnd|].
    intros u. destruct (hit u); [apply Hcol|reflexivity].
Qed.

Lemma update_user_keeps_keys (d d' : db) (sets : list (string * Sql.param))
    (p : Sql.param) (n : nat) :
  Sql.update_user d sets p = Sql.Done n d' ->
  keys_hold (users d) -> keys_hold (users d').
Proof.
  unfold Sql.update_user.
  destruct (Sql.count _ (users d) =? 0); [intros H; now injection H as _ <-|].
  destruct (Sql.non_null sets) as [vs|]; [|discriminate].
  destruct (Sql.clash_on "mob_num" _ _ _ _) eqn:Cm; [discriminate|].
  destruct (Sql.clash_on "pan_num" _ _ _ _) eqn:Cp; [discriminate|].
  intros H (H1 & H2 & H3). injection H as _ <-. cbn [users with_users].
  split; [|split].
  - rewrite map_map. rewrite (map_ext _ User.user_id); [exact H1|].
    intros u. destruct (Sql.eq_param _ _); [|reflexivity].
    apply (column_untouched User.user_id user_id_assign).
  - exact (update_column_keeps_unique "mob_num" User.mob_num vs _ _
             (fun v u => eq_refl) mob_num_assign_other Cm H2).
  - exact (update_column_keeps_unique "pan_num" User.pan_num vs _ _
             (fun v u => eq_refl) pan_num_assign_other Cp H3).
Qed.

(** *** The SET clause of a validated payload *)

Lemma find_rev_unique {A} (p : A -> bool) (l : list A) :
  (forall x y, In x l -> In y l -> p x = true -> p y = true -> x = y) ->
  List.find p (List.rev l) = List.find p l.
Proof.
  induction l as [|x l IH]; intros Hu; [reflexivity|].
  cbn [List.rev List.find]. rewrite find_snoc.
  destruct (p x) eqn:Ex.
  - destruct (List.find p (List.rev l)) as [y|] eqn:E; [|reflexivity].
    apply find_some in E as [Hy Hp]. apply in_rev in Hy.
    f_equal. symmetry. apply Hu; simpl; auto.
  - rewrite IH; [now destruct (List.find p l)|].
    intros a b Ha Hb. apply Hu; simpl; auto.
Qed.

Lemma find_sets_column (name : string) (vs : list (string * string)) :
  NoDup (List.map fst vs) ->
  List.find (sets_column name) (List.rev vs) = List.find (sets_column name) vs.
Proof.
  intros Hnd. apply find_rev_unique.
  intros [c1 v1] [c2 v2] H1 H2 E1 E2. unfold sets_column in *. cbn [fst] in *.
  apply String.eqb_eq in E1, E2. subst c1 c2.
  f_equal. clear -Hnd H1 H2.
  induction vs as [|[c v] vs IH]; [destruct H1|].
  cbn [List.map fst] in Hnd. inversion Hnd as [|? ? Hc Hn]; subst.
  destruct H1 as [H1|H1], H2 as [H2|H2].
  - congruence.
  - injection H1 as -> ->. exfalso. apply Hc.
    change name with (fst (name, v2)). now apply in_map.
  - injection H2 as -> ->. exfalso. apply Hc.
    change name with (fst (name, v1)). now apply in_map.
  - auto.
Qed.

Lemma find_sets_in (name : string) (f : string -> string) (ks : list string)
    (tail : list (string * string)) :
  List.find (sets_column name) (List.map (fun k => (k, f k)) ks ++ tail)
  = if includes ks name then Some (name, f name)
    else List.find (sets_column name) tail.
Proof.
  unfold includes. induction ks as [|k ks IH]; [reflexivity|].
  cbn [List.map List.app List.find existsb]. unfold sets_column at 1. cbn [fst].
  rewrite (String.eqb_sym name k).
  destruct (String.eqb k name) eqn:E; [|exact IH].
  apply String.eqb_eq in E. now subst.
Qed.

Lemma row_ext (u v : User.row) :
  User.user_id u = User.user_id v -> User.full_name u = User.full_name v ->
  User.mob_num u = User.mob_num v -> User.pan_num u = User.pan_num v ->
  User.manager_id u = User.manager_id v -> User.created_at u = User.created_at v ->
  User.updated_at u = User.updated_at v -> User.is_active u = User.is_active v ->
  u = v.
Proof. destruct u, v; simpl; intros; subst; reflexivity. Qed.

Lemma has_key_includes (o : object) (k : string) : has_key o k = includes (keys o) k.
Proof.
  destruct (has_key o k) eqn:E.
  - symmetry. apply includes_In. now apply has_key_In.
  - symmetry. destruct (includes (keys o) k) eqn:E'; [|reflexivity].
    apply includes_In, has_key_In in E'. congruence.
Qed.

(** The SET clause built from a payload of name, number and PAN, run on a row. *)
Lemma assign_all_updated (upd : object) (now : string) (u : User.row) :
  NoDup (keys upd) ->
  ~ In "manager_id" (keys upd) ->
  ~ In "updated_at" (keys upd) ->
  Sql.assign_all
    (List.map (fun k => (k, kept_text upd k)) (keys upd) ++ [("updated_at", now)]) u
  = updated_row upd now u.
Proof.
  intros Hnd Hm Hu.
  set (vs := List.map (fun k => (k, kept_text upd k)) (keys upd) ++ [("updated_at", now)]).
  assert (Hvs : NoDup (List.map fst vs)).
  { unfold vs. rewrite map_app, map_map. cbn [fst List.map]. rewrite map_id.
    apply NoDup_app; [exact Hnd|repeat constructor; auto|].
    intros k Hk [<-|[]]. exact (Hu Hk). }
  assert (Hfind : forall name,
             List.find (sets_column name) (List.rev vs)
             = if has_key upd name then Some (name, kept_text upd name)
               else if String.eqb "updated_at" name then Some ("updated_at", now)
                    else None).
  { intros name. rewrite (find_sets_column name vs Hvs). unfold vs.
    rewrite find_sets_in, has_key_includes.
    destruct (includes (keys upd) name); reflexivity. }
  assert (Hno : forall k, ~ In k (keys upd) -> has_key upd k = false).
  { intros k Hk. destruct (has_key upd k) eqn:E; [|reflexivity].
    apply has_key_In in E. contradiction. }
  apply row_ext; unfold updated_row, field_after;
    cbn [User.user_id User.full_name User.mob_num User.pan_num User.manager_id
         User.created_at User.updated_at User.is_active].
  - apply (column_untouched User.user_id user_id_assign).
  - rewrite (column_after_sets "full_name" User.full_name
               (fun v r => eq_refl) full_name_assign_other), Hfind.
    destruct (has_key upd "full_name"); reflexivity.
  - rewrite (column_after_sets "mob_num" User.mob_num
               (fun v r => eq_refl) mob_num_assign_other), Hfind.
    destruct (has_key upd "mob_num"); reflexivity.
  - rewrite (column_after_sets "pan_num" User.pan_num
               (fun v r => eq_refl) pan_num_assign_other), Hfind.
    destruct (has_key upd "pan_num"); reflexivity.
  - rewrite (column_after_sets "manager_id" User.manager_id
               (fun v r => eq_refl) manager_id_assign_other), Hfind.
    rewrite (Hno _ Hm). reflexivity.
  - apply (column_untouched User.created_at created_at_assign).
  - rewrite (column_after_sets "updated_at" User.updated_at
               (fun v r => eq_refl) updated_at_assign_other), Hfind.
    rewrite (Hno _ Hu). reflexivity.
  - apply (column_untouched User.is_active is_active_assign).
Qed.

Lemma valid_payload_nonempty (upd : object) (ks : list string) :
  forall acc vr,
    validateUpdate_loop upd ks acc = Return vr ->
    u_isValid vr = true ->
    validatedData vr <> [].
Proof.
  induction ks as [|k ks IH]; intros acc vr H Hv.
  - cbn [validateUpdate_loop] in H.
    destruct (List.length (keys acc) =? 0) eqn:E; injection H as <-;
      [discriminate Hv|].
    cbn [validatedData]. intros ->. discriminate E.
  - destruct (loop_keeps upd k ks acc vr H Hv) as (_ & _ & Hrec). eauto.
Qed.

Lemma kept_value_string (upd : object) (k : string) :
  key_passes upd k = true ->
  k <> "manager_id" ->
  kept_value upd k = JStr (kept_text upd k).
Proof.
  unfold kept_text, key_passes, kept_value. intros H Hk.
  apply andb_true_iff in H as [Hin H].
  destruct (String.eqb k "full_name") eqn:E1.
  { apply String.eqb_eq in E1. subst k. cbn [String.eqb Ascii.eqb Bool.eqb] in *.
    destruct (prop upd "full_name"); try discriminate H. reflexivity. }
  destruct (String.eqb k "mob_num") eqn:E2.
  { destruct (prop upd "mob_num"); try discriminate H. reflexivity. }
  destruct (String.eqb k "pan_num") eqn:E3.
  { destruct (prop upd "pan_num"); try discriminate H. reflexivity. }
  unfold includes in Hin. simpl in Hin. rewrite E1, E2, E3 in Hin. simpl in Hin.
  rewrite orb_false_r in Hin. apply String.eqb_eq in Hin. contradiction.
Qed.

Lemma non_null_all (vs : list (string * string)) :
  Sql.non_null (List.map (fun cv => (fst cv, Some (snd cv))) vs) = Some vs.
Proof.
  induction vs as [|[c v] vs IH]; [reflexivity|].
  cbn [List.map Sql.non_null fst snd]. now rewrite IH.
Qed.

(** The messages of a failed [validateUpdate]. *)
Lemma validateUpdate_loop_message (upd : object) (ks : list string) :
  forall acc vr,
    validateUpdate_loop upd ks acc = Return vr ->
    u_message vr <> "No valid fields to update.".
Proof.
  induction ks as [|k ks IH]; intros acc vr H; cbn [validateUpdate_loop] in H.
  - destruct (List.length (keys acc) =? 0); injection H as <-; discriminate.
  - destruct (negb (includes validKeys k)); [injection H as <-; discriminate|].
    destruct (String.eqb k "full_name").
    { destruct (prop upd "full_name"); try (injection H as <-; discriminate).
      destruct (String.length (Str.trim s) =? 0);
        [injection H as <-; discriminate|eauto]. }
    destruct (String.eqb k "mob_num").
    { destruct (string_method (prop upd "mob_num")); cbn [bind] in H; [|discriminate H].
      destruct (negb _); [injection H as <-; discriminate|eauto]. }
    destruct (String.eqb k "pan_num").
    { destruct (string_method (prop upd "pan_num")); cbn [bind] in H; [|discriminate H].
      destruct (negb _); [injection H as <-; discriminate|eauto]. }
    eauto.
Qed.

Lemma kept_text_stored_text (upd : object) (k : string) :
  kept_text upd k = stored_text upd k.
Proof.
  unfold kept_text, kept_value, stored_text.
  destruct (String.eqb k "mob_num") eqn:E2.
  { apply String.eqb_eq in E2. subst k.
    destruct (prop upd "mob_num"); try reflexivity.
    apply Words.formatMobNum_normal_number. }
  destruct (String.eqb k "pan_num") eqn:E3.
  { apply String.eqb_eq in E3. subst k.
    destruct (prop upd "pan_num"); try reflexivity.
    apply Words.toUpperCase_upper_text. }
  reflexivity.
Qed.

Lemma updated_row_row_after (upd : object) (now : string) (u : User.row) :
  updated_row upd now u = row_after upd now u.
Proof.
  unfold updated_row, row_after, field_after. now rewrite !kept_text_stored_text.
Qed.




Lemma eq_param_bound (x : string) (p : Sql.param) :
  Sql.eq_param x p = true <-> exists s, p = Some s /\ x = s.
Proof.
  destruct p as [s|]; cbn [Sql.eq_param].
  - rewrite String.eqb_eq. split; [eauto|]. intros (s' & E & ->). now injection E as ->.
  - split; [discriminate|]. intros (s & E & _). discriminate E.
Qed.

Lemma like_suffix_normal (x m : string) :
  Sql.like_suffix x (formatMobNum m) = true
  <-> exists pre, x = (pre ++ normal_number m)%string.
Proof.
  unfold Sql.like_suffix. rewrite StrFacts.ends_with_suffix.
  now rewrite Words.formatMobNum_normal_number.
Qed.

Section More.

Variable sql_text : jsval -> Sql.param.
Hypothesis sql_text_string : forall s, sql_text (JStr s) = Some s.

(** [createUser] on a body whose three validated fields are strings. *)
Lemma createUser_strings (e : env) (d : db) (body : object) (fn mob pan : string) :
  prop body "full_name" = JStr fn ->
  prop body "mob_num" = JStr mob ->
  prop body "pan_num" = JStr pan ->
  has_key body "manager_id" = true ->
  createUser sql_text e d body =
  if whitespace_only fn then
    respond d 400 error (Lit "Full name must not be empty.")
  else if negb (String.length (formatMobNum mob) =? 10) then
    respond d 400 error (Lit "Mobile number must be a valid 10-digit number.")
  else if negb (pan_shape (Str.toUpperCase pan)) then
    respond d 400 error (Lit "PAN number is not a valid format.")
  else
    match Sql.get_manager_is_active d (sql_text (prop body "manager_id")) with
    | Some true =>
        match Sql.insert_user d (uuidv4 e) (Some fn) (Some (formatMobNum mob))
                (Some (Str.toUpperCase pan)) (sql_text (prop body "manager_id"))
                (clock e 0) (clock e 0) with
        | Sql.Failed => internal_error d
        | Sql.Done _ d' =>
            (Return {| code := 201; status_of := success;
                       msg := Some (Lit "User created successfully.");
                       data := UserId (uuidv4 e) |}, d')
        end
    | _ => respond d 400 error (ManagerNotActive (prop body "manager_id"))
    end.
Proof.
  intros Hfn Hmob Hpan Hmgr. unfold createUser.
  rewrite (no_missing_keys _ _ _ _ Hfn Hmob Hpan Hmgr). cbn [List.length Nat.ltb Nat.leb].
  rewrite Hfn, Hmob, Hpan, validateUser_strings, sql_text_string.
  destruct (whitespace_only fn); [reflexivity|].
  destruct (negb (String.length (formatMobNum mob) =? 10)); [reflexivity|].
  destruct (negb (pan_shape (Str.toUpperCase pan))); reflexivity.
Qed.


(** X5. A create request that passes validation but names a manager that
    is unknown or inactive is answered 400 and writes nothing. *)
Theorem createUser_refuses_inactive_manager
    (e : env) (d : db) (body : object) (r : validation) :
  checkMissingKeys body ["full_name"; "mob_num"; "pan_num"; "manager_id"] = [] ->
  validateUser (prop body "full_name") (prop body "mob_num") (prop body "pan_num")
  = Return r ->
  isValid r = true ->
  Sql.get_manager_is_active d (sql_text (prop body "manager_id")) <> Some true ->
  createUser sql_text e d body
  = respond d 400 error (ManagerNotActive (prop body "manager_id")).
Proof.
  intros Hk Hv Hvalid Hm. unfold createUser. rewrite Hk, Hv, Hvalid.
  cbn [List.length Nat.ltb Nat.leb negb].
  destruct (Sql.get_manager_is_active d (sql_text (prop body "manager_id")))
    as [[|]|]; [contradiction|reflexivity|reflexivity].
Qed.

(** X4. A create request that lacks one of the four required keys is
    answered 400 with the list of the absent keys, before any validation and
    whatever the other values are; nothing is written. *)
Theorem createUser_reports_missing_keys (e : env) (d : db) (body : object) (k : string) :
  In k ["full_name"; "mob_num"; "pan_num"; "manager_id"] ->
  has_key body k = false ->
  createUser sql_text e d body
  = respond d 400 error
      (Lit ("Missing required keys: " ++
            String.concat ", "
              (List.filter (fun key => negb (has_key body key))
                 ["full_name"; "mob_num"; "pan_num"; "manager_id"]))).
Proof.
  intros Hin Hk. unfold createUser, checkMissingKeys.
  assert (Hf : In k (List.filter (fun key => negb (has_key body key))
                       ["full_name"; "mob_num"; "pan_num"; "manager_id"])).
  { apply filter_In. split; [exact Hin|]. now rewrite Hk. }
  destruct (List.filter _ _); [destruct Hf|reflexivity].
Qed.

(** X6. [createUser] compares the normalized number and PAN with every
    stored row, inactive ones included: when a row holds either, the request
    ends in a 500 and the store is unchanged. *)
Theorem createUser_rejects_duplicates
    (e : env) (d : db) (body : object) (fn mob pan : string) (u : User.row) :
  prop body "full_name" = JStr fn ->
  prop body "mob_num" = JStr mob ->
  prop body "pan_num" = JStr pan ->
  has_key body "manager_id" = true ->
  whitespace_only fn = false ->
  String.length (formatMobNum mob) = 10 ->
  pan_shape (Str.toUpperCase pan) = true ->
  Sql.get_manager_is_active d (sql_text (prop body "manager_id")) = Some true ->
  In u (users d) ->
  User.mob_num u = formatMobNum mob \/ User.pan_num u = Str.toUpperCase pan ->
  createUser sql_text e d body = internal_error d.
Proof.
  intros Hfn Hmob Hpan Hmgr Hw Hl Hp Hg Hin Hdup.
  rewrite (createUser_strings e d body fn mob pan Hfn Hmob Hpan Hmgr).
  apply Nat.eqb_eq in Hl. rewrite Hw, Hl, Hp, Hg. cbn [negb].
  destruct (get_manager_bound _ _ _ Hg) as [mgr ->].
  unfold Sql.insert_user.
  replace (existsb _ (users d)) with true; [reflexivity|].
  symmetry. apply existsb_exists. exists u. split; [exact Hin|].
  destruct Hdup as [-> | ->]; rewrite String.eqb_refl;
    repeat rewrite ?orb_true_r, ?orb_true_l; reflexivity.
Qed.

(** X7. Whatever the body, [createUser] leaves [user_id], [mob_num] and
    [pan_num] free of duplicates when they were so before. *)
Theorem createUser_keeps_keys (e : env) (d : db) (body : object) :
  keys_hold (users d) ->
  keys_hold (users (snd (createUser sql_text e d body))).
Proof.
  intros H. unfold createUser.
  destruct (0 <? _); [exact H|].
  destruct (validateUser _ _ _) as [r|]; [|exact H].
  destruct (negb (isValid r)); [exact H|].
  destruct (Sql.get_manager_is_active _ _) as [[|]|]; try exact H.
  destruct (Sql.insert_user _ _ _ _ _ _ _ _) as [n d'|] eqn:E; [|exact H].
  cbn [snd]. exact (insert_user_keeps_keys _ _ _ _ _ _ _ _ _ _ E H).
Qed.

(** What a successful create leaves in the store. *)
Lemma createUser_created (e : env) (d d' : db) (body : object) (fn mob pan : string)
    (r : response) :
  prop body "full_name" = JStr fn ->
  prop body "mob_num" = JStr mob ->
  prop body "pan_num" = JStr pan ->
  has_key body "manager_id" = true ->
  createUser sql_text e d body = (Return r, d') ->
  code r = 201 ->
  exists mgr,
    (forall u, In u (users d) -> User.user_id u <> uuidv4 e)
    /\ d' = with_users d
              (users d ++
               [ {| User.user_id := uuidv4 e; User.full_name := fn;
                    User.mob_num := formatMobNum mob;
                    User.pan_num := Str.toUpperCase pan;
                    User.manager_id := mgr; User.created_at := clock e 0;
                    User.updated_at := clock e 0; User.is_active := true |} ]).
Proof.
  intros Hfn Hmob Hpan Hmgr.
  rewrite (createUser_strings e d body fn mob pan Hfn Hmob Hpan Hmgr).
  unfold respond, internal_error, respond.
  destruct (whitespace_only fn); [intros H; injection H as <- _; discriminate|].
  destruct (negb _); [intros H; injection H as <- _; discriminate|].
  destruct (negb _); [intros H; injection H as <- _; discriminate|].
  destruct (Sql.get_manager_is_active _ _) as [[|]|];
    try (intros H; injection H as <- _; discriminate).
  unfold Sql.insert_user.
  destruct (sql_text (prop body "manager_id")) as [mgr|];
    [|intros H; injection H as <- _; discriminate].
  destruct (existsb _ (users d)) eqn:E;
    [intros H; injection H as <- _; discriminate|].
  intros H _. injection H as _ <-. exists mgr. split; [|reflexivity].
  intros u Hu. rewrite existsb_false_iff in E. specialize (E u Hu).
  apply orb_false_iff in E as [E _]. apply orb_false_iff in E as [E _].
  now apply String.eqb_neq.
Qed.

(** X8. After a create request answered 201, listing by the new id
    returns exactly one row: the created one, active, with the name as sent
    and the normalized number and PAN. *)
Theorem created_user_is_listed
    (e : env) (d d' : db) (body : object) (fn mob pan : string) (r : response) :
  prop body "full_name" = JStr fn ->
  prop body "mob_num" = JStr mob ->
  prop body "pan_num" = JStr pan ->
  has_key body "manager_id" = true ->
  createUser sql_text e d body = (Return r, d') ->
  code r = 201 ->
  uuidv4 e <> "" ->
  exists row,
    getUsers sql_text d' [("user_id", JStr (uuidv4 e))]
    = (Return {| code := 200; status_of := success; msg := None;
                 data := UsersFound [row] |}, d')
    /\ User.user_id row = uuidv4 e
    /\ User.full_name row = fn
    /\ User.mob_num row = Str.slice_last 10 (Str.strip_non_digits mob)
    /\ User.pan_num row = Str.toUpperCase pan
    /\ User.is_active row = true.
Proof.
  intros Hfn Hmob Hpan Hmgr Hc H201 Hid.
  destruct (createUser_created e d d' body fn mob pan r Hfn Hmob Hpan Hmgr Hc H201)
    as (mgr & Hfresh & ->).
  exists {| User.user_id := uuidv4 e; User.full_name := fn;
            User.mob_num := formatMobNum mob; User.pan_num := Str.toUpperCase pan;
            User.manager_id := mgr; User.created_at := clock e 0;
            User.updated_at := clock e 0; User.is_active := true |}.
  split; [|repeat split].
  unfold getUsers, Sql.select_active.
  change (prop [("user_id", JStr (uuidv4 e))] "user_id") with (JStr (uuidv4 e)).
  change (prop [("user_id", JStr (uuidv4 e))] "mob_num") with JUndefined.
  change (prop [("user_id", JStr (uuidv4 e))] "manager_id") with JUndefined.
  apply String.eqb_neq in Hid. cbn [truthy]. rewrite Hid. cbn [negb List.app].
  rewrite sql_text_string. cbn [users with_users].
  rewrite filter_app, filter_none.
  - cbn [List.filter List.forallb Sql.eq_param User.user_id User.is_active andb List.app].
    rewrite String.eqb_refl. reflexivity.
  - intros u Hu. cbn [List.forallb Sql.eq_param].
    specialize (Hfresh u Hu). apply String.eqb_neq in Hfresh. rewrite Hfresh.
    now rewrite andb_false_r.
Qed.

(** X9. After a create request answered 201, deleting the new id is
    answered 200 and gives back the store as it was before the create. *)
Theorem created_user_can_be_deleted
    (e : env) (d d' : db) (body : object) (fn mob pan : string) (r : response) :
  prop body "full_name" = JStr fn ->
  prop body "mob_num" = JStr mob ->
  prop body "pan_num" = JStr pan ->
  has_key body "manager_id" = true ->
  createUser sql_text e d body = (Return r, d') ->
  code r = 201 ->
  uuidv4 e <> "" ->
  deleteUser sql_text d' [("user_id", JStr (uuidv4 e))]
  = respond d 200 success (Lit "User deleted successfully.").
Proof.
  intros Hfn Hmob Hpan Hmgr Hc H201 Hid.
  destruct (createUser_created e d d' body fn mob pan r Hfn Hmob Hpan Hmgr Hc H201)
    as (mgr & Hfresh & ->).
  unfold deleteUser.
  change (prop [("user_id", JStr (uuidv4 e))] "user_id") with (JStr (uuidv4 e)).
  apply String.eqb_neq in Hid. cbn [truthy]. rewrite Hid. cbn [negb andb].
  rewrite sql_text_string. unfold Sql.delete_where, Sql.count.
  cbn [users with_users Sql.eq_param].
  rewrite !filter_app. cbn [List.filter User.user_id]. rewrite String.eqb_refl.
  cbn [negb].
  rewrite (filter_none (fun u => String.eqb (User.user_id u) (uuidv4 e))).
  2:{ intros u Hu. apply String.eqb_neq. now apply Hfresh. }
  rewrite (filter_every (fun u => negb (String.eqb (User.user_id u) (uuidv4 e)))).
  2:{ intros u Hu. apply negb_true_iff, String.eqb_neq. now apply Hfresh. }
  cbn [List.app List.length Nat.eqb]. rewrite app_nil_r.
  unfold with_users. cbn [managers]. now destruct d.
Qed.


Lemma string_method_throws (v : jsval) :
  string_method v = Throw <-> is_string v = false.
Proof. destruct v; simpl; split; congruence. Qed.

(** X10. [deleteUser] throws exactly when [user_id] is falsy and
    [mob_num] is truthy but not a string, and then the store is untouched;
    with a truthy [user_id] the rest of the body is ignored, a malformed
    [mob_num] included. *)
Theorem deleteUser_body_shapes (d : db) (body : object) :
  (fst (deleteUser sql_text d body) = Throw
   <-> truthy (prop body "user_id") = false
       /\ truthy (prop body "mob_num") = true
       /\ is_string (prop body "mob_num") = false)
  /\ (truthy (prop body "user_id") = true ->
      deleteUser sql_text d body
      = deleteUser sql_text d [("user_id", prop body "user_id")])
  /\ (fst (deleteUser sql_text d body) = Throw ->
      snd (deleteUser sql_text d body) = d).
Proof.
  assert (Hshape : forall (x : nat * db) ,
             fst (let (changes, d') := x in
                  if changes =? 0
                  then respond d' 404 error (Lit "User not found.")
                  else respond d' 200 success (Lit "User deleted successfully."))
             <> Throw).
  { intros [n d']. destruct (n =? 0); discriminate. }
  unfold deleteUser.
  change (prop [("user_id", prop body "user_id")] "user_id") with (prop body "user_id").
  change (prop [("user_id", prop body "user_id")] "mob_num") with JUndefined.
  destruct (truthy (prop body "user_id")) eqn:Tu; cbn [negb andb truthy].
  - split; [|split].
    + split; [intros H; now apply Hshape in H | intros [H _]; discriminate H].
    + reflexivity.
    + intros H. now apply Hshape in H.
  - destruct (truthy (prop body "mob_num")) eqn:Tm; cbn [negb].
    + destruct (prop body "mob_num") eqn:Em; cbn [string_method bind is_string fst snd];
        try (split; [split; [tauto|reflexivity]
                    | split; [discriminate|reflexivity]]).
      split; [|split; [discriminate|]].
      * split; [intros H; now apply Hshape in H | intros (_ & _ & H); discriminate H].
      * intros H. now apply Hshape in H.
    + cbn [fst snd respond]. split; [|split; [discriminate|reflexivity]].
      split; [discriminate|intros (_ & H & _); discriminate H].
Qed.

(** X11. Whatever the body, [deleteUser] leaves [user_id], [mob_num] and
    [pan_num] free of duplicates when they were so before. *)
Theorem deleteUser_keeps_keys (d : db) (body : object) :
  keys_hold (users d) ->
  keys_hold (users (snd (deleteUser sql_text d body))).
Proof.
  intros H. unfold deleteUser.
  destruct (_ && _); [exact H|].
  destruct (truthy (prop body "user_id")).
  - pose proof (delete_where_keeps_keys d User.user_id
                  (sql_text (prop body "user_id")) H) as Hk.
    destruct (Sql.delete_where d User.user_id _) as [n d'].
    cbn [snd] in Hk. now destruct (n =? 0).
  - destruct (string_method (prop body "mob_num")) as [m|]; cbn [bind]; [|exact H].
    pose proof (delete_where_keeps_keys d User.mob_num (Some (formatMobNum m)) H) as Hk.
    destruct (Sql.delete_where d User.mob_num _) as [n d'].
    cbn [snd] in Hk. now destruct (n =? 0).
Qed.

(** X12. [getUsers] never changes the store; it throws exactly when
    [mob_num] is truthy but not a string; every other request is answered
    200 with rows of the store that are all active. *)
Theorem getUsers_reads_only (d : db) (body : object) :
  snd (getUsers sql_text d body) = d
  /\ (fst (getUsers sql_text d body) = Throw
      <-> truthy (prop body "mob_num") = true
          /\ is_string (prop body "mob_num") = false)
  /\ (forall r, fst (getUsers sql_text d body) = Return r ->
                code r = 200
                /\ exists rows, data r = UsersFound rows
                                /\ forall u, In u rows ->
                                             In u (users d) /\ User.is_active u = true).
Proof.
  unfold getUsers.
  destruct (truthy (prop body "mob_num")) eqn:Tm.
  - destruct (prop body "mob_num") eqn:Em; cbn [string_method bind is_string fst snd];
      try (split; [reflexivity|split; [tauto|discriminate]]).
    split; [reflexivity|]. split.
    + split; [discriminate|intros [_ H]; discriminate H].
    + intros r H. injection H as <-. cbn [code data]. split; [reflexivity|].
      eexists. split; [reflexivity|]. intros u Hu.
      unfold Sql.select_active in Hu. apply filter_In in Hu as [Hu Hp].
      apply andb_true_iff in Hp. tauto.
  - cbn [fst snd]. split; [reflexivity|]. split.
    + split; [discriminate|intros [H _]; discriminate H].
    + intros r H. injection H as <-. cbn [code data]. split; [reflexivity|].
      eexists. split; [reflexivity|]. intros u Hu.
      unfold Sql.select_active in Hu. apply filter_In in Hu as [Hu Hp].
      apply andb_true_iff in Hp. tauto.
Qed.


(** *** updateUser *)

Lemma reassign_keeps_keys (e : env) (d : db) (uid mid : jsval) :
  keys_hold (users d) ->
  keys_hold (users (snd (reassignManager sql_text e d uid mid))).
Proof.
  intros H. unfold reassignManager.
  destruct (Sql.get_manager_is_active d (sql_text mid)) as [[|]|]; try exact H.
  destruct (Sql.get_active_user d (sql_text uid)) as [u|]; [|exact H].
  assert (H1 : keys_hold (users (snd (Sql.deactivate_user d (clock e 0) (sql_text uid))))).
  { rewrite users_deactivate. apply keys_hold_map; [|exact H].
    intros r. now destruct (Sql.eq_param (User.user_id r) (sql_text uid)). }
  destruct (Sql.deactivate_user d (clock e 0) (sql_text uid)) as [n d1].
  cbn [snd] in H1.
  destruct (Sql.insert_user d1 _ _ _ _ _ _ _) as [k d2|] eqn:E; [|exact H1].
  cbn [snd]. exact (insert_user_keeps_keys _ _ _ _ _ _ _ _ _ _ E H1).
Qed.

Lemma updateFields_keeps_keys (e : env) (d : db) (uid : jsval) (upd : object) :
  keys_hold (users d) ->
  keys_hold (users (snd (updateFields sql_text e d uid upd))).
Proof.
  intros H. unfold updateFields.
  destruct (validateUpdate upd) as [vr|]; [|exact H].
  destruct (negb (u_isValid vr)); [exact H|].
  destruct (List.length _ =? 0); [exact H|].
  destruct (Sql.update_user d _ (sql_text uid)) as [n d'|] eqn:E; [|exact H].
  pose proof (update_user_keeps_keys _ _ _ _ _ E H) as H'.
  now destruct (n =? 0).
Qed.

(** X19. Whatever the request, [updateUser] leaves [user_id], [mob_num]
    and [pan_num] free of duplicates when they were so before. *)
Theorem updateUser_keeps_keys (e : env) (d : db) (req : update_request) :
  keys_hold (users d) ->
  keys_hold (users (snd (updateUser sql_text e d req))).
Proof.
  intros H. unfold updateUser.
  destruct (user_ids req) as [ids|]; [|exact H].
  destruct (update_data req) as [upd|]; [|exact H].
  destruct (0 <? _); [exact H|].
  destruct (validateUpdate upd) as [vr|]; [|exact H].
  destruct (negb (u_isValid vr)); [exact H|].
  destruct (_ && _).
  - destruct (Sql.get_manager_is_active _ _) as [[|]|]; try exact H.
    unfold Sql.update_manager_in.
    destruct (sql_text (prop upd "manager_id")) as [mgr|].
    + cbn [snd respond users with_users]. apply keys_hold_map; [|exact H].
      intros r. now destruct (Sql.in_params (User.user_id r) _).
    + now destruct (Sql.count _ _ =? 0).
  - destruct (1 <? _); [exact H|].
    destruct (truthy _).
    + now apply reassign_keeps_keys.
    + now apply updateFields_keeps_keys.
Qed.

(** X13. An update request that lacks [user_ids] or [update_data], or
    whose payload has a key outside the four recognised ones, is answered
    400 before validation, whatever the values; nothing is written. *)
Theorem updateUser_rejects_unknown_keys (e : env) (d : db) :
  (forall req,
      user_ids req = None \/ update_data req = None ->
      exists m, updateUser sql_text e d req = respond d 400 error (Lit m))
  /\ (forall ids upd k,
        In k (keys upd) ->
        ~ In k validKeys ->
        updateUser sql_text e d {| user_ids := Some ids; update_data := Some upd |}
        = respond d 400 error
            (Lit ("Invalid keys in update_data: " ++
                  String.concat ", "
                    (List.filter (fun key => negb (includes validKeys key)) (keys upd))))).
Proof.
  split.
  - intros [[ids|] [upd|]] [H|H]; try discriminate H; eexists; reflexivity.
  - intros ids upd k Hin Hk. unfold updateUser. cbn [user_ids update_data].
    fold validKeys.
    assert (Hf : In k (List.filter (fun key => negb (includes validKeys key)) (keys upd))).
    { apply filter_In. split; [exact Hin|]. apply negb_true_iff.
      destruct (includes validKeys k) eqn:E; [|reflexivity].
      apply includes_In in E. contradiction. }
    destruct (List.filter _ (keys upd)); [destruct Hf|reflexivity].
Qed.

(** How a validated payload is routed. *)
Lemma bulk_target_dispatch (e : env) (d : db) (ids : list jsval) (upd : object)
    (vr : update_validation) :
  1 < List.length ids ->
  keys upd = ["manager_id"] ->
  truthy (prop upd "manager_id") = true ->
  validateUpdate upd = Return vr ->
  u_isValid vr = true ->
  updateUser sql_text e d {| user_ids := Some ids; update_data := Some upd |} =
  match Sql.get_manager_is_active d (sql_text (prop upd "manager_id")) with
  | Some true =>
      match Sql.update_manager_in d (sql_text (prop upd "manager_id")) (clock e 0)
              (List.map sql_text ids) with
      | Sql.Failed => internal_error d
      | Sql.Done changes d' => respond d' 200 success (BulkUpdateSuccessful changes)
      end
  | _ => respond d 400 error (ManagerNotActive (prop upd "manager_id"))
  end.
Proof.
  intros Hn Hk Ht Hv Hvalid. apply Nat.ltb_lt in Hn.
  unfold updateUser. cbn [user_ids update_data]. fold validKeys.
  rewrite (validateUpdate_loop_valid_keys _ _ _ _ Hv Hvalid).
  rewrite Hv, Hvalid, Hk, Ht, Hn. reflexivity.
Qed.

(** X14. A validated reassignment, single or bulk, to a manager that is
    unknown or inactive is answered 400 and writes nothing. *)
Theorem updateUser_refuses_inactive_manager
    (e : env) (d : db) (ids : list jsval) (upd : object) (vr : update_validation) :
  validateUpdate upd = Return vr ->
  u_isValid vr = true ->
  truthy (prop upd "manager_id") = true ->
  List.length ids <= 1 \/ keys upd = ["manager_id"] ->
  Sql.get_manager_is_active d (sql_text (prop upd "manager_id")) <> Some true ->
  updateUser sql_text e d {| user_ids := Some ids; update_data := Some upd |}
  = respond d 400 error (ManagerNotActive (prop upd "manager_id")).
Proof.
  intros Hv Hvalid Ht Hshape Hm.
  destruct (Nat.le_gt_cases (List.length ids) 1) as [Hn|Hn].
  - rewrite (single_target_dispatch sql_text e d ids upd vr Hn Hv Hvalid), Ht.
    unfold reassignManager.
    destruct (Sql.get_manager_is_active _ _) as [[|]|];
      [contradiction|reflexivity|reflexivity].
  - destruct Hshape as [Hle|Hk]; [lia|].
    rewrite (bulk_target_dispatch e d ids upd vr Hn Hk Ht Hv Hvalid).
    destruct (Sql.get_manager_is_active _ _) as [[|]|];
      [contradiction|reflexivity|reflexivity].
Qed.

(** X15. A validated single reassignment to an active manager whose
    target id is held by no active row is answered 404 and writes nothing. *)
Theorem updateUser_reassignment_needs_active_user
    (e : env) (d : db) (ids : list jsval) (upd : object) (vr : update_validation) :
  validateUpdate upd = Return vr ->
  u_isValid vr = true ->
  truthy (prop upd "manager_id") = true ->
  List.length ids <= 1 ->
  Sql.get_manager_is_active d (sql_text (prop upd "manager_id")) = Some true ->
  (forall u, In u (users d) ->
             Sql.eq_param (User.user_id u) (sql_text (List.nth 0 ids JUndefined)) = true ->
             User.is_active u = false) ->
  updateUser sql_text e d {| user_ids := Some ids; update_data := Some upd |}
  = respond d 404 error (Lit "User not found or is inactive.").
Proof.
  intros Hv Hvalid Ht Hn Hg Hno.
  rewrite (single_target_dispatch sql_text e d ids upd vr Hn Hv Hvalid), Ht.
  unfold reassignManager. rewrite Hg.
  replace (Sql.get_active_user d _) with (@None User.row); [reflexivity|].
  symmetry. unfold Sql.get_active_user.
  destruct (List.find _ (users d)) as [u|] eqn:E; [|reflexivity].
  apply find_some in E as [Hin Hp]. apply andb_true_iff in Hp as [Hp Ha].
  rewrite (Hno u Hin Hp) in Ha. discriminate Ha.
Qed.


(** The field update of a validated payload. *)
Lemma updateFields_validated (e : env) (d : db) (uid : jsval) (upd : object)
    (vr : update_validation) :
  validateUpdate upd = Return vr ->
  u_isValid vr = true ->
  updateFields sql_text e d uid upd =
  match Sql.update_user d
          (List.map (fun kv => (fst kv, sql_text (snd kv))) (validatedData vr)
           ++ [("updated_at", Some (clock e 0))]) (sql_text uid) with
  | Sql.Failed => internal_error d
  | Sql.Done changes d' =>
      if changes =? 0 then respond d' 404 error (Lit "User not found.")
      else respond d' 200 success (Lit "User updated successfully.")
  end.
Proof.
  intros Hv Hvalid. unfold updateFields. rewrite Hv, Hvalid. cbn [negb].
  pose proof (valid_payload_nonempty _ _ _ _ Hv Hvalid) as Hne.
  rewrite length_map. destruct (validatedData vr); [contradiction|reflexivity].
Qed.

(** The SET clause of a validated payload that leaves [manager_id] out. *)
Lemma sets_of_validated (upd : object) (vr : update_validation) (now : string) :
  validateUpdate upd = Return vr ->
  u_isValid vr = true ->
  NoDup (keys upd) ->
  has_key upd "manager_id" = false ->
  Sql.non_null
    (List.map (fun kv => (fst kv, sql_text (snd kv))) (validatedData vr)
     ++ [("updated_at", Some now)])
  = Some (List.map (fun k => (k, kept_text upd k)) (keys upd) ++ [("updated_at", now)])
    /\ ~ In "manager_id" (keys upd)
    /\ ~ In "updated_at" (keys upd).
Proof.
  intros Hv Hvalid Hnd Hm.
  destruct (validateUpdate_loop_normal_form upd (keys upd) [] vr Hnd
              (fun _ _ F => F) Hv Hvalid) as (Hd & _ & Hall).
  cbn [List.app] in Hd. rewrite Forall_forall in Hall.
  assert (Hnm : ~ In "manager_id" (keys upd)).
  { intros Hin. apply has_key_In in Hin. congruence. }
  assert (Hnu : ~ In "updated_at" (keys upd)).
  { intros Hin. destruct (Hall _ Hin) as [Hk _]. simpl in Hk.
    repeat (destruct Hk as [Hk|Hk]; [discriminate Hk|]). exact Hk. }
  split; [|split; [exact Hnm|exact Hnu]].
  rewrite <- (non_null_all (_ ++ [("updated_at", now)])).
  f_equal. rewrite map_app, Hd, !map_map. cbn [List.map fst snd]. f_equal.
  apply map_ext_in. intros k Hin. cbn [fst snd].
  destruct (Hall _ Hin) as [_ Hp].
  rewrite (kept_value_string upd k Hp), sql_text_string; [reflexivity|].
  intros ->. exact (Hnm Hin).
Qed.

(** X16. A validated field update whose target id is held by no row is
    answered 404 and writes nothing. *)
Theorem updateUser_field_update_not_found
    (e : env) (d : db) (ids : list jsval) (upd : object) (vr : update_validation) :
  validateUpdate upd = Return vr ->
  u_isValid vr = true ->
  truthy (prop upd "manager_id") = false ->
  List.length ids <= 1 ->
  (forall u, In u (users d) ->
             Sql.eq_param (User.user_id u) (sql_text (List.nth 0 ids JUndefined)) = false) ->
  updateUser sql_text e d {| user_ids := Some ids; update_data := Some upd |}
  = respond d 404 error (Lit "User not found.").
Proof.
  intros Hv Hvalid Ht Hn Hno.
  rewrite (single_target_dispatch sql_text e d ids upd vr Hn Hv Hvalid), Ht.
  rewrite (updateFields_validated e d _ upd vr Hv Hvalid).
  unfold Sql.update_user, Sql.count. rewrite filter_none by exact Hno. reflexivity.
Qed.

(** X17. A validated field update that would give the target the
    normalized number or PAN of another row is answered 500 and writes
    nothing. *)
Theorem updateUser_field_update_rejects_duplicates
    (e : env) (d : db) (uid : jsval) (id : string) (upd : object)
    (vr : update_validation) (u w : User.row) :
  validateUpdate upd = Return vr ->
  u_isValid vr = true ->
  NoDup (keys upd) ->
  has_key upd "manager_id" = false ->
  sql_text uid = Some id ->
  In u (users d) -> User.user_id u = id ->
  In w (users d) -> User.user_id w <> id ->
  (has_key upd "mob_num" = true /\ User.mob_num w = kept_text upd "mob_num")
  \/ (has_key upd "pan_num" = true /\ User.pan_num w = kept_text upd "pan_num") ->
  updateUser sql_text e d {| user_ids := Some [uid]; update_data := Some upd |}
  = internal_error d.
Proof.
  intros Hv Hvalid Hnd Hm Hid Hu Huid Hw Hwid Hdup.
  assert (Ht : truthy (prop upd "manager_id") = false).
  { unfold prop, has_key in *. now destruct (lookup "manager_id" upd). }
  rewrite (single_target_dispatch sql_text e d [uid] upd vr (le_n 1) Hv Hvalid), Ht.
  cbn [List.nth]. rewrite (updateFields_validated e d _ upd vr Hv Hvalid).
  destruct (sets_of_validated upd vr (clock e 0) Hv Hvalid Hnd Hm) as (Hs & Hnm & Hnu).
  unfold Sql.update_user. rewrite Hs, Hid. cbn [Sql.eq_param].
  assert (Hcount : Sql.count (fun r => String.eqb (User.user_id r) id) (users d) <> 0).
  { unfold Sql.count. intros E.
    assert (Hin : In u (List.filter (fun r => String.eqb (User.user_id r) id) (users d))).
    { apply filter_In. split; [exact Hu|]. now apply String.eqb_eq. }
    destruct (List.filter _ (users d)); [destruct Hin|discriminate E]. }
  apply Nat.eqb_neq in Hcount. rewrite Hcount.
  set (vs := List.map (fun k => (k, kept_text upd k)) (keys upd)
             ++ [("updated_at", clock e 0)]).
  assert (Hvs : NoDup (List.map fst vs)).
  { unfold vs. rewrite map_app, map_map. cbn [fst List.map]. rewrite map_id.
    apply NoDup_app; [exact Hnd|repeat constructor; auto|].
    intros k Hk [<-|[]]. exact (Hnu Hk). }
  assert (Hclash : forall name col,
             has_key upd name = true ->
             col w = kept_text upd name ->
             Sql.clash_on name col vs (fun r => String.eqb (User.user_id r) id) (users d)
             = true).
  { intros name col Hk Hc. unfold Sql.clash_on.
    change (fun cv : string * string => String.eqb (fst cv) name) with (sets_column name).
    rewrite (find_sets_column name vs Hvs). unfold vs.
    rewrite find_sets_in, <- has_key_includes, Hk.
    unfold Sql.unique_clash. apply orb_true_iff. left.
    apply existsb_exists. exists w. split; [exact Hw|].
    apply String.eqb_neq in Hwid. rewrite Hwid, Hc, String.eqb_refl. reflexivity. }
  destruct Hdup as [[Hk Hc]|[Hk Hc]].
  - now rewrite (Hclash "mob_num" User.mob_num Hk Hc).
  - rewrite (Hclash "pan_num" User.pan_num Hk Hc), orb_true_r. reflexivity.
Qed.

(** The field update of a validated payload that meets no UNIQUE
    constraint, as one equation. *)
Lemma field_update_written
    (e : env) (d : db) (uid : jsval) (id : string) (upd : object)
    (vr : update_validation) (u : User.row) :
  validateUpdate upd = Return vr ->
  u_isValid vr = true ->
  NoDup (keys upd) ->
  has_key upd "manager_id" = false ->
  sql_text uid = Some id ->
  keys_hold (users d) ->
  In u (users d) -> User.user_id u = id ->
  (forall w, In w (users d) -> User.user_id w <> id ->
             (has_key upd "mob_num" = true -> User.mob_num w <> kept_text upd "mob_num")
             /\ (has_key upd "pan_num" = true -> User.pan_num w <> kept_text upd "pan_num")) ->
  updateUser sql_text e d {| user_ids := Some [uid]; update_data := Some upd |}
  = respond
      (with_users d
         (List.map (fun r => if String.eqb (User.user_id r) id
                             then updated_row upd (clock e 0) r else r) (users d)))
      200 success (Lit "User updated successfully.").
Proof.
  intros Hv Hvalid Hnd Hm Hid Hkeys Hu Huid Hfree.
  assert (Ht : truthy (prop upd "manager_id") = false).
  { unfold prop, has_key in *. now destruct (lookup "manager_id" upd). }
  rewrite (single_target_dispatch sql_text e d [uid] upd vr (le_n 1) Hv Hvalid), Ht.
  cbn [List.nth]. rewrite (updateFields_validated e d _ upd vr Hv Hvalid).
  destruct (sets_of_validated upd vr (clock e 0) Hv Hvalid Hnd Hm) as (Hs & Hnm & Hnu).
  unfold Sql.update_user. rewrite Hs, Hid. cbn [Sql.eq_param].
  assert (Hone : Sql.count (fun r => String.eqb (User.user_id r) id) (users d) = 1).
  { pose proof (count_hit_le_one (users d) (Some id) (proj1 Hkeys)) as Hle.
    cbn [Sql.eq_param] in Hle.
    assert (Hin : In u (List.filter (fun r => String.eqb (User.user_id r) id) (users d))).
    { apply filter_In. split; [exact Hu|]. now apply String.eqb_eq. }
    unfold Sql.count in *.
    destruct (List.filter _ (users d)); [destruct Hin|simpl in *; lia]. }
  rewrite Hone. cbn [Nat.eqb].
  set (vs := List.map (fun k => (k, kept_text upd k)) (keys upd)
             ++ [("updated_at", clock e 0)]).
  assert (Hvs : NoDup (List.map fst vs)).
  { unfold vs. rewrite map_app, map_map. cbn [fst List.map]. rewrite map_id.
    apply NoDup_app; [exact Hnd|repeat constructor; auto|].
    intros k Hk [<-|[]]. exact (Hnu Hk). }
  assert (Hclash : forall name col,
             (name = "mob_num" \/ name = "pan_num") ->
             (forall w, In w (users d) -> User.user_id w <> id ->
                        has_key upd name = true -> col w <> kept_text upd name) ->
             Sql.clash_on name col vs (fun r => String.eqb (User.user_id r) id) (users d)
             = false).
  { intros name col Hname Hc. unfold Sql.clash_on.
    change (fun cv : string * string => String.eqb (fst cv) name) with (sets_column name).
    rewrite (find_sets_column name vs Hvs). unfold vs.
    rewrite find_sets_in, <- has_key_includes.
    destruct (has_key upd name) eqn:Hk.
    - unfold Sql.unique_clash. rewrite Hone. cbn [Nat.leb orb]. rewrite orb_false_r.
      apply existsb_false_iff. intros w Hw.
      destruct (String.eqb (User.user_id w) id) eqn:E; [reflexivity|].
      apply String.eqb_neq in E. cbn [negb andb].
      apply String.eqb_neq. now apply Hc.
    - destruct Hname as [-> | ->]; reflexivity. }
  rewrite (Hclash "mob_num" User.mob_num (or_introl eq_refl)
             (fun w Hw Hne => proj1 (Hfree w Hw Hne))).
  rewrite (Hclash "pan_num" User.pan_num (or_intror eq_refl)
             (fun w Hw Hne => proj2 (Hfree w Hw Hne))).
  cbn [orb Nat.eqb]. unfold respond, with_users. f_equal. f_equal.
  apply map_ext. intros r. destruct (String.eqb (User.user_id r) id); [|reflexivity].
  now apply assign_all_updated.
Qed.

(** X18. A field update of ASCII text that has passed validation, on a
    store with unique ids, whose new number and PAN no other row holds, is
    answered 200. In the store it leaves, the managers are as they were and
    the users are the old rows in their order, the target row replaced by
    the row with the normalized value of each field the payload names (the
    digits cut to the last ten, the upper-cased PAN, the name as sent), the
    time of the request as [updated_at], and its old id, manager, creation
    time and active flag. *)
Theorem updateUser_field_update_applies
    (e : env) (d : db) (uid : jsval) (id : string) (upd : object)
    (vr : update_validation) (u : User.row) :
  ascii_payload upd = true ->
  validateUpdate upd = Return vr ->
  u_isValid vr = true ->
  NoDup (keys upd) ->
  has_key upd "manager_id" = false ->
  sql_text uid = Some id ->
  keys_hold (users d) ->
  In u (users d) -> User.user_id u = id ->
  (forall w, In w (users d) -> User.user_id w <> id ->
             (has_key upd "mob_num" = true -> User.mob_num w <> stored_text upd "mob_num")
             /\ (has_key upd "pan_num" = true -> User.pan_num w <> stored_text upd "pan_num")) ->
  exists d',
    updateUser sql_text e d {| user_ids := Some [uid]; update_data := Some upd |}
    = (Return {| code := 200; status_of := success;
                 msg := Some (Lit "User updated successfully."); data := NoData |}, d')
    /\ managers d' = managers d
    /\ users d' = List.map (fun r => if String.eqb (User.user_id r) id
                                     then row_after upd (clock e 0) r else r) (users d).
Proof.
  intros _ Hv Hvalid Hnd Hm Hid Hkeys Hu Huid Hfree.
  eexists. split.
  - apply (field_update_written e d uid id upd vr u
             Hv Hvalid Hnd Hm Hid Hkeys Hu Huid).
    intros w Hw Hne. rewrite !kept_text_stored_text. now apply Hfree.
  - split; [reflexivity|]. cbn [users with_users]. apply map_ext. intros r.
    now rewrite updated_row_row_after.
Qed.


(** X20. After a single reassignment of an active user to an active
    manager, listing by the user's id returns no row, and the same request
    sent again is answered 404. *)
Theorem reassigned_user_disappears
    (e e' : env) (d : db) (id : string) (upd : object)
    (vr : update_validation) (u : User.row) :
  validateUpdate upd = Return vr ->
  u_isValid vr = true ->
  truthy (prop upd "manager_id") = true ->
  Sql.get_manager_is_active d (sql_text (prop upd "manager_id")) = Some true ->
  Sql.get_active_user d (Some id) = Some u ->
  id <> "" ->
  exists d',
    snd (updateUser sql_text e d
           {| user_ids := Some [JStr id]; update_data := Some upd |}) = d'
    /\ getUsers sql_text d' [("user_id", JStr id)]
       = (Return {| code := 200; status_of := success; msg := None;
                    data := UsersFound [] |}, d')
    /\ updateUser sql_text e' d'
         {| user_ids := Some [JStr id]; update_data := Some upd |}
       = respond d' 404 error (Lit "User not found or is inactive.").
Proof.
  intros Hv Hvalid Ht Hg Hu Hid.
  rewrite (single_target_dispatch sql_text e d [JStr id] upd vr (le_n 1) Hv Hvalid), Ht.
  cbn [List.nth].
  rewrite (reassign_insert_rejected sql_text e d (JStr id) _ u Hg)
    by (rewrite sql_text_string; exact Hu).
  rewrite sql_text_string. cbn [snd internal_error respond].
  set (d' := snd (Sql.deactivate_user d (clock e 0) (Some id))).
  assert (Hoff : forall r, In r (users d') ->
                           String.eqb (User.user_id r) id && User.is_active r = false).
  { intros r Hr. unfold d' in Hr. rewrite users_deactivate in Hr.
    apply in_map_iff in Hr as (r0 & <- & _). cbn [Sql.eq_param].
    destruct (String.eqb (User.user_id r0) id) eqn:E;
      cbn [User.user_id User.is_active User.set_updated_at User.set_is_active];
      rewrite E; reflexivity. }
  exists d'. split; [reflexivity|]. split.
  - unfold getUsers, Sql.select_active.
    change (prop [("user_id", JStr id)] "user_id") with (JStr id).
    change (prop [("user_id", JStr id)] "mob_num") with JUndefined.
    change (prop [("user_id", JStr id)] "manager_id") with JUndefined.
    apply String.eqb_neq in Hid. cbn [truthy]. rewrite Hid. cbn [negb List.app].
    rewrite sql_text_string, filter_none; [reflexivity|].
    intros r Hr. cbn [List.forallb Sql.eq_param]. rewrite andb_true_r, andb_comm.
    now apply Hoff.
  - rewrite (single_target_dispatch sql_text e' d' [JStr id] upd vr (le_n 1) Hv Hvalid), Ht.
    cbn [List.nth]. unfold reassignManager.
    change (Sql.get_manager_is_active d' (sql_text (prop upd "manager_id")))
      with (Sql.get_manager_is_active d (sql_text (prop upd "manager_id"))).
    rewrite Hg, sql_text_string.
    replace (Sql.get_active_user d' (Some id)) with (@None User.row); [reflexivity|].
    symmetry. unfold Sql.get_active_user.
    destruct (List.find _ (users d')) as [r|] eqn:E; [|reflexivity].
    apply find_some in E as [Hin Hp]. cbn [Sql.eq_param] in Hp.
    rewrite (Hoff r Hin) in Hp. discriminate Hp.
Qed.

(** A payload whose [manager_id] is the empty string takes the field
    update. *)
Lemma empty_manager_id_written
    (e : env) (d : db) (id : string) (u : User.row) :
  In u (users d) ->
  User.user_id u = id ->
  updateUser sql_text e d
    {| user_ids := Some [JStr id]; update_data := Some [("manager_id", JStr "")] |}
  = respond
      (with_users d
         (List.map (fun r => if String.eqb (User.user_id r) id
                             then User.set_updated_at (clock e 0)
                                    (User.set_manager_id "" r)
                             else r) (users d)))
      200 success (Lit "User updated successfully.").
Proof.
  intros Hu Huid.
  assert (Hv : validateUpdate [("manager_id", JStr "")]
               = Return {| u_isValid := true; u_message := "Validation successful.";
                           validatedData := [("manager_id", JStr "")] |})
    by reflexivity.
  pose proof (single_target_dispatch sql_text e d [JStr id]
                [("manager_id", JStr "")] _ (le_n 1) Hv eq_refl) as Hd.
  etransitivity; [exact Hd|]. clear Hd.
  change (truthy (prop [("manager_id", JStr "")] "manager_id")) with false.
  cbn [List.nth]. rewrite (updateFields_validated e d _ _ _ Hv eq_refl).
  cbn [validatedData List.map List.app fst snd]. rewrite !sql_text_string.
  unfold Sql.update_user. cbn [Sql.eq_param Sql.non_null option_map].
  assert (Hcount : Sql.count (fun r => String.eqb (User.user_id r) id) (users d) <> 0).
  { unfold Sql.count. intros E.
    assert (Hin : In u (List.filter (fun r => String.eqb (User.user_id r) id) (users d))).
    { apply filter_In. split; [exact Hu|]. now apply String.eqb_eq. }
    destruct (List.filter _ (users d)); [destruct Hin|discriminate E]. }
  apply Nat.eqb_neq in Hcount. rewrite Hcount.
  change (Sql.clash_on "mob_num" User.mob_num
            [("manager_id", ""); ("updated_at", clock e 0)]
            (fun r => String.eqb (User.user_id r) id) (users d)) with false.
  change (Sql.clash_on "pan_num" User.pan_num
            [("manager_id", ""); ("updated_at", clock e 0)]
            (fun r => String.eqb (User.user_id r) id) (users d)) with false.
  cbn [orb]. rewrite Hcount. reflexivity.
Qed.

(** X21. A payload whose only field is [manager_id] with the empty string
    as value, sent for one existing target, is not checked against the
    managers and is answered 200: in the store it leaves, the rows of the
    target id have the empty string as [manager_id] and the time of the
    request as [updated_at], every other column of theirs and every other
    row are as they were, and so are the managers. *)
Theorem empty_manager_id_is_written_in_place
    (e : env) (d : db) (id : string) (u : User.row) :
  In u (users d) ->
  User.user_id u = id ->
  exists d',
    updateUser sql_text e d
      {| user_ids := Some [JStr id]; update_data := Some [("manager_id", JStr "")] |}
    = (Return {| code := 200; status_of := success;
                 msg := Some (Lit "User updated successfully."); data := NoData |}, d')
    /\ managers d' = managers d
    /\ users d' = List.map
                    (fun r => if String.eqb (User.user_id r) id
                              then {| User.user_id := User.user_id r;
                                      User.full_name := User.full_name r;
                                      User.mob_num := User.mob_num r;
                                      User.pan_num := User.pan_num r;
                                      User.manager_id := "";
                                      User.created_at := User.created_at r;
                                      User.updated_at := clock e 0;
                                      User.is_active := User.is_active r |}
                              else r) (users d).
Proof.
  intros Hu Huid. eexists. split.
  - apply (empty_manager_id_written e d id u Hu Huid).
  - split; reflexivity.
Qed.

(** X22. The validation repeated inside the field update never fails:
    no request makes [updateUser] answer "No valid fields to update.". *)
Theorem updateUser_never_reports_no_valid_fields
    (e : env) (d : db) (req : update_request) (r : response) :
  fst (updateUser sql_text e d req) = Return r ->
  msg r <> Some (Lit "No valid fields to update.").
Proof.
  unfold updateUser.
  destruct (user_ids req) as [ids|], (update_data req) as [upd|];
    try (intros H; injection H as <-; cbn [msg];
         destruct (user_ids req), (update_data req); discriminate).
  destruct (0 <? _); [intros H; injection H as <-; discriminate|].
  destruct (validateUpdate upd) as [vr|] eqn:Hv; [|discriminate].
    destruct (u_isValid vr) eqn:Hvalid; cbn [negb].
    2:{ intros H. injection H as <-. cbn [msg]. intros E. injection E as E.
        exact (validateUpdate_loop_message _ _ _ _ Hv E). }
    destruct (_ && _).
    { destruct (Sql.get_manager_is_active _ _) as [[|]|];
        try (intros H; injection H as <-; discriminate).
      destruct (Sql.update_manager_in _ _ _ _);
        intros H; injection H as <-; discriminate. }
    destruct (1 <? _); [intros H; injection H as <-; discriminate|].
    destruct (truthy _).
    + unfold reassignManager.
      destruct (Sql.get_manager_is_active _ _) as [[|]|];
        try (intros H; injection H as <-; discriminate).
      destruct (Sql.get_active_user _ _);
        [|intros H; injection H as <-; discriminate].
      destruct (Sql.deactivate_user _ _ _) as [n d1].
      destruct (Sql.insert_user _ _ _ _ _ _ _ _);
        intros H; injection H as <-; discriminate.
    + rewrite (updateFields_validated e d _ upd vr Hv Hvalid).
      destruct (Sql.update_user _ _ _) as [n d'|];
        [destruct (n =? 0)|]; intros H; injection H as <-; discriminate.
Qed.

Lemma delete_where_nothing (d d' : db) (col : User.row -> string) (p : Sql.param) :
  Sql.delete_where d col p = (0, d') -> d' = d.
Proof.
  unfold Sql.delete_where, Sql.count. intros H. injection H as Hc <-.
  rewrite filter_every; [apply with_users_same|].
  intros u Hu. apply negb_true_iff.
  destruct (Sql.eq_param (col u) p) eqn:E; [|reflexivity].
  assert (Hin : In u (List.filter (fun u => Sql.eq_param (col u) p) (users d)))
    by (apply filter_In; auto).
  destruct (List.filter _ (users d)); [destruct Hin|discriminate Hc].
Qed.

Lemma update_user_nothing (d d' : db) (sets : list (string * Sql.param))
    (p : Sql.param) :
  Sql.update_user d sets p = Sql.Done 0 d' -> d' = d.
Proof.
  unfold Sql.update_user.
  destruct (Sql.count _ (users d) =? 0) eqn:E; [intros H; now injection H as <-|].
  destruct (Sql.non_null sets); [|discriminate].
  destruct (_ || _); [discriminate|].
  intros H. injection H as Hc _. rewrite Hc in E. discriminate E.
Qed.

(** X23. A reply with a 4xx code, from [createUser], [deleteUser] or
    [updateUser], always comes with the store exactly as it was. *)
Theorem client_errors_write_nothing (e : env) (d d' : db) (r : response) :
  400 <= code r < 500 ->
  (forall body, createUser sql_text e d body = (Return r, d') -> d' = d)
  /\ (forall body, deleteUser sql_text d body = (Return r, d') -> d' = d)
  /\ (forall req, updateUser sql_text e d req = (Return r, d') -> d' = d).
Proof.
  intros Hc.
  assert (Hresp : forall c s m (x : db), (Return r, d') = respond x c s m -> d' = x).
  { intros c s m x H. now injection H. }
  split; [|split].
  - intros body. unfold createUser.
    destruct (0 <? _); [intros H; symmetry in H; eauto|].
    destruct (validateUser _ _ _) as [v|]; [|discriminate].
    destruct (negb (isValid v)); [intros H; symmetry in H; eauto|].
    destruct (Sql.get_manager_is_active _ _) as [[|]|];
      try (intros H; symmetry in H; solve [eauto]).
    destruct (Sql.insert_user _ _ _ _ _ _ _ _);
      [|intros H; symmetry in H; unfold internal_error in H; eauto].
    intros H. injection H as <- _. cbn [code] in Hc. lia.
  - intros body. unfold deleteUser.
    destruct (_ && _); [intros H; symmetry in H; eauto|].
    assert (Hdel : forall col p,
               (let (changes, d0) := Sql.delete_where d col p in
                if changes =? 0
                then respond d0 404 error (Lit "User not found.")
                else respond d0 200 success (Lit "User deleted successfully."))
               = (Return r, d') -> d' = d).
    { intros col p. destruct (Sql.delete_where d col p) as [n d0] eqn:E.
      destruct n; cbn [Nat.eqb].
      - intros H. injection H as _ <-. exact (delete_where_nothing _ _ _ _ E).
      - intros H. injection H as <- _. cbn [code] in Hc. lia. }
    destruct (truthy (prop body "user_id")); [apply Hdel|].
    destruct (string_method (prop body "mob_num")); cbn [bind]; [apply Hdel|discriminate].
  - intros req. unfold updateUser.
    destruct (user_ids req) as [ids|], (update_data req) as [upd|];
      try (intros H; symmetry in H; solve [eauto]).
    destruct (0 <? _); [intros H; symmetry in H; eauto|].
    destruct (validateUpdate upd) as [vr|] eqn:Hv; [|discriminate].
    destruct (u_isValid vr) eqn:Hvalid; cbn [negb];
      [|intros H; symmetry in H; eauto].
    destruct (_ && _).
    { destruct (Sql.get_manager_is_active _ _) as [[|]|];
        try (intros H; symmetry in H; solve [eauto]).
      destruct (Sql.update_manager_in _ _ _ _);
        [|intros H; symmetry in H; unfold internal_error in H; eauto].
      intros H. injection H as <- _. cbn [code] in Hc. lia. }
    destruct (1 <? _); [intros H; symmetry in H; eauto|].
    destruct (truthy _).
    + unfold reassignManager.
      destruct (Sql.get_manager_is_active _ _) as [[|]|];
        try (intros H; symmetry in H; solve [eauto]).
      destruct (Sql.get_active_user _ _); [|intros H; symmetry in H; eauto].
      destruct (Sql.deactivate_user _ _ _) as [n d1].
      destruct (Sql.insert_user _ _ _ _ _ _ _ _);
        intros H; injection H as <- _; cbn [code] in Hc; lia.
    + rewrite (updateFields_validated e d _ upd vr Hv Hvalid).
      destruct (Sql.update_user _ _ _) as [n d0|] eqn:E;
        [|intros H; injection H as <- _; cbn [code] in Hc; lia].
      destruct n; cbn [Nat.eqb].
      * intros H. injection H as _ <-. exact (update_user_nothing _ _ _ _ E).
      * intros H. injection H as <- _. cbn [code] in Hc. lia.
Qed.

End More.

(** ** What the handlers answer and what they leave in the store *)

Section Outcomes.

Variable sql_text : jsval -> Sql.param.
Hypothesis sql_text_string : forall s, sql_text (JStr s) = Some s.


(** C4. A payload made of [manager_id] alone, sent for more than one
    target with an active new manager, is answered 200 with the number of
    rows whose [user_id] is a target, zero included. Row by row, the store
    it leaves has the ids, names, numbers, PANs, creation times and active
    flags it had; a row whose id is a target, active or not, has the new
    [manager_id] and the time of the request as [updated_at]; every other
    row has its old [manager_id] and [updated_at]; the managers are
    unchanged. *)
Theorem bulk_reassignment_updates_targets
    (e : env) (d : db) (targets : list string) (mid : jsval) (m : string) :
  truthy mid = true ->
  sql_text mid = Some m ->
  Sql.get_manager_is_active d (Some m) = Some true ->
  1 < List.length targets ->
  exists r d',
    updateUser sql_text e d
      {| user_ids := Some (List.map JStr targets);
         update_data := Some [("manager_id", mid)] |}
    = (Return r, d')
    /\ code r = 200 /\ status_of r = success
    /\ msg r = Some (BulkUpdateSuccessful
                       (List.length
                          (List.filter
                             (fun u => if in_dec string_dec (User.user_id u) targets
                                       then true else false) (users d))))
    /\ managers d' = managers d
    /\ Forall2
         (fun u u' =>
            User.user_id u' = User.user_id u
            /\ User.full_name u' = User.full_name u
            /\ User.mob_num u' = User.mob_num u
            /\ User.pan_num u' = User.pan_num u
            /\ User.created_at u' = User.created_at u
            /\ User.is_active u' = User.is_active u
            /\ (In (User.user_id u) targets ->
                User.manager_id u' = m /\ User.updated_at u' = clock e 0)
            /\ (~ In (User.user_id u) targets ->
                User.manager_id u' = User.manager_id u
                /\ User.updated_at u' = User.updated_at u))
         (users d) (users d').
Proof.
  intros Ht Hm Hg Hn.
  assert (Hin : forall u, includes targets (User.user_id u)
                          = if in_dec string_dec (User.user_id u) targets
                            then true else false).
  { intros u. destruct (in_dec string_dec (User.user_id u) targets) as [H|H].
    - now apply includes_In.
    - destruct (includes targets (User.user_id u)) eqn:E; [|reflexivity].
      apply includes_In in E. contradiction. }
  do 2 eexists.
  split; [apply (bulk_dispatch sql_text sql_text_string e d targets mid m Ht Hm Hg Hn)|].
  cbn [code status_of msg].
  split; [reflexivity|]. split; [reflexivity|].
  split; [now rewrite (filter_ext _ _ Hin)|].
  split; [reflexivity|].
  cbn [users with_users]. apply Forall2_map_pointwise. intros u _.
  destruct (includes targets (User.user_id u)) eqn:E.
  - do 6 (split; [reflexivity|]). split; [intros _; split; reflexivity|].
    intros H. exfalso. apply H. now apply includes_In.
  - do 6 (split; [reflexivity|]). split; [|intros _; split; reflexivity].
    intros H. apply includes_In in H. congruence.
Qed.

(** C5, amended. An update sent for more than one target whose payload is
    not the single field [manager_id] never writes. Its reply is decided in
    the order of the handler: a payload with a key that is not recognised
    gets the 400 that lists those keys; otherwise, when [validateUpdate]
    throws, the handler throws; otherwise a payload that fails validation
    gets the 400 with the validator's message, and a payload that passes
    gets the 400 reserved for unsupported bulk operations. *)
Theorem multi_target_update_rejected
    (e : env) (d : db) (ids : list jsval) (upd : object) :
  1 < List.length ids ->
  keys upd <> ["manager_id"] ->
  let request := {| user_ids := Some ids; update_data := Some upd |} in
  let unknown :=
    List.filter (fun k => if in_dec string_dec k validKeys then false else true)
      (keys upd) in
  snd (updateUser sql_text e d request) = d
  /\ (unknown <> [] ->
      updateUser sql_text e d request
      = (Return {| code := 400; status_of := error;
                   msg := Some (Lit ("Invalid keys in update_data: "
                                     ++ String.concat ", " unknown));
                   data := NoData |}, d))
  /\ (unknown = [] ->
      match validateUpdate upd with
      | Throw => updateUser sql_text e d request = (Throw, d)
      | Return vr =>
          updateUser sql_text e d request
          = (Return {| code := 400; status_of := error;
                       msg := Some (Lit (if u_isValid vr
                                         then "Individual updates can only be performed on a single user."
                                         else u_message vr));
                       data := NoData |}, d)
      end).
Proof.
  intros Hn Hk request unknown.
  split; [now apply multi_target_update_wrote_nothing|].
  assert (Hb : (List.length (keys upd) =? 1) && truthy (prop upd "manager_id") = false).
  { destruct ((List.length (keys upd) =? 1) && truthy (prop upd "manager_id")) eqn:E;
      [|reflexivity].
    exfalso. apply Hk. now apply sole_manager_id. }
  assert (Hu : List.filter (fun key => negb (includes validKeys key)) (keys upd) = unknown).
  { apply filter_ext. intros k.
    destruct (in_dec string_dec k validKeys) as [H|H].
    - apply includes_In in H. now rewrite H.
    - destruct (includes validKeys k) eqn:E; [|reflexivity].
      apply includes_In in E. contradiction. }
  apply Nat.ltb_lt in Hn.
  unfold updateUser, request. cbn [user_ids update_data]. fold validKeys.
  rewrite Hu. split.
  - intros Hne. destruct unknown; [contradiction|reflexivity].
  - intros ->. change (0 <? List.length (@nil string)) with false. cbv iota.
    destruct (validateUpdate upd) as [vr|]; [|reflexivity].
    destruct (u_isValid vr); cbn [negb]; [|reflexivity].
    now rewrite Hb, Hn.
Qed.


(** C7, amended. [deleteUser] answers 400 when [user_id] and [mob_num] are
    both falsy. With a truthy [user_id] it deletes the rows of that id;
    with a falsy [user_id] and a non-empty string [mob_num] it deletes the
    rows whose [mob_num] is the request value stripped of its non-digits
    and cut to its last ten characters. In both cases the other rows stay,
    in order, the managers are untouched, and the reply is 404 exactly when
    no row was deleted and 200 otherwise. With a falsy [user_id] and a
    truthy [mob_num] that is not a string the handler throws and the store
    is as it was. *)
Theorem deleteUser_outcomes (d : db) (body : object) :
  let uid := prop body "user_id" in
  let mob := prop body "mob_num" in
  let deletes (hit : User.row -> Prop) :=
    exists r d' keep,
      deleteUser sql_text d body = (Return r, d')
      /\ managers d' = managers d
      /\ users d' = List.filter keep (users d)
      /\ (forall u, keep u = true <-> ~ hit u)
      /\ ((r = {| code := 404; status_of := error;
                  msg := Some (Lit "User not found."); data := NoData |}
           /\ users d' = users d)
          \/ (r = {| code := 200; status_of := success;
                     msg := Some (Lit "User deleted successfully."); data := NoData |}
              /\ List.length (users d') < List.length (users d))) in
  (truthy uid = false -> truthy mob = false ->
   deleteUser sql_text d body
   = (Return {| code := 400; status_of := error;
                msg := Some (Lit "Missing required keys: user_id or mob_num.");
                data := NoData |}, d))
  /\ (forall id, truthy uid = true -> sql_text uid = Some id ->
                 deletes (fun u => User.user_id u = id))
  /\ (forall m, truthy uid = false -> mob = JStr m -> m <> "" ->
                deletes (fun u => User.mob_num u = normal_number m))
  /\ (truthy uid = false -> truthy mob = true -> is_string mob = false ->
      deleteUser sql_text d body = (Throw, d)).
Proof.
  intros uid mob deletes.
  assert (Hdel : forall (col : User.row -> string) (v : string),
             deleteUser sql_text d body = deleted_reply d col v ->
             exists r d' keep,
               deleteUser sql_text d body = (Return r, d')
               /\ managers d' = managers d
               /\ users d' = List.filter keep (users d)
               /\ (forall u, keep u = true <-> col u <> v)
               /\ ((r = {| code := 404; status_of := error;
                           msg := Some (Lit "User not found."); data := NoData |}
                    /\ users d' = users d)
                   \/ (r = {| code := 200; status_of := success;
                              msg := Some (Lit "User deleted successfully.");
                              data := NoData |}
                       /\ List.length (users d') < List.length (users d)))).
  { intros col v ->. unfold deleted_reply. cbv zeta.
    set (keep := fun u => negb (String.eqb (col u) v)).
    assert (Hkeep : forall u, keep u = true <-> col u <> v).
    { intros u. unfold keep. now rewrite negb_true_iff, String.eqb_neq. }
    pose proof (filter_length_le keep (users d)) as Hle.
    destruct (List.length (users d) - List.length (List.filter keep (users d)) =? 0)
      eqn:E.
    - apply Nat.eqb_eq in E.
      assert (Hall : List.filter keep (users d) = users d) by (apply filter_all; lia).
      exists {| code := 404; status_of := error;
                msg := Some (Lit "User not found."); data := NoData |}, d, keep.
      split; [reflexivity|]. split; [reflexivity|]. split; [now rewrite Hall|].
      split; [exact Hkeep|]. left. split; reflexivity.
    - apply Nat.eqb_neq in E.
      exists {| code := 200; status_of := success;
                msg := Some (Lit "User deleted successfully."); data := NoData |},
        (with_users d (List.filter keep (users d))), keep.
      split; [reflexivity|]. split; [reflexivity|]. split; [reflexivity|].
      split; [exact Hkeep|]. right. split; [reflexivity|]. cbn [users with_users]. lia. }
  split; [|split; [|split]].
  - intros Tu Tm. unfold deleteUser. fold uid mob. now rewrite Tu, Tm.
  - intros id Tu Hid. apply (Hdel User.user_id id).
    unfold deleteUser. fold uid mob. rewrite Tu, Hid. cbn [negb andb].
    apply delete_reply.
  - intros m Tu Hm Hne. rewrite <- Words.formatMobNum_normal_number.
    apply (Hdel User.mob_num (formatMobNum m)).
    apply (deleteUser_by_mob sql_text d body m Tu Hm Hne).
  - intros Tu Tm Hs. unfold deleteUser. fold uid mob. rewrite Tu, Tm. cbn [negb andb].
    destruct mob; try discriminate Hs; reflexivity.
Qed.

(** C8, amended. With a truthy [mob_num] that is not a string [getUsers]
    throws. Otherwise it answers 200 with rows of the store in store order,
    the store unchanged, and a row is among them exactly when it is active
    and meets every filter whose value is truthy: its [user_id] is the text
    bound for the [user_id] asked for, its [mob_num] ends with the digits of
    the number asked for, cut to the last ten, its [manager_id] is the text
    bound for the one asked for. Without filters the answer is the list of
    the active rows. *)
Theorem getUsers_lists_active_matches (d : db) (body : object) :
  let uid := prop body "user_id" in
  let mob := prop body "mob_num" in
  let mid := prop body "manager_id" in
  (truthy mob = true -> is_string mob = false ->
   getUsers sql_text d body = (Throw, d))
  /\ (truthy mob = false \/ is_string mob = true ->
      exists keep,
        getUsers sql_text d body =
        (Return {| code := 200; status_of := success; msg := None;
                   data := UsersFound (List.filter keep (users d)) |}, d)
        /\ (forall u,
               keep u = true <->
               User.is_active u = true
               /\ (truthy uid = true ->
                   exists s, sql_text uid = Some s /\ User.user_id u = s)
               /\ (forall m, mob = JStr m -> m <> "" ->
                             exists pre,
                               User.mob_num u = (pre ++ normal_number m)%string)
               /\ (truthy mid = true ->
                   exists s, sql_text mid = Some s /\ User.manager_id u = s))
        /\ (truthy uid = false -> truthy mob = false -> truthy mid = false ->
            List.filter keep (users d) = List.filter User.is_active (users d))).
Proof.
  intros uid mob mid. split.
  - intros Tm Hs. unfold getUsers. fold uid mob mid. rewrite Tm.
    destruct mob; try discriminate Hs; reflexivity.
  - intros Hm.
    set (c1 := if truthy uid
               then [fun u => Sql.eq_param (User.user_id u) (sql_text uid)] else []).
    set (c3 := if truthy mid
               then [fun u => Sql.eq_param (User.manager_id u) (sql_text mid)] else []).
    assert (Hc2 : exists c2 : list (User.row -> bool),
               (if truthy mob
                then m <- string_method mob ;;
                     Return [fun u => Sql.like_suffix (User.mob_num u) (formatMobNum m)]
                else Return []) = Return c2
               /\ (forall u, List.forallb (fun c => c u) c2 = true <->
                             forall m, mob = JStr m -> m <> "" ->
                                       exists pre,
                                         User.mob_num u = (pre ++ normal_number m)%string)
               /\ (truthy mob = false -> c2 = [])).
    { destruct (truthy mob) eqn:Tm.
      - destruct Hm as [Hm|Hm]; [discriminate Hm|].
        destruct mob as [| | | |m| |]; try discriminate Hm.
        eexists. split; [reflexivity|]. split; [|discriminate].
        intros u. cbn [List.forallb]. rewrite andb_true_r, like_suffix_normal.
        split.
        + intros H m' E _. now injection E as <-.
        + intros H. apply (H m eq_refl). intros ->. discriminate Tm.
      - exists []. split; [reflexivity|]. split; [|reflexivity].
        intros u. split; [|reflexivity]. intros _ m E Hne. exfalso.
        rewrite E in Tm. cbn [truthy] in Tm. apply negb_false_iff in Tm.
        apply String.eqb_eq in Tm. contradiction. }
    destruct Hc2 as (c2 & Ec2 & Hc2 & Hnone).
    exists (fun u => User.is_active u && List.forallb (fun c => c u) (c1 ++ c2 ++ c3)).
    split; [|split].
    + unfold getUsers. fold uid mob mid. rewrite Ec2. reflexivity.
    + intros u. rewrite andb_true_iff, !forallb_app, !andb_true_iff, Hc2.
      assert (H1 : List.forallb (fun c => c u) c1 = true <->
                   (truthy uid = true ->
                    exists s, sql_text uid = Some s /\ User.user_id u = s)).
      { unfold c1. destruct (truthy uid).
        - cbn [List.forallb]. rewrite andb_true_r, eq_param_bound. tauto.
        - split; [discriminate|reflexivity]. }
      assert (H3 : List.forallb (fun c => c u) c3 = true <->
                   (truthy mid = true ->
                    exists s, sql_text mid = Some s /\ User.manager_id u = s)).
      { unfold c3. destruct (truthy mid).
        - cbn [List.forallb]. rewrite andb_true_r, eq_param_bound. tauto.
        - split; [discriminate|reflexivity]. }
      rewrite H1, H3. tauto.
    + intros Tu Tm Tg. unfold c1, c3. rewrite Tu, Tg, (Hnone Tm).
      apply filter_ext. intros u. cbn [List.app List.forallb]. apply andb_true_r.
Qed.


End Outcomes.

(** *** Start-up *)

Lemma insert_manager_users (d : db) (id name : string) (a : bool) :
  users (Startup.insert_manager d id name a) = users d.
Proof. unfold Startup.insert_manager. now destruct (existsb _ _). Qed.

(** X24. [prefillManagers] never touches the users and leaves a table
    that already has managers as it is, so running it again changes nothing;
    on an empty table and three distinct ids it leaves exactly three rows,
    in this order: Manager A, active; Manager B, active; Inactive Manager,
    inactive; each under the id drawn for it. *)
Theorem prefillManagers_seeds_once (uuids : nat -> string) (d : db) :
  users (Startup.prefillManagers uuids d) = users d
  /\ (managers d <> [] -> Startup.prefillManagers uuids d = d)
  /\ (forall uuids',
         Startup.prefillManagers uuids' (Startup.prefillManagers uuids d)
         = Startup.prefillManagers uuids d)
  /\ (managers d = [] ->
      uuids 0 <> uuids 1 -> uuids 0 <> uuids 2 -> uuids 1 <> uuids 2 ->
      managers (Startup.prefillManagers uuids d)
      = [ {| Manager.manager_id := uuids 0; Manager.manager_name := "Manager A";
             Manager.is_active := true |};
          {| Manager.manager_id := uuids 1; Manager.manager_name := "Manager B";
             Manager.is_active := true |};
          {| Manager.manager_id := uuids 2; Manager.manager_name := "Inactive Manager";
             Manager.is_active := false |} ]
      /\ Sql.get_manager_is_active (Startup.prefillManagers uuids d) (Some (uuids 0))
         = Some true
      /\ Sql.get_manager_is_active (Startup.prefillManagers uuids d) (Some (uuids 1))
         = Some true
      /\ Sql.get_manager_is_active (Startup.prefillManagers uuids d) (Some (uuids 2))
         = Some false).
Proof.
  assert (Hkeep : managers d <> [] -> Startup.prefillManagers uuids d = d).
  { intros H. unfold Startup.prefillManagers.
    destruct (managers d); [contradiction|reflexivity]. }
  split; [|split; [exact Hkeep|split]].
  - unfold Startup.prefillManagers. destruct (List.length (managers d) =? 0);
      [|reflexivity]. cbv zeta. now rewrite !insert_manager_users.
  - intros uuids'. destruct (managers d) as [|m ms] eqn:E.
    + unfold Startup.prefillManagers at 1.
      replace (List.length (managers (Startup.prefillManagers uuids d)) =? 0) with false;
        [reflexivity|].
      unfold Startup.prefillManagers. rewrite E. cbn [List.length Nat.eqb]. cbv zeta.
      unfold Startup.insert_manager at 3. rewrite E. cbn [existsb managers List.app].
      unfold Startup.insert_manager.
      repeat (match goal with
              | |- context [if ?b then _ else _] => destruct b
              end; cbn [managers List.app List.length Nat.eqb]); reflexivity.
    + assert (Hne : m :: ms <> []) by discriminate.
      rewrite (Hkeep Hne). unfold Startup.prefillManagers. now rewrite E.
  - intros E H01 H02 H12. unfold Startup.prefillManagers. rewrite E.
    cbn [List.length Nat.eqb]. cbv zeta.
    unfold Startup.insert_manager, Sql.get_manager_is_active. rewrite E.
    cbn [existsb managers List.app Manager.manager_id orb].
    assert (H10 : uuids 1 <> uuids 0) by congruence.
    assert (H20 : uuids 2 <> uuids 0) by congruence.
    assert (H21 : uuids 2 <> uuids 1) by congruence.
    apply String.eqb_neq in H01, H02, H12, H10, H20, H21.
    repeat (rewrite ?H01, ?H02, ?H12, ?H10, ?H20, ?H21, ?String.eqb_refl;
            cbn [managers List.app existsb List.map Manager.is_active List.find
                 Manager.manager_id Sql.eq_param option_map orb]).
    repeat split; reflexivity.
Qed.

(** ** More runs on the sample store *)

Module Tour.
Import Sample.

Lemma binds_strings (s : string) : bind_text (JStr s) = Some s.
Proof. reflexivity. Qed.

Lemma store_keys_hold : keys_hold (users store).
Proof.
  repeat split; repeat constructor; simpl; intuition discriminate.
Qed.

Definition meera_request : object :=
  [ ("full_name", JStr "Meera Nair"); ("mob_num", JStr "+91-91234-56789");
    ("pan_num", JStr "fghij5678k"); ("manager_id", JStr "m-b") ].

Definition meera_valid : validation :=
  {| isValid := true; message := "Validation successful.";
     v_mob_num := Some "9123456789"; v_pan_num := Some "FGHIJ5678K" |}.

Definition meera_row : User.row :=
  {| User.user_id := "u-9"; User.full_name := "Meera Nair";
     User.mob_num := "9123456789"; User.pan_num := "FGHIJ5678K";
     User.manager_id := "m-b"; User.created_at := "2025-02-01T10:00:00.000Z";
     User.updated_at := "2025-02-01T10:00:00.000Z"; User.is_active := true |}.

Definition created_reply : response :=
  {| code := 201; status_of := success;
     msg := Some (Lit "User created successfully."); data := UserId "u-9" |}.

Definition with_meera : db := with_users store [asha; ravi; meera_row].

Definition new_contact : object :=
  [ ("mob_num", JStr "+91 91234 56789"); ("pan_num", JStr "fghij5678k") ].

Definition new_contact_valid : update_validation :=
  {| u_isValid := true; u_message := "Validation successful.";
     validatedData := [ ("mob_num", JStr "9123456789"); ("pan_num", JStr "FGHIJ5678K") ] |}.

Definition to_manager (m : string) : object := [("manager_id", JStr m)].

Definition to_manager_valid (m : string) : update_validation :=
  {| u_isValid := true; u_message := "Validation successful.";
     validatedData := to_manager m |}.

Definition seed_ids (n : nat) : string :=
  match n with
  | 0 => "m-1"
  | 1 => "m-2"
  | _ => "m-3"
  end.

Definition empty_store : db := {| managers := []; users := [] |}.

Lemma create_served : createUser bind_text world store meera_request
                      = (Return created_reply, with_meera).
Proof. reflexivity. Qed.

Lemma validateUser_accepts_its_output_run :
  validateUser (JStr "Meera Nair") (JStr "9123456789") (JStr "FGHIJ5678K")
  = Return meera_valid.
Proof.
  exact (validateUser_accepts_its_output "Meera Nair" "+91-91234-56789" "fghij5678k"
           meera_valid "9123456789" "FGHIJ5678K" eq_refl eq_refl eq_refl).
Defined.

Lemma validateUpdate_normal_form_run :
  validatedData new_contact_valid
  = [ ("mob_num", JStr "9123456789"); ("pan_num", JStr "FGHIJ5678K") ]
  /\ validateUpdate (validatedData new_contact_valid) = Return new_contact_valid.
Proof.
  destruct (validateUpdate_normal_form new_contact new_contact_valid eq_refl eq_refl)
    as (H1 & _ & _ & H2).
  - repeat constructor; simpl; intuition discriminate.
  - split; [exact H1|exact H2].
Defined.

Lemma createUser_refuses_inactive_manager_run :
  createUser bind_text world store
    [ ("full_name", JStr "Meera Nair"); ("mob_num", JStr "+91-91234-56789");
      ("pan_num", JStr "fghij5678k"); ("manager_id", JStr "m-c") ]
  = respond store 400 error (ManagerNotActive (JStr "m-c")).
Proof.
  exact (createUser_refuses_inactive_manager bind_text world store
           [ ("full_name", JStr "Meera Nair"); ("mob_num", JStr "+91-91234-56789");
             ("pan_num", JStr "fghij5678k"); ("manager_id", JStr "m-c") ]
           meera_valid eq_refl eq_refl eq_refl ltac:(discriminate)).
Defined.

Lemma createUser_reports_missing_keys_run :
  createUser bind_text world store
    [ ("full_name", JStr "Meera Nair"); ("mob_num", JNum 5) ]
  = respond store 400 error (Lit "Missing required keys: pan_num, manager_id").
Proof.
  exact (createUser_reports_missing_keys bind_text world store
           [ ("full_name", JStr "Meera Nair"); ("mob_num", JNum 5) ] "manager_id"
           ltac:(simpl; tauto) eq_refl).
Defined.

(** Ravi's row is inactive and still blocks his number. *)
Lemma createUser_rejects_duplicates_run :
  createUser bind_text world store
    [ ("full_name", JStr "Ravi Again"); ("mob_num", JStr "+91 91234-56780");
      ("pan_num", JStr "fghij5678k"); ("manager_id", JStr "m-b") ]
  = internal_error store.
Proof.
  exact (createUser_rejects_duplicates bind_text binds_strings world store
           [ ("full_name", JStr "Ravi Again"); ("mob_num", JStr "+91 91234-56780");
             ("pan_num", JStr "fghij5678k"); ("manager_id", JStr "m-b") ]
           "Ravi Again" "+91 91234-56780" "fghij5678k" ravi
           eq_refl eq_refl eq_refl eq_refl eq_refl eq_refl eq_refl eq_refl
           (or_intror (or_introl eq_refl)) (or_introl eq_refl)).
Defined.

Lemma createUser_keeps_keys_run :
  keys_hold (users (snd (createUser bind_text world store meera_request))).
Proof. exact (createUser_keeps_keys bind_text world store meera_request store_keys_hold). Defined.

Lemma created_user_is_listed_run :
  exists row,
    getUsers bind_text with_meera [("user_id", JStr "u-9")]
    = (Return {| code := 200; status_of := success; msg := None;
                 data := UsersFound [row] |}, with_meera)
    /\ User.mob_num row = "9123456789" /\ User.pan_num row = "FGHIJ5678K".
Proof.
  destruct (created_user_is_listed bind_text binds_strings world store with_meera
              meera_request "Meera Nair" "+91-91234-56789" "fghij5678k" created_reply
              eq_refl eq_refl eq_refl eq_refl create_served eq_refl ltac:(discriminate))
    as (row & H1 & _ & _ & H2 & H3 & _).
  exists row. repeat split; assumption.
Defined.

Lemma created_user_can_be_deleted_run :
  deleteUser bind_text with_meera [("user_id", JStr "u-9")]
  = respond store 200 success (Lit "User deleted successfully.").
Proof.
  exact (created_user_can_be_deleted bind_text binds_strings world store with_meera
           meera_request "Meera Nair" "+91-91234-56789" "fghij5678k" created_reply
           eq_refl eq_refl eq_refl eq_refl create_served eq_refl ltac:(discriminate)).
Defined.

Lemma deleteUser_body_shapes_run :
  fst (deleteUser bind_text store [("mob_num", JNum 9876543210)]) = Throw
  /\ deleteUser bind_text store [("user_id", JStr "u-1"); ("mob_num", JNum 9876543210)]
     = deleteUser bind_text store [("user_id", JStr "u-1")].
Proof.
  split.
  - apply (proj1 (deleteUser_body_shapes bind_text store [("mob_num", JNum 9876543210)])).
    repeat split.
  - exact (proj1 (proj2 (deleteUser_body_shapes bind_text store
                           [("user_id", JStr "u-1"); ("mob_num", JNum 9876543210)]))
             eq_refl).
Defined.

Lemma deleteUser_keeps_keys_run :
  keys_hold (users (snd (deleteUser bind_text store [("user_id", JStr "u-1")]))).
Proof.
  exact (deleteUser_keeps_keys bind_text store [("user_id", JStr "u-1")] store_keys_hold).
Defined.

Lemma getUsers_reads_only_run :
  fst (getUsers bind_text store [("mob_num", JNum 43210)]) = Throw
  /\ snd (getUsers bind_text store [("mob_num", JNum 43210)]) = store.
Proof.
  destruct (getUsers_reads_only bind_text store [("mob_num", JNum 43210)])
    as (H1 & H2 & _).
  split; [apply H2; repeat split|exact H1].
Defined.

Lemma updateUser_keeps_keys_run :
  keys_hold
    (users (snd (updateUser bind_text world store
                   {| user_ids := Some [JStr "u-1"]; update_data := Some new_contact |}))).
Proof. exact (updateUser_keeps_keys bind_text world store _ store_keys_hold). Defined.

Lemma updateUser_rejects_unknown_keys_run :
  updateUser bind_text world store
    {| user_ids := Some [JStr "u-1"];
       update_data := Some [("role", JStr "admin"); ("mob_num", JNum 5)] |}
  = respond store 400 error (Lit "Invalid keys in update_data: role").
Proof.
  exact (proj2 (updateUser_rejects_unknown_keys bind_text world store)
           [JStr "u-1"] [("role", JStr "admin"); ("mob_num", JNum 5)] "role"
           (or_introl eq_refl) ltac:(simpl; intuition discriminate)).
Defined.

Lemma updateUser_refuses_inactive_manager_run :
  updateUser bind_text world store
    {| user_ids := Some [JStr "u-1"]; update_data := Some (to_manager "m-c") |}
  = respond store 400 error (ManagerNotActive (JStr "m-c"))
  /\ updateUser bind_text world store
       {| user_ids := Some [JStr "u-1"; JStr "u-2"];
          update_data := Some (to_manager "m-x") |}
     = respond store 400 error (ManagerNotActive (JStr "m-x")).
Proof.
  split.
  - exact (updateUser_refuses_inactive_manager bind_text world store [JStr "u-1"]
             (to_manager "m-c") (to_manager_valid "m-c") eq_refl eq_refl eq_refl
             (or_introl (le_n 1)) ltac:(discriminate)).
  - exact (updateUser_refuses_inactive_manager bind_text world store
             [JStr "u-1"; JStr "u-2"]
             (to_manager "m-x") (to_manager_valid "m-x") eq_refl eq_refl eq_refl
             (or_intror eq_refl) ltac:(discriminate)).
Defined.

(** Ravi is inactive: he cannot be reassigned. *)
Lemma updateUser_reassignment_needs_active_user_run :
  updateUser bind_text world store
    {| user_ids := Some [JStr "u-2"]; update_data := Some (to_manager "m-b") |}
  = respond store 404 error (Lit "User not found or is inactive.").
Proof.
  apply (updateUser_reassignment_needs_active_user bind_text world store [JStr "u-2"]
           (to_manager "m-b") (to_manager_valid "m-b") eq_refl eq_refl eq_refl
           (le_n 1) eq_refl).
  intros u [<-|[<-|[]]] H; [discriminate H|reflexivity].
Defined.

Lemma updateUser_field_update_not_found_run :
  updateUser bind_text world store
    {| user_ids := Some [JStr "u-7"]; update_data := Some new_contact |}
  = respond store 404 error (Lit "User not found.").
Proof.
  apply (updateUser_field_update_not_found bind_text world store [JStr "u-7"]
           new_contact new_contact_valid eq_refl eq_refl eq_refl (le_n 1)).
  intros u [<-|[<-|[]]]; reflexivity.
Defined.

(** Asha cannot take Ravi's number. *)
Lemma updateUser_field_update_rejects_duplicates_run :
  updateUser bind_text world store
    {| user_ids := Some [JStr "u-1"];
       update_data := Some [("mob_num", JStr "(0) 91234 56780")] |}
  = internal_error store.
Proof.
  apply (updateUser_field_update_rejects_duplicates bind_text binds_strings world store
           (JStr "u-1") "u-1" [("mob_num", JStr "(0) 91234 56780")]
           {| u_isValid := true; u_message := "Validation successful.";
              validatedData := [("mob_num", JStr "9123456780")] |}
           asha ravi eq_refl eq_refl).
  - repeat constructor; simpl; intuition.
  - reflexivity.
  - reflexivity.
  - simpl; tauto.
  - reflexivity.
  - simpl; tauto.
  - discriminate.
  - left. split; reflexivity.
Defined.

(** Asha gets a new number and PAN, stored in normal form. *)
Lemma updateUser_field_update_applies_run :
  exists d',
    updateUser bind_text world store
      {| user_ids := Some [JStr "u-1"]; update_data := Some new_contact |}
    = (Return {| code := 200; status_of := success;
                 msg := Some (Lit "User updated successfully."); data := NoData |}, d')
    /\ managers d' = managers store
    /\ users d' = [ {| User.user_id := "u-1"; User.full_name := "Asha Rao";
                       User.mob_num := "9123456789"; User.pan_num := "FGHIJ5678K";
                       User.manager_id := "m-a";
                       User.created_at := "2025-01-01T00:00:00.000Z";
                       User.updated_at := "2025-02-01T10:00:00.000Z";
                       User.is_active := true |}; ravi ].
Proof.
  apply (updateUser_field_update_applies bind_text binds_strings world store
           (JStr "u-1") "u-1" new_contact new_contact_valid asha eq_refl eq_refl eq_refl).
  - repeat constructor; simpl; intuition discriminate.
  - reflexivity.
  - reflexivity.
  - exact store_keys_hold.
  - simpl; tauto.
  - reflexivity.
  - intros w [<-|[<-|[]]] Hne; [now contradiction Hne|].
    split; intros _; discriminate.
Defined.

Lemma reassigned_user_disappears_run :
  exists d',
    snd (updateUser bind_text world store
           {| user_ids := Some [JStr "u-1"]; update_data := Some (to_manager "m-b") |})
    = d'
    /\ getUsers bind_text d' [("user_id", JStr "u-1")]
       = (Return {| code := 200; status_of := success; msg := None;
                    data := UsersFound [] |}, d')
    /\ updateUser bind_text world d'
         {| user_ids := Some [JStr "u-1"]; update_data := Some (to_manager "m-b") |}
       = respond d' 404 error (Lit "User not found or is inactive.").
Proof.
  exact (reassigned_user_disappears bind_text binds_strings world world store "u-1"
           (to_manager "m-b") (to_manager_valid "m-b") asha
           eq_refl eq_refl eq_refl eq_refl eq_refl ltac:(discriminate)).
Defined.

(** Asha's manager is overwritten with the empty string. *)
Lemma empty_manager_id_run :
  exists d',
    updateUser bind_text world store
      {| user_ids := Some [JStr "u-1"]; update_data := Some [("manager_id", JStr "")] |}
    = (Return {| code := 200; status_of := success;
                 msg := Some (Lit "User updated successfully."); data := NoData |}, d')
    /\ managers d' = managers store
    /\ users d' = [ {| User.user_id := "u-1"; User.full_name := "Asha Rao";
                       User.mob_num := "9876543210"; User.pan_num := "ABCDE1234F";
                       User.manager_id := "";
                       User.created_at := "2025-01-01T00:00:00.000Z";
                       User.updated_at := "2025-02-01T10:00:00.000Z";
                       User.is_active := true |}; ravi ].
Proof.
  exact (empty_manager_id_is_written_in_place bind_text binds_strings world store "u-1"
           asha (or_introl eq_refl) eq_refl).
Defined.

Lemma never_reports_no_valid_fields_run :
  msg {| code := 400; status_of := error;
         msg := Some (Lit "No valid fields provided for update."); data := NoData |}
  <> Some (Lit "No valid fields to update.").
Proof.
  exact (updateUser_never_reports_no_valid_fields bind_text world store
           {| user_ids := Some [JStr "u-1"]; update_data := Some [] |} _ eq_refl).
Defined.

Lemma client_errors_write_nothing_run :
  snd (deleteUser bind_text store [("user_id", JStr "u-7")]) = store.
Proof.
  exact (proj1 (proj2 (client_errors_write_nothing bind_text world store
                         (snd (deleteUser bind_text store [("user_id", JStr "u-7")]))
                         {| code := 404; status_of := error;
                            msg := Some (Lit "User not found."); data := NoData |}
                         ltac:(simpl; lia)))
           [("user_id", JStr "u-7")] eq_refl).
Defined.

(** The three seed rows on an empty store; the sample store is left alone. *)
Lemma prefillManagers_seeds_once_run :
  managers (Startup.prefillManagers seed_ids empty_store)
  = [ {| Manager.manager_id := "m-1"; Manager.manager_name := "Manager A";
         Manager.is_active := true |};
      {| Manager.manager_id := "m-2"; Manager.manager_name := "Manager B";
         Manager.is_active := true |};
      {| Manager.manager_id := "m-3"; Manager.manager_name := "Inactive Manager";
         Manager.is_active := false |} ]
  /\ Startup.prefillManagers seed_ids store = store.
Proof.
  destruct (prefillManagers_seeds_once seed_ids empty_store) as (_ & _ & _ & H).
  destruct (H eq_refl ltac:(discriminate) ltac:(discriminate) ltac:(discriminate))
    as (H1 & _).
  split; [exact H1|].
  exact (proj1 (proj2 (prefillManagers_seeds_once seed_ids store)) ltac:(discriminate)).
Defined.

End Tour.

(** ** The outcomes at work on the sample store *)

Module Cases.
Import Sample Run.


(** A bulk reassignment of both sample users to manager B: both rows,
    Ravi's inactive one included, get the manager and the time of the
    request. *)
Lemma bulk_reassignment_run :
  exists r d',
    updateUser bind_text world store
      {| user_ids := Some [JStr "u-1"; JStr "u-2"];
         update_data := Some [("manager_id", JStr "m-b")] |}
    = (Return r, d')
    /\ msg r = Some (BulkUpdateSuccessful 2)
    /\ List.map User.manager_id (users d') = ["m-b"; "m-b"]
    /\ List.map User.updated_at (users d')
       = ["2025-02-01T10:00:00.000Z"; "2025-02-01T10:00:00.000Z"]
    /\ List.map User.is_active (users d') = [true; false].
Proof.
  destruct (bulk_reassignment_updates_targets bind_text bind_text_string
              world store ["u-1"; "u-2"] (JStr "m-b") "m-b"
              eq_refl eq_refl eq_refl (le_n 2))
    as (r & d' & Heq & _ & _ & Hmsg & _ & Hrows).
  exists r, d'. split; [exact Heq|]. split; [exact Hmsg|].
  inversion Hrows as [|a a' l l' Ha Hl E1 E2]; subst.
  inversion Hl as [|b b' l0 l0' Hb Hl0 E3 E4]; subst.
  inversion Hl0; subst.
  destruct Ha as (_ & _ & _ & _ & _ & Ha6 & Ha7 & _).
  destruct Hb as (_ & _ & _ & _ & _ & Hb6 & Hb7 & _).
  destruct (Ha7 (or_introl eq_refl)) as [Ha1 Ha2].
  destruct (Hb7 (or_intror (or_introl eq_refl))) as [Hb1 Hb2].
  cbn [List.map]. rewrite Ha1, Ha2, Hb1, Hb2, Ha6, Hb6. repeat split.
Defined.

(** Two targets and a payload that renames: refused, nothing written; two
    targets and a payload on which the validator throws: nothing written. *)
Lemma multi_target_update_rejected_run :
  updateUser bind_text world store
    {| user_ids := Some [JStr "u-1"; JStr "u-2"];
       update_data := Some [("full_name", JStr "Asha R. Rao")] |}
  = (Return {| code := 400; status_of := error;
               msg := Some (Lit "Individual updates can only be performed on a single user.");
               data := NoData |}, store)
  /\ snd (updateUser bind_text world store
            {| user_ids := Some [JStr "u-1"; JStr "u-2"];
               update_data := Some [("pan_num", JNull)] |}) = store.
Proof.
  split.
  - exact (proj2 (proj2 (multi_target_update_rejected bind_text world store
                           [JStr "u-1"; JStr "u-2"] [("full_name", JStr "Asha R. Rao")]
                           (le_n 2) ltac:(discriminate))) eq_refl).
  - exact (proj1 (multi_target_update_rejected bind_text world store
                    [JStr "u-1"; JStr "u-2"] [("pan_num", JNull)]
                    (le_n 2) ltac:(discriminate))).
Defined.

(** The counterexample to C5 as stated: two targets and a payload that is
    not the single field [manager_id], answered with the 400 of the
    mobile-number check, not with the one for unsupported bulk operations. *)
Lemma multi_target_update_reports_validation_first :
  1 < List.length [JStr "u-1"; JStr "u-2"]
  /\ keys [("mob_num", JStr "123")] <> ["manager_id"]
  /\ updateUser bind_text world store
       {| user_ids := Some [JStr "u-1"; JStr "u-2"];
          update_data := Some [("mob_num", JStr "123")] |}
     = (Return {| code := 400; status_of := error;
                  msg := Some (Lit "Mobile number must be a valid 10-digit number.");
                  data := NoData |}, store).
Proof. split; [apply le_n|]. split; [discriminate|reflexivity]. Qed.


(** The example of the specification: a formatted number deletes the row
    stored under its ten digits. An id nobody holds gets the 404, whatever
    [mob_num] is; an empty body the 400; a boolean [mob_num] throws. *)
Lemma deleteUser_outcomes_run :
  (exists r d',
      deleteUser bind_text store [("mob_num", JStr "+91-98765-43210")] = (Return r, d')
      /\ code r = 200
      /\ managers d' = managers store
      /\ users d' = [ravi])
  /\ (exists r,
         deleteUser bind_text store [("user_id", JStr "u-7"); ("mob_num", JNum 5)]
         = (Return r, store)
         /\ code r = 404)
  /\ deleteUser bind_text store []
     = (Return {| code := 400; status_of := error;
                  msg := Some (Lit "Missing required keys: user_id or mob_num.");
                  data := NoData |}, store)
  /\ deleteUser bind_text store [("mob_num", JBool true)] = (Throw, store).
Proof.
  destruct (deleteUser_outcomes bind_text store [("mob_num", JStr "+91-98765-43210")])
    as (_ & _ & Hmob & _).
  split; [|split; [|split]].
  - destruct (Hmob "+91-98765-43210" eq_refl eq_refl ltac:(discriminate))
      as (r & d' & keep & Heq & Hm & Hu & Hkeep & Hr).
    assert (Ha : keep asha = false).
    { destruct (keep asha) eqn:E; [|reflexivity].
      apply Hkeep in E. exfalso. apply E. reflexivity. }
    assert (Hb : keep ravi = true) by (apply Hkeep; discriminate).
    cbn [users store List.filter] in Hu. rewrite Ha, Hb in Hu.
    exists r, d'. split; [exact Heq|]. split; [|split; [exact Hm|exact Hu]].
    destruct Hr as [[_ Hsame]|[-> _]]; [|reflexivity].
    rewrite Hu in Hsame. discriminate Hsame.
  - destruct (deleteUser_outcomes bind_text store
                [("user_id", JStr "u-7"); ("mob_num", JNum 5)]) as (_ & Hid & _).
    destruct (Hid "u-7" eq_refl eq_refl) as (r & d' & keep & Heq & _ & Hu & Hkeep & Hr).
    assert (Ha : keep asha = true) by (apply Hkeep; discriminate).
    assert (Hb : keep ravi = true) by (apply Hkeep; discriminate).
    cbn [users store List.filter] in Hu. rewrite Ha, Hb in Hu.
    exists r. split.
    + rewrite Heq. f_equal. symmetry. apply (f_equal snd Heq).
    + destruct Hr as [[-> _]|[_ Hlt]]; [reflexivity|].
      rewrite Hu in Hlt. simpl in Hlt. lia.
  - exact (proj1 (deleteUser_outcomes bind_text store []) eq_refl eq_refl).
  - exact (proj2 (proj2 (proj2 (deleteUser_outcomes bind_text store
                                  [("mob_num", JBool true)]))) eq_refl eq_refl eq_refl).
Defined.

(** The counterexample to C7 as stated: [mob_num] is supplied, as a
    number; the handler neither reports NotFound nor success, it throws. *)
Lemma deleteUser_throws_on_numeric_mob_num :
  truthy (prop [("mob_num", JNum 9876543210)] "mob_num") = true
  /\ deleteUser bind_text store [("mob_num", JNum 9876543210)] = (Throw, store).
Proof. split; reflexivity. Qed.

(** Listing by a formatted number finds Asha, whose stored number ends
    with its ten digits; Ravi, inactive, is never listed. *)
Lemma getUsers_run :
  exists keep,
    getUsers bind_text store [("mob_num", JStr "(+91) 98765-43210")]
    = (Return {| code := 200; status_of := success; msg := None;
                 data := UsersFound (List.filter keep (users store)) |}, store)
    /\ keep asha = true /\ keep ravi = false
    /\ List.filter keep (users store) = [asha].
Proof.
  destruct (getUsers_lists_active_matches bind_text store
              [("mob_num", JStr "(+91) 98765-43210")]) as [_ H].
  destruct (H (or_intror eq_refl)) as (keep & Heq & Hkeep & _).
  assert (Ha : keep asha = true).
  { apply Hkeep. split; [reflexivity|]. split; [discriminate|].
    split; [|discriminate]. intros m E _. injection E as <-. now exists "". }
  assert (Hb : keep ravi = false).
  { destruct (keep ravi) eqn:E; [|reflexivity].
    apply Hkeep in E as [E _]. discriminate E. }
  exists keep. split; [exact Heq|]. split; [exact Ha|]. split; [exact Hb|].
  cbn [users store List.filter]. now rewrite Ha, Hb.
Defined.

(** The counterexample to C8 as stated: a [mob_num] filter is supplied, as
    a number; the handler returns no list, it throws. *)
Lemma getUsers_throws_on_numeric_mob_num :
  truthy (prop [("mob_num", JNum 43210)] "mob_num") = true
  /\ getUsers bind_text store [("mob_num", JNum 43210)] = (Throw, store).
Proof. split; reflexivity. Qed.


End Cases.
